(** * sol-msg: account decoding, log scanning and message reconstruction

    A shallow embedding of the read path of the [sol-msg] command line
    client ([cli/src/index.ts], and the older build [cli2/dist/index.js]):
    the account layout decoder [_fetchAccountData], the transaction log
    scan [_fetchNewMessages], the read commands and the live listener
    [monitorPdaUpdates].

    Buffers are lists of bytes, unsigned 32-bit values are integers in
    [0, 2^32), exceptions are an explicit [Completion] type, and the
    [messages] array that the scan pushes to is threaded as state. The
    ledger client and the cipher are collaborators of the program and are
    taken as parameters. *)

From Stdlib Require Import List ZArith Lia Bool.
From Stdlib.Strings Require Import String Ascii Byte.
From Stdlib Require Import Permutation Sorted.
Import ListNotations.

Local Open Scope string_scope.
Local Open Scope Z_scope.
Local Open Scope list_scope.

(* ------------------------------------------------------------------ *)
(** ** Exceptions *)

Inductive Exn : Type :=
| RangeError
| TypeError
| Error (msg : string).

Inductive Completion (A : Type) : Type :=
| Return (a : A)
| Throw (e : Exn).
Arguments Return {A} a.
Arguments Throw {A} e.

Definition cbind {A B} (c : Completion A) (k : A -> Completion B) : Completion B :=
  match c with
  | Return a => k a
  | Throw e => Throw e
  end.

Notation "'let*' x ':=' c 'in' k" := (cbind c (fun x => k))
  (at level 10, x pattern, c at level 100, k at level 200).

(* ------------------------------------------------------------------ *)
(** ** Buffers *)

Definition Buffer := list byte.

Definition byteZ (b : byte) : Z := Z.of_N (Byte.to_N b).

Definition len (buf : Buffer) : Z := Z.of_nat (List.length buf).

(** [buf.slice(start, end)] and [buf.subarray(start, end)] for
    non-negative bounds: both bounds are clamped to the length, and an
    empty buffer results when the range is empty. Never throws. *)
Definition slice (buf : Buffer) (start end_ : Z) : Buffer :=
  let s := Z.min (Z.max 0 start) (len buf) in
  let e := Z.min (Z.max 0 end_) (len buf) in
  firstn (Z.to_nat (e - s)) (skipn (Z.to_nat s) buf).

Definition subarray := slice.

(** [a.equals(b)] on buffers. *)
Definition Buffer_equals (a b : Buffer) : bool :=
  if list_eq_dec Byte.byte_eq_dec a b then true else false.

(** [buf.readUInt32LE(offset)]: a RangeError unless four bytes are
    available at [offset]. *)
Definition readUInt32LE (buf : Buffer) (offset : nat) : Completion Z :=
  match skipn offset buf with
  | first :: b1 :: b2 :: last :: _ =>
      Return (byteZ first + byteZ b1 * 2 ^ 8 + byteZ b2 * 2 ^ 16 + byteZ last * 2 ^ 24)
  | _ => Throw RangeError
  end.

(** The u32 at an offset as a total function, for stating results. *)
Definition u32_at (buf : Buffer) (offset : nat) : Z :=
  byteZ (nth offset buf x00) + byteZ (nth (offset + 1) buf x00) * 2 ^ 8
  + byteZ (nth (offset + 2) buf x00) * 2 ^ 16 + byteZ (nth (offset + 3) buf x00) * 2 ^ 24.

Definition byte_of_Z (z : Z) : byte :=
  match Byte.of_N (Z.to_N (z mod 256)) with
  | Some b => b
  | None => x00
  end.

(** [Buffer.from(new Uint32Array([n]).buffer)]: the four bytes of [n],
    least significant first. *)
Definition Uint32Array_bytes (n : Z) : Buffer :=
  let n := n mod 2 ^ 32 in
  [byte_of_Z n; byte_of_Z (n / 2 ^ 8); byte_of_Z (n / 2 ^ 16); byte_of_Z (n / 2 ^ 24)].

(** [Buffer.from(s, "hex")]. *)
Definition hex_digit (c : ascii) : option Z :=
  let n := Z.of_nat (nat_of_ascii c) in
  if (48 <=? n) && (n <=? 57) then Some (n - 48)
  else if (97 <=? n) && (n <=? 102) then Some (n - 87)
  else if (65 <=? n) && (n <=? 70) then Some (n - 55)
  else None.

Fixpoint Buffer_from_hex (s : string) : Buffer :=
  match s with
  | String hi (String lo rest) =>
      match hex_digit hi, hex_digit lo with
      | Some h, Some l => byte_of_Z (16 * h + l) :: Buffer_from_hex rest
      | _, _ => []
      end
  | _ => []
  end.

(** [Buffer.from(s, "utf8")] and [buf.toString("utf8")]: a string is kept
    as its UTF-8 byte sequence (bytes that are not valid UTF-8, which
    [toString] would replace, are kept as they are). *)
Definition Buffer_from_utf8 (s : string) : Buffer := list_byte_of_string s.
Definition toString_utf8 (b : Buffer) : string := string_of_list_byte b.

(* ------------------------------------------------------------------ *)
(** ** Public keys and base58 *)

(** A public key is its 32-byte big-endian representation. *)
Definition PublicKey := list byte.

Definition PUBLIC_KEY_LENGTH : nat := 32.

(** [new PublicKey(bytes)] for at most 32 bytes: the bytes are read as a
    big-endian number, so a shorter input is padded with leading zeros. *)
Definition new_PublicKey (b : Buffer) : PublicKey :=
  repeat x00 (PUBLIC_KEY_LENGTH - List.length b) ++ b.

Definition PublicKey_equals (a b : PublicKey) : bool := Buffer_equals a b.

Definition base58_alphabet : string :=
  "123456789ABCDEFGHJKLMNPQRSTUVWXYZabcdefghijkmnopqrstuvwxyz".

Fixpoint index_in (c : ascii) (alphabet : string) (i : Z) : option Z :=
  match alphabet with
  | EmptyString => None
  | String a rest => if Ascii.eqb a c then Some i else index_in c rest (i + 1)
  end.

Fixpoint base58_value (s : string) (acc : Z) : option Z :=
  match s with
  | EmptyString => Some acc
  | String c rest =>
      match index_in c base58_alphabet 0 with
      | Some d => base58_value rest (acc * 58 + d)
      | None => None
      end
  end.

(** [bs58.decode(s)]: one zero byte for every leading ['1'], followed by
    the big-endian bytes of the number the digits spell. *)
Fixpoint leading_ones_count (s : string) : nat :=
  match s with
  | String c rest => if Ascii.eqb c "1" then S (leading_ones_count rest) else O
  | EmptyString => O
  end.

Fixpoint minimal_bytes (fuel : nat) (z : Z) (acc : Buffer) : Buffer :=
  match fuel with
  | O => acc
  | S k => if z =? 0 then acc else minimal_bytes k (z / 256) (byte_of_Z z :: acc)
  end.

Definition bs58_decode (s : string) : Completion Buffer :=
  match base58_value s 0 with
  | Some z =>
      Return (repeat x00 (leading_ones_count s) ++ minimal_bytes (String.length s) z [])
  | None => Throw (Error "Non-base58 character")
  end.

(** [new PublicKey(address)] on a base58 string: the decoded bytes must
    be 32. *)
Definition PublicKey_of_base58 (s : string) : Completion PublicKey :=
  let* decoded := bs58_decode s in
  if (List.length decoded =? PUBLIC_KEY_LENGTH)%nat then Return decoded
  else Throw (Error "Invalid public key input").

Fixpoint value_be (b : Buffer) (acc : Z) : Z :=
  match b with
  | [] => acc
  | x :: rest => value_be rest (acc * 256 + byteZ x)
  end.

Fixpoint base58_digits (fuel : nat) (z : Z) (acc : string) : string :=
  match fuel with
  | O => acc
  | S k =>
      if z =? 0 then acc
      else
        let d := match get (Z.to_nat (z mod 58)) base58_alphabet with
                 | Some c => c
                 | None => "1"%char
                 end in
        base58_digits k (z / 58) (String d acc)
  end.

Fixpoint leading_ones (b : Buffer) : string :=
  match b with
  | x :: rest => if Byte.eqb x x00 then String "1"%char (leading_ones rest) else EmptyString
  | [] => EmptyString
  end.

(** [key.toBase58()]. *)
Definition toBase58 (k : PublicKey) : string :=
  String.append (leading_ones k) (base58_digits (2 * List.length k) (value_be k 0) EmptyString).

Definition PROGRAM_ID : PublicKey :=
  Eval vm_compute in
    match PublicKey_of_base58 "9tN5NBvynubfJwQWDqrSoHEE3Xy2MVj3BmHdLu13wCcS" with
    | Return k => k
    | Throw _ => []
    end.

Module DISCRIMINATORS.
Definition initializeThread : string := "cf4e5bb957f48e0b".
Definition sendMessage : string := "392822b2bd0a411a".
Definition initializeChannel : string := "e85bb1d47a5ee3fa".
Definition sendBroadcast : string := "e9f1484d97932059".
Definition subscribeChannel : string := "ca978c2427df6cb1".
Definition closeThread : string := "35e71031f7656d0b".
Definition closeChannel : string := "006824014200679d".
End DISCRIMINATORS.

(* ------------------------------------------------------------------ *)
(** ** Ledger data *)

(** One element of [message.compiledInstructions]. *)
Module Ix.
Record t : Type := {
  programIdIndex : nat;
  accountKeyIndexes : list nat;
  data : Buffer
}.
End Ix.

Record VersionedMessage : Type := {
  staticAccountKeys : list PublicKey;
  (** [None] when the property is absent from the message object. *)
  compiledInstructions : option (list Ix.t)
}.

Record TransactionResponse : Type := {
  (** [tx.transaction], with its [message]; [None] when missing. *)
  transaction : option VersionedMessage;
  blockTime : option Z
}.

Record ConfirmedSignatureInfo : Type := { signature : string }.

Record AccountInfo : Type := { data : Buffer }.

(** The calls of [Connection] the read path makes, as a read-only view of
    the ledger. A [null] result is [Return None]; a rejected promise is
    [Throw]. *)
Record Connection : Type := {
  getAccountInfo : PublicKey -> Completion (option AccountInfo);
  getSignaturesForAddress : PublicKey -> Z -> Completion (list ConfirmedSignatureInfo);
  getTransaction : string -> Completion (option TransactionResponse)
}.

(** The objects pushed to [messages]. The [signature] field is absent in
    the objects built by the cli2 build. *)
Module Msg.
Record t : Type := {
  index : Z;
  sender : string;
  content : string;
  timestamp : option Z;
  signature : option string
}.
End Msg.

(** [arr[i]] followed by a property access or method call on the result:
    a TypeError when the element is [undefined]. *)
Definition element {A} (arr : list A) (i : nat) : Completion A :=
  match nth_error arr i with
  | Some a => Return a
  | None => Throw TypeError
  end.

(* ------------------------------------------------------------------ *)
(** ** Array.prototype.sort *)

(** [arr.sort(cmp)] is a stable sort. For a comparator that orders by a
    key, its result is that of this stable insertion sort: an element is
    placed before the first element it does not compare greater than. *)
Fixpoint sort_insert {A} (cmp : A -> A -> Z) (x : A) (l : list A) : list A :=
  match l with
  | [] => [x]
  | y :: r => if cmp x y <=? 0 then x :: y :: r else y :: sort_insert cmp x r
  end.

Definition Array_sort {A} (cmp : A -> A -> Z) (arr : list A) : list A :=
  fold_right (sort_insert cmp) [] arr.

(** The comparator of the source: [(a, b) => a.index - b.index]. *)
Definition by_index (a b : Msg.t) : Z := Msg.index a - Msg.index b.

(* ------------------------------------------------------------------ *)
(** ** Statements that push to [messages] and may throw *)

(** A computation over the [messages] array. A thrown exception leaves
    the entries pushed so far in the array. *)
Definition Scan (A : Type) : Type := list Msg.t -> Completion A * list Msg.t.

Definition ret {A} (a : A) : Scan A := fun s => (Return a, s).

Definition lift {A} (c : Completion A) : Scan A := fun s => (c, s).

Definition push (m : Msg.t) : Scan unit := fun s => (Return tt, s ++ [m]).

Definition bind {A B} (m : Scan A) (k : A -> Scan B) : Scan B :=
  fun s =>
    match m s with
    | (Return a, s') => k a s'
    | (Throw e, s') => (Throw e, s')
    end.

Notation "x <- m ;; k" := (bind m (fun x => k))
  (at level 61, m at next level, right associativity).

(** [try { body } catch (e) { handler }]. *)
Definition try_catch {A} (body : Scan A) (handler : Exn -> Scan A) : Scan A :=
  fun s =>
    match body s with
    | (Return a, s') => (Return a, s')
    | (Throw e, s') => handler e s'
    end.

(** [for (const x of l) { body }]. *)
Fixpoint for_of {A} (l : list A) (body : A -> Scan unit) : Scan unit :=
  match l with
  | [] => ret tt
  | x :: rest => _ <- body x ;; for_of rest body
  end.

(** The entries a computation pushes when started on an empty array, and
    how it completes. *)
Definition pushed {A} (m : Scan A) : list Msg.t := snd (m []).
Definition completion {A} (m : Scan A) : Completion A := fst (m []).

(* ------------------------------------------------------------------ *)
(** ** Account metadata *)

Inductive AccountType : Type := thread | channel.

Record AccountMetadata : Type := {
  type : AccountType;
  pda : PublicKey;
  messageCountOffset : nat;
  discriminator : Buffer;
  owner : option PublicKey;
  participantA : option PublicKey;
  participantB : option PublicKey;
  channelName : option string
}.

(** [_fetchAccountData] (cli/src/index.ts). *)
Definition _fetchAccountData (connection : Connection) (pda : PublicKey)
    (type : AccountType) : Completion (AccountMetadata * Buffer) :=
  let* accountInfo := getAccountInfo connection pda in
  match accountInfo with
  | None =>
      Throw (Error (String.append
                      (match type with thread => "Thread" | channel => "Channel" end)
                      " not found. Invalid PDA or account doesn't exist."))
  | Some accountInfo =>
      let data := data accountInfo in
      match type with
      | thread =>
          Return ({| type := type; pda := pda;
                     messageCountOffset := 104;
                     discriminator := Buffer_from_hex DISCRIMINATORS.sendMessage;
                     owner := None;
                     participantA := Some (new_PublicKey (slice data 8 40));
                     participantB := Some (new_PublicKey (slice data 40 72));
                     channelName := None |}, data)
      | channel =>
          let* channelNameLen := readUInt32LE data 40 in
          Return ({| type := type; pda := pda;
                     messageCountOffset := 76;
                     discriminator := Buffer_from_hex DISCRIMINATORS.sendBroadcast;
                     owner := Some (new_PublicKey (slice data 8 40));
                     participantA := None;
                     participantB := None;
                     channelName := Some (toString_utf8 (slice data 44 (44 + channelNameLen))) |},
                  data)
      end
  end.

(** The prologue shared by the send, read and listen commands:
    [_fetchAccountData] followed by
    [accountData.readUInt32LE(metadata.messageCountOffset)]. *)
Definition fetchAccountCount (connection : Connection) (pda : PublicKey)
    (type : AccountType) : Completion (AccountMetadata * Buffer * Z) :=
  let* (metadata, accountData) := _fetchAccountData connection pda type in
  let* messageCount := readUInt32LE accountData (messageCountOffset metadata) in
  Return (metadata, accountData, messageCount).

(* ------------------------------------------------------------------ *)
(** ** Reconstruction of the message history *)

(** The guard of the two nested conditionals that select an instruction:
    [programId.equals(PROGRAM_ID)], then
    [ixData.length > 8 && ixData.subarray(0, 8).equals(DISCRIMINATOR)].
    Reading [programId] throws when [programIdIndex] names no static key. *)
Definition matchingInstruction (message : VersionedMessage) (ix : Ix.t)
    (DISCRIMINATOR : Buffer) : Completion bool :=
  let* programId := element (staticAccountKeys message) (Ix.programIdIndex ix) in
  if PublicKey_equals programId PROGRAM_ID then
    let ixData := Ix.data ix in
    Return ((8 <? len ixData) && Buffer_equals (subarray ixData 0 8) DISCRIMINATOR)
  else Return false.

(** The append payload built by [sendMessageCommand] and
    [sendBroadcastCommand]. *)
Definition appendData (discriminator : Buffer) (messageCount : Z)
    (encrypted : Buffer) : Buffer :=
  discriminator
  ++ Uint32Array_bytes messageCount
  ++ Uint32Array_bytes (len encrypted)
  ++ encrypted.

(** The parsed command line options the commands read. *)
Module Options.
Record t : Type := {
  thread : option string;
  channel : option string;
  key : option string;
  message : string
}.
End Options.

(** [value || fallback] on an optional string: [undefined] and the empty
    string are both falsy. *)
Definition or_default (value : option string) (fallback : string) : string :=
  match value with
  | Some EmptyString => fallback
  | Some s => s
  | None => fallback
  end.

(** [new PublicKey(address)] on an option value; [undefined] is rejected. *)
Definition address (value : option string) : Completion PublicKey :=
  match value with
  | Some s => PublicKey_of_base58 s
  | None => Throw TypeError
  end.

(** One key of a [TransactionInstruction]. *)
Record AccountMeta : Type := {
  pubkey : PublicKey;
  isSigner : bool;
  isWritable : bool
}.

Module TransactionInstruction.
Record t : Type := {
  programId : PublicKey;
  keys : list AccountMeta;
  data : Buffer
}.
End TransactionInstruction.

(** What the listener prints for a change notification. The separator
    lines are left out. *)
Inductive Console : Type :=
| NewReceived (isThread : bool)
| Content (isThread : bool) (latestMessage : Msg.t)
| CouldNotFind (isThread : bool) (oldCount newCount : Z)
| FetchError (e : Exn).

(** The variables the subscription callback closes over. *)
Record Listener : Type := {
  isThread : bool;
  metadata : AccountMetadata;
  sharedSecret : string;
  initialCount : Z
}.

Section Reconstruction.

(** The cipher: [decryptMessage] throws on a wrong key or corrupt data. *)
Variable encryptMessage : string -> string -> Buffer.
Variable decryptMessage : Buffer -> string -> Completion string.

(** The body of [for (const ix of message.compiledInstructions)]. *)
Definition instruction_body (sigInfo : ConfirmedSignatureInfo)
    (tx : TransactionResponse) (message : VersionedMessage)
    (DISCRIMINATOR : Buffer) (sharedSecret : string) (startingIndex : Z)
    (ix : Ix.t) : Scan unit :=
  matched <- lift (matchingInstruction message ix DISCRIMINATOR) ;;
  if matched : bool then
    let ixData := Ix.data ix in
    messageIndex <- lift (readUInt32LE ixData 8) ;;
    contentLength <- lift (readUInt32LE ixData 12) ;;
    let encrypted := slice ixData 16 (16 + contentLength) in
    if startingIndex <=? messageIndex then
      try_catch
        (decrypted <- lift (decryptMessage encrypted sharedSecret) ;;
         senderIndex <- lift (element (Ix.accountKeyIndexes ix) 1) ;;
         sender <- lift (element (staticAccountKeys message) senderIndex) ;;
         push {| Msg.index := messageIndex;
                 Msg.sender := toBase58 sender;
                 Msg.content := decrypted;
                 Msg.timestamp := blockTime tx;
                 Msg.signature := Some (signature sigInfo) |})
        (fun _ => ret tt)
    else ret tt
  else ret tt.

(** The body of [for (const sigInfo of signatures)]. *)
Definition signature_body (connection : Connection) (DISCRIMINATOR : Buffer)
    (sharedSecret : string) (startingIndex : Z)
    (sigInfo : ConfirmedSignatureInfo) : Scan unit :=
  try_catch
    (tx <- lift (getTransaction connection (signature sigInfo)) ;;
     match tx with
     | None => ret tt
     | Some tx =>
         match transaction tx with
         | None => ret tt
         | Some message =>
             match compiledInstructions message with
             | Some instructions =>
                 for_of instructions
                   (instruction_body sigInfo tx message DISCRIMINATOR
                      sharedSecret startingIndex)
             | None => ret tt
             end
         end
     end)
    (fun _ => ret tt).

(** [_fetchNewMessages] (cli/src/index.ts). *)
Definition _fetchNewMessages (connection : Connection) (metadata : AccountMetadata)
    (sharedSecret : string) (startingIndex : Z) : Completion (list Msg.t) :=
  let* signatures := getSignaturesForAddress connection (pda metadata) 1000 in
  let DISCRIMINATOR := discriminator metadata in
  let messages :=
    snd (for_of signatures
           (signature_body connection DISCRIMINATOR sharedSecret startingIndex) []) in
  Return (Array_sort by_index messages).

(* ---------------------------------------------------------------- *)
(** *** Commands *)

(** [sendMessageCommand], up to the instruction it submits; [wallet] is
    the public key of the loaded keypair. *)
Definition sendMessageCommand (connection : Connection) (wallet : PublicKey)
    (options : Options.t) : Completion TransactionInstruction.t :=
  let* threadPDA := address (Options.thread options) in
  let* (_, messageCount) := fetchAccountCount connection threadPDA thread in
  let sharedSecret := or_default (Options.key options) "default-secret-key" in
  let encrypted := encryptMessage (Options.message options) sharedSecret in
  Return {| TransactionInstruction.programId := PROGRAM_ID;
            TransactionInstruction.keys :=
              [ {| pubkey := threadPDA; isSigner := false; isWritable := true |};
                {| pubkey := wallet; isSigner := true; isWritable := false |} ];
            TransactionInstruction.data :=
              appendData (Buffer_from_hex DISCRIMINATORS.sendMessage) messageCount encrypted |}.

(** [sendBroadcastCommand], up to the instruction it submits. *)
Definition sendBroadcastCommand (connection : Connection) (wallet : PublicKey)
    (options : Options.t) : Completion TransactionInstruction.t :=
  let* channelPDA := address (Options.channel options) in
  let* (_, messageCount) := fetchAccountCount connection channelPDA channel in
  let sharedSecret := or_default (Options.key options) "default-channel-key" in
  let encrypted := encryptMessage (Options.message options) sharedSecret in
  Return {| TransactionInstruction.programId := PROGRAM_ID;
            TransactionInstruction.keys :=
              [ {| pubkey := channelPDA; isSigner := false; isWritable := true |};
                {| pubkey := wallet; isSigner := true; isWritable := false |} ];
            TransactionInstruction.data :=
              appendData (Buffer_from_hex DISCRIMINATORS.sendBroadcast) messageCount encrypted |}.

(** [readMessagesCommand], up to the values it displays: the metadata,
    the message count and the reconstructed messages. *)
Definition readMessagesCommand (connection : Connection) (options : Options.t)
    : Completion (AccountMetadata * Z * list Msg.t) :=
  let* threadPDA := address (Options.thread options) in
  let sharedSecret := or_default (Options.key options) "default-secret-key" in
  let* (metadata, _, messageCount) := fetchAccountCount connection threadPDA thread in
  let* messages := _fetchNewMessages connection metadata sharedSecret 0 in
  Return (metadata, messageCount, messages).

(** [readBroadcastsCommand], likewise. *)
Definition readBroadcastsCommand (connection : Connection) (options : Options.t)
    : Completion (AccountMetadata * Z * list Msg.t) :=
  let* channelPDA := address (Options.channel options) in
  let sharedSecret := or_default (Options.key options) "default-channel-key" in
  let* (metadata, _, messageCount) := fetchAccountCount connection channelPDA channel in
  let* messages := _fetchNewMessages connection metadata sharedSecret 0 in
  Return (metadata, messageCount, messages).

(** [monitorPdaUpdates] up to the subscription: the address is
    [options.thread || options.channel], the secret falls back to
    ["default-secret-key"] for both account types, and the initial count
    is read from the account. *)
Definition monitorPdaUpdates (connection : Connection) (options : Options.t)
    : Completion Listener :=
  let accountAddress :=
    match Options.thread options with
    | Some EmptyString | None => Options.channel options
    | Some s => Some s
    end in
  let isThread :=
    match Options.thread options with
    | Some EmptyString | None => false
    | Some _ => true
    end in
  match accountAddress with
  | Some EmptyString | None =>
      Throw (Error "Must provide a --thread or --channel address.")
  | Some _ =>
      let* targetPDA := address accountAddress in
      let sharedSecret := or_default (Options.key options) "default-secret-key" in
      let* (metadata, _, initialCount) :=
        fetchAccountCount connection targetPDA (if isThread then thread else channel) in
      Return {| isThread := isThread; metadata := metadata;
                sharedSecret := sharedSecret; initialCount := initialCount |}
  end.

(** The callback passed to [connection.onAccountChange], run on one
    notification: the new state of the closed-over variables and the
    lines printed. A throw of the first read escapes the callback. *)
Definition accountChangeCallback (connection : Connection) (l : Listener)
    (updatedData : Buffer) : Completion (Listener * list Console) :=
  let* newCount := readUInt32LE updatedData (messageCountOffset (metadata l)) in
  if initialCount l <? newCount then
    let shown :=
      match _fetchNewMessages connection (metadata l) (sharedSecret l) (initialCount l) with
      | Return newMessages =>
          if 0 <? Z.of_nat (List.length newMessages) then
            match nth_error newMessages (List.length newMessages - 1) with
            | Some latestMessage => [Content (isThread l) latestMessage]
            | None => []
            end
          else [CouldNotFind (isThread l) (initialCount l) newCount]
      | Throw e => [FetchError e]
      end in
    Return ({| isThread := isThread l; metadata := metadata l;
               sharedSecret := sharedSecret l; initialCount := newCount |},
            NewReceived (isThread l) :: shown)
  else Return (l, []).

End Reconstruction.

(* ------------------------------------------------------------------ *)
(** ** The cli2 build

    [cli2/dist/index.js] has no [_fetchAccountData] and no
    [_fetchNewMessages]: [readMessagesCommand] and [readBroadcastsCommand]
    each decode the account and scan the log inline, with the same loop up
    to the discriminator. The loop has no starting index and its entries
    carry no signature; the warning it prints when a decryption fails is
    left out. *)
Module Cli2.

Section Commands.

Variable decryptMessage : Buffer -> string -> Completion string.

Definition instruction_body (tx : TransactionResponse) (message : VersionedMessage)
    (DISCRIMINATOR : Buffer) (sharedSecret : string) (ix : Ix.t) : Scan unit :=
  matched <- lift (matchingInstruction message ix DISCRIMINATOR) ;;
  if matched : bool then
    let ixData := Ix.data ix in
    messageIndex <- lift (readUInt32LE ixData 8) ;;
    contentLength <- lift (readUInt32LE ixData 12) ;;
    let encrypted := slice ixData 16 (16 + contentLength) in
    try_catch
      (decrypted <- lift (decryptMessage encrypted sharedSecret) ;;
       senderIndex <- lift (element (Ix.accountKeyIndexes ix) 1) ;;
       sender <- lift (element (staticAccountKeys message) senderIndex) ;;
       push {| Msg.index := messageIndex;
               Msg.sender := toBase58 sender;
               Msg.content := decrypted;
               Msg.timestamp := blockTime tx;
               Msg.signature := None |})
      (fun _ => ret tt)
  else ret tt.

Definition signature_body (connection : Connection) (DISCRIMINATOR : Buffer)
    (sharedSecret : string) (sigInfo : ConfirmedSignatureInfo) : Scan unit :=
  try_catch
    (tx <- lift (getTransaction connection (signature sigInfo)) ;;
     match tx with
     | None => ret tt
     | Some tx =>
         match transaction tx with
         | None => ret tt
         | Some message =>
             match compiledInstructions message with
             | Some instructions =>
                 for_of instructions
                   (instruction_body tx message DISCRIMINATOR sharedSecret)
             | None => ret tt
             end
         end
     end)
    (fun _ => ret tt).

(** [readMessagesCommand], up to the values it displays. *)
Definition readMessagesCommand (connection : Connection) (options : Options.t)
    : Completion (PublicKey * PublicKey * Z * list Msg.t) :=
  let* threadPDA := address (Options.thread options) in
  let* accountInfo := getAccountInfo connection threadPDA in
  match accountInfo with
  | None => Throw (Error "Thread not found.")
  | Some accountInfo =>
      let data := data accountInfo in
      let participantA := new_PublicKey (slice data 8 40) in
      let participantB := new_PublicKey (slice data 40 72) in
      let* messageCount := readUInt32LE data 104 in
      let* signatures := getSignaturesForAddress connection threadPDA 1000 in
      let sharedSecret := or_default (Options.key options) "default-secret-key" in
      let SEND_MESSAGE_DISCRIMINATOR := Buffer_from_hex DISCRIMINATORS.sendMessage in
      let messages :=
        snd (for_of signatures
               (signature_body connection SEND_MESSAGE_DISCRIMINATOR sharedSecret) []) in
      Return (participantA, participantB, messageCount, Array_sort by_index messages)
  end.

(** [readBroadcastsCommand], up to the values it displays. *)
Definition readBroadcastsCommand (connection : Connection) (options : Options.t)
    : Completion (PublicKey * string * Z * list Msg.t) :=
  let* channelPDA := address (Options.channel options) in
  let* accountInfo := getAccountInfo connection channelPDA in
  match accountInfo with
  | None => Throw (Error "Channel not found.")
  | Some accountInfo =>
      let channelData := data accountInfo in
      let owner := new_PublicKey (slice channelData 8 40) in
      let* channelNameLen := readUInt32LE channelData 40 in
      let channelName := toString_utf8 (slice channelData 44 (44 + channelNameLen)) in
      let* messageCount := readUInt32LE channelData 76 in
      let* signatures := getSignaturesForAddress connection channelPDA 1000 in
      let sharedSecret := or_default (Options.key options) "default-channel-key" in
      let SEND_BROADCAST_DISCRIMINATOR := Buffer_from_hex DISCRIMINATORS.sendBroadcast in
      let messages :=
        snd (for_of signatures
               (signature_body connection SEND_BROADCAST_DISCRIMINATOR sharedSecret) []) in
      Return (owner, channelName, messageCount, Array_sort by_index messages)
  end.

End Commands.

End Cli2.

(** An entry without its [signature] field, as the cli2 build pushes it. *)
Definition unsigned (m : Msg.t) : Msg.t :=
  {| Msg.index := Msg.index m; Msg.sender := Msg.sender m;
     Msg.content := Msg.content m; Msg.timestamp := Msg.timestamp m;
     Msg.signature := None |}.

(* ------------------------------------------------------------------ *)
(** ** A stand-in cipher for running the definitions

    The theorems below hold for every cipher. To evaluate the scan on
    concrete ledgers a small block cipher takes the place of AES-256-CBC:
    the text is padded to a multiple of 16 bytes as in PKCS#7 and every
    byte is XORed with a byte derived from the secret. Decryption throws
    when the length is not a positive multiple of 16 or the padding is
    malformed. *)
Module Demo.

Definition xor_byte (k b : byte) : byte :=
  byte_of_Z (Z.lxor (byteZ k) (byteZ b)).

Definition key_byte (sharedSecret : string) : byte :=
  fold_left xor_byte (list_byte_of_string sharedSecret) x5a.

Definition pad (b : Buffer) : Buffer :=
  let p := 16 - len b mod 16 in
  b ++ repeat (byte_of_Z p) (Z.to_nat p).

Definition encryptMessage (message sharedSecret : string) : Buffer :=
  map (xor_byte (key_byte sharedSecret)) (pad (Buffer_from_utf8 message)).

Definition decryptMessage (encrypted : Buffer) (sharedSecret : string)
    : Completion string :=
  let failed := Throw (Error "Decryption failed. Incorrect key or corrupt data.") in
  let plain := map (xor_byte (key_byte sharedSecret)) encrypted in
  if (len plain =? 0) || negb (len plain mod 16 =? 0) then failed
  else
    let p := byteZ (last plain x00) in
    if (1 <=? p) && (p <=? 16)
       && Buffer_equals (slice plain (len plain - p) (len plain))
                        (repeat (byte_of_Z p) (Z.to_nat p))
    then Return (toString_utf8 (slice plain 0 (len plain - p)))
    else failed.

End Demo.

(* ------------------------------------------------------------------ *)
(** ** Notions used in the statements *)

(** A computation is append-only when, on every array, it completes as it
    does on the empty array and appends the same entries. *)
Definition append_only {A} (m : Scan A) : Prop :=
  forall s, m s = (completion m, s ++ pushed m).

(** The entries found while scanning one transaction reference. *)
Definition entries_of (decryptMessage : Buffer -> string -> Completion string)
    (connection : Connection) (DISCRIMINATOR : Buffer) (sharedSecret : string)
    (startingIndex : Z) (sigInfo : ConfirmedSignatureInfo) : list Msg.t :=
  pushed (signature_body decryptMessage connection DISCRIMINATOR sharedSecret
            startingIndex sigInfo).

(** Ascending order of the indices. *)
Definition index_le (a b : Msg.t) : Prop := Msg.index a <= Msg.index b.

(** The closed-over variables after the count was updated. *)
Definition counted (l : Listener) (newCount : Z) : Listener :=
  {| isThread := isThread l; metadata := metadata l;
     sharedSecret := sharedSecret l; initialCount := newCount |}.

(** The options with [--key] given. *)
Definition with_key (options : Options.t) (secret : string) : Options.t :=
  {| Options.thread := Options.thread options;
     Options.channel := Options.channel options;
     Options.key := Some secret;
     Options.message := Options.message options |}.

(** The sender of an instruction: key 1 of its account list. *)
Definition senderOf (message : VersionedMessage) (ix : Ix.t) : Completion PublicKey :=
  let* senderIndex := element (Ix.accountKeyIndexes ix) 1 in
  element (staticAccountKeys message) senderIndex.

(** An append instruction as the send commands build it: addressed to the
    program, carrying index and ciphertext behind the discriminator, with
    its sender at position 1 of its account list. [m] is the entry that
    the instruction stands for when its ciphertext decrypts under
    [sharedSecret]. *)
Definition appends (decryptMessage : Buffer -> string -> Completion string)
    (sigInfo : ConfirmedSignatureInfo) (tx : TransactionResponse)
    (message : VersionedMessage) (DISCRIMINATOR : Buffer) (sharedSecret : string)
    (ix : Ix.t) (m : Msg.t) : Prop :=
  exists encrypted senderIndex sender,
    nth_error (staticAccountKeys message) (Ix.programIdIndex ix) = Some PROGRAM_ID /\
    Ix.data ix = appendData DISCRIMINATOR (Msg.index m) encrypted /\
    0 <= Msg.index m < 2 ^ 32 /\
    len encrypted < 2 ^ 32 /\
    decryptMessage encrypted sharedSecret = Return (Msg.content m) /\
    nth_error (Ix.accountKeyIndexes ix) 1 = Some senderIndex /\
    nth_error (staticAccountKeys message) senderIndex = Some sender /\
    Msg.sender m = toBase58 sender /\
    Msg.timestamp m = blockTime tx /\
    Msg.signature m = Some (signature sigInfo).

(** The instructions of a transaction carry the entries [ms], in order:
    each instruction is an append standing for the next entry, or one the
    filter does not select (another program, another operation). *)
Inductive carries (decryptMessage : Buffer -> string -> Completion string)
    (sigInfo : ConfirmedSignatureInfo) (tx : TransactionResponse)
    (message : VersionedMessage) (DISCRIMINATOR : Buffer) (sharedSecret : string)
    : list Ix.t -> list Msg.t -> Prop :=
| carries_nil :
    carries decryptMessage sigInfo tx message DISCRIMINATOR sharedSecret [] []
| carries_append ix m instructions ms :
    appends decryptMessage sigInfo tx message DISCRIMINATOR sharedSecret ix m ->
    carries decryptMessage sigInfo tx message DISCRIMINATOR sharedSecret instructions ms ->
    carries decryptMessage sigInfo tx message DISCRIMINATOR sharedSecret
      (ix :: instructions) (m :: ms)
| carries_other ix instructions ms :
    matchingInstruction message ix DISCRIMINATOR = Return false ->
    carries decryptMessage sigInfo tx message DISCRIMINATOR sharedSecret instructions ms ->
    carries decryptMessage sigInfo tx message DISCRIMINATOR sharedSecret
      (ix :: instructions) ms.

(** A transaction reference that resolves to a transaction whose
    instructions carry the entries [ms]. *)
Definition delivers (decryptMessage : Buffer -> string -> Completion string)
    (connection : Connection) (DISCRIMINATOR : Buffer) (sharedSecret : string)
    (sigInfo : ConfirmedSignatureInfo) (ms : list Msg.t) : Prop :=
  exists tx message instructions,
    getTransaction connection (signature sigInfo) = Return (Some tx) /\
    transaction tx = Some message /\
    compiledInstructions message = Some instructions /\
    carries decryptMessage sigInfo tx message DISCRIMINATOR sharedSecret
      instructions ms.

(* ------------------------------------------------------------------ *)
(** ** A small ledger for running the definitions *)

Module Ledger.

Definition alice : PublicKey := repeat x01 32.
Definition bob : PublicKey := repeat x02 32.
Definition threadPDA : PublicKey := repeat x07 32.
Definition channelPDA : PublicKey := repeat x09 32.

Definition sendMessageTag : Buffer := Buffer_from_hex DISCRIMINATORS.sendMessage.

(** A message as [sendMessageCommand] compiles it: the fee payer and
    signer first, then the thread account, then the program. *)
Definition keysOf (signer : PublicKey) : list PublicKey :=
  [signer; threadPDA; PROGRAM_ID].

Definition send (messageIndex : Z) (text : string) : Ix.t :=
  {| Ix.programIdIndex := 2;
     Ix.accountKeyIndexes := [1; 0]%nat;
     Ix.data := appendData sendMessageTag messageIndex
                  (Demo.encryptMessage text "mykey") |}.

Definition txOf (signer : PublicKey) (instructions : list Ix.t) (time : Z)
    : TransactionResponse :=
  {| transaction := Some {| staticAccountKeys := keysOf signer;
                            compiledInstructions := Some instructions |};
     blockTime := Some time |}.

(** Thread account bytes: tag, participants, token and count. *)
Definition threadData (messageCount : Z) : Buffer :=
  repeat xaa 8 ++ alice ++ bob ++ repeat x33 32 ++ Uint32Array_bytes messageCount.

(** Channel account bytes: tag, owner, name length, name, and the count
    at offset 76 behind the 32 bytes reserved for the name. *)
Definition channelData (name : string) (broadcastCount : Z) : Buffer :=
  let nameBytes := Buffer_from_utf8 name in
  repeat xaa 8 ++ alice ++ Uint32Array_bytes (len nameBytes) ++ nameBytes
  ++ repeat x00 (32 - List.length nameBytes) ++ Uint32Array_bytes broadcastCount.

(** A broadcast of index 2 on the channel, encrypted under the secret
    that [sendBroadcastCommand] falls back to. *)
Definition broadcastTx : TransactionResponse :=
  {| transaction :=
       Some {| staticAccountKeys := [alice; channelPDA; PROGRAM_ID];
               compiledInstructions :=
                 Some [{| Ix.programIdIndex := 2;
                          Ix.accountKeyIndexes := [1; 0]%nat;
                          Ix.data :=
                            appendData (Buffer_from_hex DISCRIMINATORS.sendBroadcast) 2
                              (Demo.encryptMessage "New Update" "default-channel-key") |}] |};
     blockTime := Some 1700000600 |}.

(** An instruction for another program (here the signer's own key stands
    for its address). *)
Definition otherProgram : Ix.t :=
  {| Ix.programIdIndex := 0; Ix.accountKeyIndexes := []; Ix.data := [x02; x00] |}.

(** An append whose ciphertext was made under another secret. *)
Definition foreign (messageIndex : Z) (text : string) : Ix.t :=
  {| Ix.programIdIndex := 2;
     Ix.accountKeyIndexes := [1; 0]%nat;
     Ix.data := appendData sendMessageTag messageIndex
                  (Demo.encryptMessage text "another key") |}.

(** A payload cut short inside its header. *)
Definition truncated : Ix.t :=
  {| Ix.programIdIndex := 2;
     Ix.accountKeyIndexes := [1; 0]%nat;
     Ix.data := sendMessageTag ++ [x03; x00] |}.

(** The transactions by reference: [sigB] and [sigC] hold the thread's
    three messages, the fetch of [sigA] throws, [sigD] holds an
    undecryptable append before a good one, [sigE] holds a truncated
    payload before a good one, and [sigR] repeats index 1. *)
Definition transactions (s : string) : Completion (option TransactionResponse) :=
  if String.eqb s "sigC" then
    Return (Some (txOf bob [otherProgram; send 2 "third"] 1700000300))
  else if String.eqb s "sigB" then
    Return (Some (txOf alice [send 0 "first"; send 1 "second"] 1700000200))
  else if String.eqb s "sigA" then Throw (Error "fetch failed")
  else if String.eqb s "sigD" then
    Return (Some (txOf alice [foreign 3 "not for us"; send 4 "fifth"] 1700000400))
  else if String.eqb s "sigE" then
    Return (Some (txOf bob [truncated; send 5 "sixth"] 1700000500))
  else if String.eqb s "sigR" then
    Return (Some (txOf alice [send 1 "second"] 1700000250))
  else if String.eqb s "sigX" then Return (Some broadcastTx)
  else Return None.

Definition accounts (messageCount : Z) (k : PublicKey) : Completion (option AccountInfo) :=
  if PublicKey_equals k threadPDA then Return (Some {| data := threadData messageCount |})
  else if PublicKey_equals k channelPDA then Return (Some {| data := channelData "Test" 2 |})
  else Return None.

(** The ledger with its references listed in the given order. *)
Definition listing (signatures : list string) : Connection :=
  {| getAccountInfo := accounts 3;
     getSignaturesForAddress := fun _ _ =>
       Return (map (fun s => {| signature := s |}) signatures);
     getTransaction := transactions |}.

Definition newestFirst : Connection := listing ["sigC"; "sigB"].
Definition oldestFirst : Connection := listing ["sigB"; "sigC"].

Definition threadMetadata : AccountMetadata :=
  {| type := thread; pda := threadPDA; messageCountOffset := 104;
     discriminator := sendMessageTag; owner := None;
     participantA := Some alice; participantB := Some bob; channelName := None |}.

Definition entry (messageIndex : Z) (sender : PublicKey) (text : string)
    (time : Z) (sig : string) : Msg.t :=
  {| Msg.index := messageIndex; Msg.sender := toBase58 sender; Msg.content := text;
     Msg.timestamp := Some time; Msg.signature := Some sig |}.

Definition threadAddress : string := Eval vm_compute in toBase58 threadPDA.
Definition channelAddress : string := Eval vm_compute in toBase58 channelPDA.

(** A listener on the thread that has seen one message. *)
Definition listener : Listener :=
  {| isThread := true; metadata := threadMetadata; sharedSecret := "mykey";
     initialCount := 1 |}.

(** [sol-msg read -t <thread>] and [sol-msg listen -ch <channel>], both
    without [--key]. *)
Definition readThread : Options.t :=
  {| Options.thread := Some threadAddress; Options.channel := None;
     Options.key := None; Options.message := "" |}.
Definition listenChannel : Options.t :=
  {| Options.thread := None; Options.channel := Some channelAddress;
     Options.key := None; Options.message := "" |}.

Definition first : Msg.t := entry 0 alice "first" 1700000200 "sigB".
Definition second : Msg.t := entry 1 alice "second" 1700000200 "sigB".
Definition third : Msg.t := entry 2 bob "third" 1700000300 "sigC".
Definition fifth : Msg.t := entry 4 alice "fifth" 1700000400 "sigD".
Definition secondAgain : Msg.t := entry 1 alice "second" 1700000250 "sigR".

End Ledger.

(** Instructions on the small ledger that are not well-formed appends. *)
Module Odd.

(** A payload that is the tag and nothing else. *)
Definition tagOnly : Ix.t :=
  {| Ix.programIdIndex := 2; Ix.accountKeyIndexes := [1; 0]%nat;
     Ix.data := Ledger.sendMessageTag |}.

(** A payload that declares 64 bytes of ciphertext and carries 16. *)
Definition overdeclared : Ix.t :=
  {| Ix.programIdIndex := 2; Ix.accountKeyIndexes := [1; 0]%nat;
     Ix.data := Ledger.sendMessageTag ++ Uint32Array_bytes 0 ++ Uint32Array_bytes 64
                ++ Demo.encryptMessage "first" "mykey" |}.

Definition message : VersionedMessage :=
  {| staticAccountKeys := Ledger.keysOf Ledger.alice;
     compiledInstructions := Some [overdeclared] |}.

Definition tx : TransactionResponse :=
  {| transaction := Some message; blockTime := Some 1700000200 |}.

End Odd.

(* ------------------------------------------------------------------ *)
(** ** The commands that create, subscribe and close

    [initThreadCommand], [createChannelCommand], [subscribeChannelCommand],
    [closeThreadCommand] and [closeChannelCommand] (cli/src/index.ts and
    cli2/dist/index.js, where they are the same), each up to the instruction
    it submits. [PublicKey.findProgramAddressSync] and the random thread
    token are taken as given. *)

(** [SystemProgram.programId]: the all-zero key. *)
Definition SystemProgram_programId : PublicKey := repeat x00 32.

(** The options these commands read. *)
Module AdminOptions.
Record t : Type := {
  thread : option string;
  channel : option string;
  recipient : option string;
  name : string
}.
End AdminOptions.

Section Administration.

Variable findProgramAddressSync :
  list Buffer -> PublicKey -> Completion (PublicKey * nat).

Definition deriveThreadPDA (participantA participantB : PublicKey)
    (threadId : Buffer) : Completion (PublicKey * nat) :=
  findProgramAddressSync
    [Buffer_from_utf8 "message_thread"; participantA; participantB; threadId]
    PROGRAM_ID.

Definition deriveChannelPDA (owner : PublicKey) (channelName : string)
    : Completion (PublicKey * nat) :=
  findProgramAddressSync
    [Buffer_from_utf8 "broadcast_channel"; owner; Buffer_from_utf8 channelName]
    PROGRAM_ID.

Definition deriveSubscriptionPDA (channel subscriber : PublicKey)
    : Completion (PublicKey * nat) :=
  findProgramAddressSync
    [Buffer_from_utf8 "subscription"; channel; subscriber]
    PROGRAM_ID.

(** [initThreadCommand]; [threadId] is the result of
    [crypto.randomBytes(32)]. *)
Definition initThreadCommand (wallet : PublicKey) (threadId : Buffer)
    (options : AdminOptions.t) : Completion TransactionInstruction.t :=
  let* participantB := address (AdminOptions.recipient options) in
  let* (threadPDA, _) := deriveThreadPDA wallet participantB threadId in
  let initData := Buffer_from_hex DISCRIMINATORS.initializeThread ++ threadId in
  Return {| TransactionInstruction.programId := PROGRAM_ID;
            TransactionInstruction.keys :=
              [ {| pubkey := threadPDA; isSigner := false; isWritable := true |};
                {| pubkey := wallet; isSigner := true; isWritable := true |};
                {| pubkey := participantB; isSigner := false; isWritable := false |};
                {| pubkey := SystemProgram_programId; isSigner := false;
                   isWritable := false |} ];
            TransactionInstruction.data := initData |}.

(** [createChannelCommand]. *)
Definition createChannelCommand (wallet : PublicKey) (options : AdminOptions.t)
    : Completion TransactionInstruction.t :=
  let* (channelPDA, _) := deriveChannelPDA wallet (AdminOptions.name options) in
  let channelNameBytes := Buffer_from_utf8 (AdminOptions.name options) in
  let initData :=
    Buffer_from_hex DISCRIMINATORS.initializeChannel
    ++ Uint32Array_bytes (len channelNameBytes)
    ++ channelNameBytes in
  Return {| TransactionInstruction.programId := PROGRAM_ID;
            TransactionInstruction.keys :=
              [ {| pubkey := channelPDA; isSigner := false; isWritable := true |};
                {| pubkey := wallet; isSigner := true; isWritable := true |};
                {| pubkey := SystemProgram_programId; isSigner := false;
                   isWritable := false |} ];
            TransactionInstruction.data := initData |}.

(** [subscribeChannelCommand]. *)
Definition subscribeChannelCommand (wallet : PublicKey) (options : AdminOptions.t)
    : Completion TransactionInstruction.t :=
  let* channelPDA := address (AdminOptions.channel options) in
  let* (subscriptionPDA, _) := deriveSubscriptionPDA channelPDA wallet in
  let subscribeData := Buffer_from_hex DISCRIMINATORS.subscribeChannel in
  Return {| TransactionInstruction.programId := PROGRAM_ID;
            TransactionInstruction.keys :=
              [ {| pubkey := subscriptionPDA; isSigner := false; isWritable := true |};
                {| pubkey := channelPDA; isSigner := false; isWritable := true |};
                {| pubkey := wallet; isSigner := true; isWritable := true |};
                {| pubkey := SystemProgram_programId; isSigner := false;
                   isWritable := false |} ];
            TransactionInstruction.data := subscribeData |}.

End Administration.

(** [new PublicKey(options.recipient || wallet.publicKey)]. *)
Definition refundRecipient (recipient : option string) (wallet : PublicKey)
    : Completion PublicKey :=
  match recipient with
  | Some EmptyString | None => Return wallet
  | Some s => PublicKey_of_base58 s
  end.

(** [closeThreadCommand]. *)
Definition closeThreadCommand (wallet : PublicKey) (options : AdminOptions.t)
    : Completion TransactionInstruction.t :=
  let* threadPDA := address (AdminOptions.thread options) in
  let* recipient := refundRecipient (AdminOptions.recipient options) wallet in
  let closeData := Buffer_from_hex DISCRIMINATORS.closeThread in
  Return {| TransactionInstruction.programId := PROGRAM_ID;
            TransactionInstruction.keys :=
              [ {| pubkey := threadPDA; isSigner := false; isWritable := true |};
                {| pubkey := wallet; isSigner := true; isWritable := false |};
                {| pubkey := recipient; isSigner := false; isWritable := true |} ];
            TransactionInstruction.data := closeData |}.

(** [closeChannelCommand]. *)
Definition closeChannelCommand (wallet : PublicKey) (options : AdminOptions.t)
    : Completion TransactionInstruction.t :=
  let* channelPDA := address (AdminOptions.channel options) in
  let* recipient := refundRecipient (AdminOptions.recipient options) wallet in
  let closeData := Buffer_from_hex DISCRIMINATORS.closeChannel in
  Return {| TransactionInstruction.programId := PROGRAM_ID;
            TransactionInstruction.keys :=
              [ {| pubkey := channelPDA; isSigner := false; isWritable := true |};
                {| pubkey := wallet; isSigner := true; isWritable := false |};
                {| pubkey := recipient; isSigner := false; isWritable := true |} ];
            TransactionInstruction.data := closeData |}.

(* ------------------------------------------------------------------ *)
(** ** The send commands of the cli2 build

    [sendMessageCommand] and [sendBroadcastCommand] of
    [cli2/dist/index.js] read the count inline, without parsing the rest
    of the account. *)
Module Cli2Send.

Section Commands.

Variable encryptMessage : string -> string -> Buffer.

Definition sendMessageCommand (connection : Connection) (wallet : PublicKey)
    (options : Options.t) : Completion TransactionInstruction.t :=
  let* threadPDA := address (Options.thread options) in
  let* accountInfo := getAccountInfo connection threadPDA in
  match accountInfo with
  | None => Throw (Error "Thread not found. Invalid PDA or thread doesn't exist.")
  | Some accountInfo =>
      let* messageCount := readUInt32LE (data accountInfo) 104 in
      let sharedSecret := or_default (Options.key options) "default-secret-key" in
      let encrypted := encryptMessage (Options.message options) sharedSecret in
      Return {| TransactionInstruction.programId := PROGRAM_ID;
                TransactionInstruction.keys :=
                  [ {| pubkey := threadPDA; isSigner := false; isWritable := true |};
                    {| pubkey := wallet; isSigner := true; isWritable := false |} ];
                TransactionInstruction.data :=
                  appendData (Buffer_from_hex DISCRIMINATORS.sendMessage)
                    messageCount encrypted |}
  end.

Definition sendBroadcastCommand (connection : Connection) (wallet : PublicKey)
    (options : Options.t) : Completion TransactionInstruction.t :=
  let* channelPDA := address (Options.channel options) in
  let* accountInfo := getAccountInfo connection channelPDA in
  match accountInfo with
  | None => Throw (Error "Channel not found. Invalid PDA or channel doesn't exist.")
  | Some accountInfo =>
      let* messageCount := readUInt32LE (data accountInfo) 76 in
      let sharedSecret := or_default (Options.key options) "default-channel-key" in
      let encrypted := encryptMessage (Options.message options) sharedSecret in
      Return {| TransactionInstruction.programId := PROGRAM_ID;
                TransactionInstruction.keys :=
                  [ {| pubkey := channelPDA; isSigner := false; isWritable := true |};
                    {| pubkey := wallet; isSigner := true; isWritable := false |} ];
                TransactionInstruction.data :=
                  appendData (Buffer_from_hex DISCRIMINATORS.sendBroadcast)
                    messageCount encrypted |}
  end.

End Commands.

End Cli2Send.

(* ------------------------------------------------------------------ *)
(** ** Notifications over time

    [connection.onAccountChange] calls the callback of [monitorPdaUpdates]
    on every change notification and does not wait for the promise it
    returns. The callback runs up to [await _fetchNewMessages(...)]: it
    reads the counter, compares it with [initialCount], prints the banner
    and starts the fetch with the [initialCount] of that moment. It goes
    on when the fetch settles: it prints what was found and writes the
    counter it had read into [initialCount]. Between the two, other
    callbacks may start or go on. *)

(** A callback that waits for its fetch: the counter it read and the
    starting index it passed to the fetch. *)
Module Waiting.
Record t : Type := {
  newCount : Z;
  startingIndex : Z
}.
End Waiting.

(** What happens to the subscription: a change notification arrives with
    the updated account bytes, or the fetch of the [k]-th waiting callback
    settles, answered by the ledger as [connection] shows it. *)
Inductive Event : Type :=
| Notified (updatedData : Buffer)
| Settled (k : nat) (connection : Connection).

(** One event on the closed-over variables and the waiting callbacks:
    the state afterwards and the lines printed. The read of the counter is
    outside the callback's [try]: when it throws the promise of the
    callback is rejected. An event for a callback that is not waiting does
    nothing. *)
Definition deliver (decryptMessage : Buffer -> string -> Completion string)
    (l : Listener) (waiting : list Waiting.t) (event : Event)
    : Completion (Listener * list Waiting.t * list Console) :=
  match event with
  | Notified updatedData =>
      let* newCount := readUInt32LE updatedData (messageCountOffset (metadata l)) in
      if initialCount l <? newCount then
        Return (l,
                waiting ++ [{| Waiting.newCount := newCount;
                               Waiting.startingIndex := initialCount l |}],
                [NewReceived (isThread l)])
      else Return (l, waiting, [])
  | Settled k connection =>
      match nth_error waiting k with
      | None => Return (l, waiting, [])
      | Some w =>
          let shown :=
            match _fetchNewMessages decryptMessage connection (metadata l)
                    (sharedSecret l) (Waiting.startingIndex w) with
            | Return newMessages =>
                if 0 <? Z.of_nat (List.length newMessages) then
                  match nth_error newMessages (List.length newMessages - 1) with
                  | Some latestMessage => [Content (isThread l) latestMessage]
                  | None => []
                  end
                else [CouldNotFind (isThread l) (initialCount l) (Waiting.newCount w)]
            | Throw e => [FetchError e]
            end in
          Return ({| isThread := isThread l; metadata := metadata l;
                     sharedSecret := sharedSecret l;
                     initialCount := Waiting.newCount w |},
                  firstn k waiting ++ skipn (S k) waiting,
                  shown)
      end
  end.

(** How a run of the subscription stands: the closed-over variables, the
    callbacks that wait, the lines printed so far, and the exception that
    ended the process, if one did. *)
Module Outcome.
Record t : Type := {
  listener : Listener;
  waiting : list Waiting.t;
  printed : list Console;
  ended : option Exn
}.
End Outcome.

(** The subscription over a sequence of events. Nothing handles the
    rejected promise of a callback, and Node ends the process on an
    unhandled rejection: the run stops there with the exception, and the
    events that follow are not answered. *)
Fixpoint onAccountChange (decryptMessage : Buffer -> string -> Completion string)
    (l : Listener) (waiting : list Waiting.t) (events : list Event) : Outcome.t :=
  match events with
  | [] =>
      {| Outcome.listener := l; Outcome.waiting := waiting;
         Outcome.printed := []; Outcome.ended := None |}
  | event :: rest =>
      match deliver decryptMessage l waiting event with
      | Return (l', waiting', shown) =>
          let after := onAccountChange decryptMessage l' waiting' rest in
          {| Outcome.listener := Outcome.listener after;
             Outcome.waiting := Outcome.waiting after;
             Outcome.printed := shown ++ Outcome.printed after;
             Outcome.ended := Outcome.ended after |}
      | Throw e =>
          {| Outcome.listener := l; Outcome.waiting := waiting;
             Outcome.printed := []; Outcome.ended := Some e |}
      end
  end.

(** Notifications answered one at a time: the fetch of each callback
    settles, with the ledger as it is then, before the next notification
    arrives. *)
Definition oneAtATime (notifications : list (Connection * Buffer)) : list Event :=
  flat_map (fun n => [Notified (snd n); Settled 0 (fst n)]) notifications.

(** The counters read from a sequence of notifications, up to the first
    one whose counter cannot be read. *)
Fixpoint countsRead (offset : nat) (notifications : list (Connection * Buffer))
    : list Z :=
  match notifications with
  | [] => []
  | n :: rest =>
      match readUInt32LE (snd n) offset with
      | Return newCount => newCount :: countsRead offset rest
      | Throw _ => []
      end
  end.

(* ------------------------------------------------------------------ *)
(** ** What listen prints when it starts *)

(** The lines of [monitorPdaUpdates] up to the subscription, in the order
    of the source; [cluster] is [options.cluster]. *)
Inductive Startup : Type :=
| MustProvideAddress
| NoKeyWarning
| ListeningFor (isThread : bool)
| TargetPDA (targetPDA : string)
| Cluster (cluster : string)
| DecryptionKey (provided : bool)
| InitialCount (initialCount : Z)
| ErrorSettingUp (error : Exn).

(** [!!value] on an optional string. *)
Definition truthy (value : option string) : bool :=
  match value with
  | Some EmptyString | None => false
  | Some _ => true
  end.

(** [monitorPdaUpdates] up to the subscription, with the lines it prints:
    the warning when [!options.key], then the address, the cluster and
    whether a key was given, then the initial count, or the error that the
    [catch] reports. [new PublicKey(accountAddress)] is outside the [try]
    and throws after the warning. *)
Definition monitorPdaUpdates_logged (cluster : string) (connection : Connection)
    (options : Options.t) : list Startup * Completion Listener :=
  let accountAddress :=
    match Options.thread options with
    | Some EmptyString | None => Options.channel options
    | Some s => Some s
    end in
  let isThread := truthy (Options.thread options) in
  if truthy accountAddress then
    let warning := if truthy (Options.key options) then [] else [NoKeyWarning] in
    match address accountAddress with
    | Throw e => (warning, Throw e)
    | Return targetPDA =>
        let sharedSecret := or_default (Options.key options) "default-secret-key" in
        let header :=
          warning
          ++ [ListeningFor isThread; TargetPDA (toBase58 targetPDA); Cluster cluster;
              DecryptionKey (truthy (Options.key options))] in
        match fetchAccountCount connection targetPDA
                (if isThread then thread else channel) with
        | Return (metadata, _, initialCount) =>
            (header ++ [InitialCount initialCount],
             Return {| isThread := isThread; metadata := metadata;
                       sharedSecret := sharedSecret; initialCount := initialCount |})
        | Throw e => (header ++ [ErrorSettingUp e], Throw e)
        end
    end
  else ([MustProvideAddress],
        Throw (Error "Must provide a --thread or --channel address.")).

(** The options with [--key] left out. *)
Definition without_key (options : Options.t) : Options.t :=
  {| Options.thread := Options.thread options;
     Options.channel := Options.channel options;
     Options.key := None;
     Options.message := Options.message options |}.

(** A compiled instruction and the message that holds it stand for the
    instruction [sent]: same program, same data, and an account list that
    resolves, position by position, to the keys of [sent]. *)
Definition compiled (message : VersionedMessage) (ix : Ix.t)
    (sent : TransactionInstruction.t) : Prop :=
  nth_error (staticAccountKeys message) (Ix.programIdIndex ix)
  = Some (TransactionInstruction.programId sent) /\
  Ix.data ix = TransactionInstruction.data sent /\
  Forall2 (fun i k => nth_error (staticAccountKeys message) i = Some (pubkey k))
    (Ix.accountKeyIndexes ix) (TransactionInstruction.keys sent).

(** Inputs for running the other commands on the small ledger. *)
Module Desk.

(** An address derivation that answers with the ledger's accounts. *)
Definition findProgramAddressSync (seeds : list Buffer) (programId : PublicKey)
    : Completion (PublicKey * nat) :=
  match seeds with
  | tag :: _ =>
      if Buffer_equals tag (Buffer_from_utf8 "message_thread")
      then Return (Ledger.threadPDA, 255%nat)
      else Return (Ledger.channelPDA, 254%nat)
  | [] => Throw (Error "Unable to find a viable program address nonce")
  end.

Definition bobAddress : string := Eval vm_compute in toBase58 Ledger.bob.

Definition initThread : AdminOptions.t :=
  {| AdminOptions.thread := None; AdminOptions.channel := None;
     AdminOptions.recipient := Some bobAddress; AdminOptions.name := "" |}.

Definition createChannel : AdminOptions.t :=
  {| AdminOptions.thread := None; AdminOptions.channel := None;
     AdminOptions.recipient := None; AdminOptions.name := "Test" |}.

(** The compiled form of an instruction whose keys are the first keys of
    the message, in order, followed by the program. *)
Definition messageOf (sent : TransactionInstruction.t) : VersionedMessage :=
  {| staticAccountKeys :=
       map pubkey (TransactionInstruction.keys sent)
       ++ [TransactionInstruction.programId sent];
     compiledInstructions := None |}.

Definition compile (sent : TransactionInstruction.t) : Ix.t :=
  {| Ix.programIdIndex := List.length (TransactionInstruction.keys sent);
     Ix.accountKeyIndexes := seq 0 (List.length (TransactionInstruction.keys sent));
     Ix.data := TransactionInstruction.data sent |}.

End Desk.

(** The small ledger after bob has sent a fourth message: the count is
    4, and the newest references are an unknown one and the one of the
    send. *)
Module Later.

Definition transactions (s : string) : Completion (option TransactionResponse) :=
  if String.eqb s "sigN" then
    Return (Some (Ledger.txOf Ledger.bob [Ledger.send 3 "fourth"] 1700000700))
  else Ledger.transactions s.

Definition ledger : Connection :=
  {| getAccountInfo := Ledger.accounts 4;
     getSignaturesForAddress := fun _ _ =>
       Return (map (fun s => {| signature := s |}) ["sigI"; "sigN"; "sigC"; "sigB"]);
     getTransaction := transactions |}.

Definition sendFourth : Options.t :=
  {| Options.thread := Some Ledger.threadAddress; Options.channel := None;
     Options.key := Some "mykey"; Options.message := "fourth" |}.

Definition fourth : Msg.t := Ledger.entry 3 Ledger.bob "fourth" 1700000700 "sigN".

End Later.

(** Commands on the small ledger without [--key]. *)
Module Plain.

Definition sendThread : Options.t :=
  {| Options.thread := Some Ledger.threadAddress; Options.channel := None;
     Options.key := None; Options.message := "hello" |}.

Definition sendChannel : Options.t :=
  {| Options.thread := None; Options.channel := Some Ledger.channelAddress;
     Options.key := None; Options.message := "hello" |}.

(** The thread after that send was made as its first message. *)
Definition sentThread : Connection :=
  {| getAccountInfo := Ledger.accounts 1;
     getSignaturesForAddress := fun _ _ => Return [{| signature := "sigP" |}];
     getTransaction := fun _ =>
       Return (Some (Ledger.txOf Ledger.alice
                       [{| Ix.programIdIndex := 2;
                           Ix.accountKeyIndexes := [1; 0]%nat;
                           Ix.data :=
                             appendData Ledger.sendMessageTag 0
                               (Demo.encryptMessage "hello" "default-secret-key") |}]
                       1700000800)) |}.

End Plain.

(** Appends of index 1 whose sender cannot be looked up, behind one whose
    sender can: the account list of [lone] has no position 1, and position
    1 of [far] names no static key. *)
Module Stray.

Definition lone (messageIndex : Z) (text : string) : Ix.t :=
  {| Ix.programIdIndex := 2;
     Ix.accountKeyIndexes := [1]%nat;
     Ix.data := appendData Ledger.sendMessageTag messageIndex
                  (Demo.encryptMessage text "mykey") |}.

Definition far (messageIndex : Z) (text : string) : Ix.t :=
  {| Ix.programIdIndex := 2;
     Ix.accountKeyIndexes := [1; 7]%nat;
     Ix.data := appendData Ledger.sendMessageTag messageIndex
                  (Demo.encryptMessage text "mykey") |}.

Definition instructions : list Ix.t :=
  [Ledger.send 1 "second"; lone 1 "second"; far 1 "second"].

Definition message : VersionedMessage :=
  {| staticAccountKeys := Ledger.keysOf Ledger.alice;
     compiledInstructions := Some instructions |}.

Definition ledger : Connection :=
  {| getAccountInfo := Ledger.accounts 2;
     getSignaturesForAddress := fun _ _ => Return [{| signature := "sigU" |}];
     getTransaction := fun _ =>
       Return (Some {| transaction := Some message; blockTime := Some 1700000260 |}) |}.

End Stray.


(* ------------------------------------------------------------------ *)
(** * Properties *)

(** ** Constants and the stand-in cipher *)

Example PROGRAM_ID_bytes :
  map byteZ PROGRAM_ID =
  [132; 5; 242; 81; 38; 73; 242; 33; 209; 5; 219; 165; 22; 71; 19; 76;
   142; 13; 141; 225; 173; 113; 36; 228; 141; 54; 25; 33; 78; 237; 135; 163].
Proof. reflexivity. Qed.

Example PROGRAM_ID_base58 :
  toBase58 PROGRAM_ID = "9tN5NBvynubfJwQWDqrSoHEE3Xy2MVj3BmHdLu13wCcS".
Proof. vm_compute. reflexivity. Qed.

Example sendMessage_bytes :
  map byteZ (Buffer_from_hex DISCRIMINATORS.sendMessage) = [57; 40; 34; 178; 189; 10; 65; 26].
Proof. reflexivity. Qed.

Example sendBroadcast_bytes :
  map byteZ (Buffer_from_hex DISCRIMINATORS.sendBroadcast) = [233; 241; 72; 77; 151; 147; 32; 89].
Proof. reflexivity. Qed.

Example Demo_round_trip :
  Demo.decryptMessage (Demo.encryptMessage "Are you there?" "mykey") "mykey"
  = Return "Are you there?".
Proof. vm_compute. reflexivity. Qed.

Example Demo_wrong_key :
  Demo.decryptMessage (Demo.encryptMessage "New Update" "default-channel-key")
    "default-secret-key"
  = Throw (Error "Decryption failed. Incorrect key or corrupt data.").
Proof. vm_compute. reflexivity. Qed.

(* ------------------------------------------------------------------ *)
(** ** Buffers *)

Lemma byteZ_range (b : byte) : 0 <= byteZ b < 256.
Proof.
  unfold byteZ. pose proof (Byte.to_N_bounded b). lia.
Qed.

Lemma byteZ_byte_of_Z (z : Z) : byteZ (byte_of_Z z) = z mod 256.
Proof.
  unfold byteZ, byte_of_Z.
  assert (Hm : 0 <= z mod 256 < 256) by (apply Z.mod_pos_bound; lia).
  destruct (Byte.of_N (Z.to_N (z mod 256))) as [b|] eqn:E.
  - apply Byte.to_of_N in E. rewrite E. lia.
  - apply Byte.of_N_None_iff in E. lia.
Qed.

Lemma len_nonneg (b : Buffer) : 0 <= len b.
Proof. unfold len. lia. Qed.

Lemma len_app (a b : Buffer) : len (a ++ b) = len a + len b.
Proof. unfold len. rewrite length_app. lia. Qed.

Lemma readUInt32LE_range (buf : Buffer) (offset : nat) (z : Z) :
  readUInt32LE buf offset = Return z -> 0 <= z < 2 ^ 32.
Proof.
  unfold readUInt32LE.
  destruct (skipn offset buf) as [|a [|b [|c [|d r]]]]; try discriminate.
  intros H. injection H as <-.
  pose proof (byteZ_range a). pose proof (byteZ_range b).
  pose proof (byteZ_range c). pose proof (byteZ_range d). lia.
Qed.

Lemma skipn_nth_cons (buf : Buffer) (offset : nat) (x : byte) (r : Buffer) :
  skipn offset buf = x :: r ->
  nth offset buf x00 = x /\ skipn (S offset) buf = r.
Proof.
  revert buf. induction offset as [|n IH]; intros [|y buf] H; simpl in *;
    try discriminate.
  - injection H as -> ->. auto.
  - apply IH in H. exact H.
Qed.

(** With four bytes available the read returns the little-endian value. *)
Lemma readUInt32LE_in_bounds (buf : Buffer) (offset : nat) :
  (offset + 4 <= List.length buf)%nat ->
  readUInt32LE buf offset = Return (u32_at buf offset).
Proof.
  intros Hlen. unfold readUInt32LE, u32_at.
  assert (Hs : List.length (skipn offset buf) = (List.length buf - offset)%nat)
    by apply length_skipn.
  destruct (skipn offset buf) as [|a [|b [|c [|d r]]]] eqn:E; simpl in Hs; try lia.
  apply skipn_nth_cons in E as [<- E].
  apply skipn_nth_cons in E as [<- E].
  apply skipn_nth_cons in E as [<- E].
  apply skipn_nth_cons in E as [<- E].
  replace (offset + 1)%nat with (S offset) by lia.
  replace (offset + 2)%nat with (S (S offset)) by lia.
  replace (offset + 3)%nat with (S (S (S offset))) by lia.
  reflexivity.
Qed.

(** With fewer than four bytes available the read throws. *)
Lemma readUInt32LE_out_of_bounds (buf : Buffer) (offset : nat) :
  (List.length buf < offset + 4)%nat ->
  readUInt32LE buf offset = Throw RangeError.
Proof.
  intros Hlen. unfold readUInt32LE.
  assert (Hs : List.length (skipn offset buf) = (List.length buf - offset)%nat)
    by apply length_skipn.
  destruct (skipn offset buf) as [|a [|b [|c [|d r]]]]; simpl in Hs; try reflexivity.
  lia.
Qed.

Lemma slice_in_bounds (buf : Buffer) (s e : nat) :
  (s <= e <= List.length buf)%nat ->
  slice buf (Z.of_nat s) (Z.of_nat e) = firstn (e - s) (skipn s buf).
Proof.
  intros H. unfold slice, len. cbv zeta.
  replace (Z.min (Z.max 0 (Z.of_nat s)) (Z.of_nat (List.length buf)))
    with (Z.of_nat s) by lia.
  replace (Z.min (Z.max 0 (Z.of_nat e)) (Z.of_nat (List.length buf)))
    with (Z.of_nat e) by lia.
  f_equal; [|f_equal]; lia.
Qed.

(** An [end] past the buffer is clamped: the slice is what remains. *)
Lemma slice_clamped (buf : Buffer) (s : nat) (e : Z) :
  (s <= List.length buf)%nat -> len buf <= e ->
  slice buf (Z.of_nat s) e = skipn s buf.
Proof.
  intros Hs He. unfold slice, len in *. cbv zeta.
  replace (Z.min (Z.max 0 (Z.of_nat s)) (Z.of_nat (List.length buf)))
    with (Z.of_nat s) by lia.
  replace (Z.min (Z.max 0 e) (Z.of_nat (List.length buf)))
    with (Z.of_nat (List.length buf)) by lia.
  rewrite Nat2Z.id.
  apply firstn_all2. rewrite length_skipn. lia.
Qed.

Lemma Buffer_equals_iff (a b : Buffer) : Buffer_equals a b = true <-> a = b.
Proof.
  unfold Buffer_equals. destruct (list_eq_dec Byte.byte_eq_dec a b); split;
    intros; congruence.
Qed.

Lemma u32_decompose (n : Z) :
  0 <= n < 2 ^ 32 ->
  n mod 256 + (n / 2 ^ 8) mod 256 * 2 ^ 8 + (n / 2 ^ 16) mod 256 * 2 ^ 16
  + (n / 2 ^ 24) mod 256 * 2 ^ 24 = n.
Proof.
  intros H.
  change (2 ^ 8) with 256. change (2 ^ 16) with 65536.
  change (2 ^ 24) with 16777216. change (2 ^ 32) with 4294967296 in H.
  Z.div_mod_to_equations. lia.
Qed.

(** Reading back a value written by [Uint32Array_bytes]. *)
Lemma readUInt32LE_Uint32Array (pre post : Buffer) (n : Z) :
  0 <= n < 2 ^ 32 ->
  readUInt32LE (pre ++ Uint32Array_bytes n ++ post) (List.length pre) = Return n.
Proof.
  intros H. unfold readUInt32LE.
  rewrite skipn_app, Nat.sub_diag, skipn_all. simpl.
  rewrite !byteZ_byte_of_Z. rewrite (Z.mod_small n) by lia.
  f_equal. apply u32_decompose. exact H.
Qed.

(* ------------------------------------------------------------------ *)
(** ** Computations over the [messages] array *)

Lemma append_only_ret {A} (a : A) : append_only (ret a).
Proof. intros s. unfold ret, completion, pushed. simpl. now rewrite app_nil_r. Qed.

Lemma append_only_lift {A} (c : Completion A) : append_only (lift c).
Proof. intros s. unfold lift, completion, pushed. simpl. now rewrite app_nil_r. Qed.

Lemma append_only_push (m : Msg.t) : append_only (push m).
Proof. intros s. reflexivity. Qed.

Lemma run_bind {A B} (m : Scan A) (k : A -> Scan B) :
  append_only m -> (forall a, append_only (k a)) ->
  forall s,
    bind m k s =
    match completion m with
    | Return a => (completion (k a), s ++ pushed m ++ pushed (k a))
    | Throw e => (Throw e, s ++ pushed m)
    end.
Proof.
  intros Hm Hk s. unfold bind. rewrite (Hm s).
  destruct (completion m) as [a|e]; [|reflexivity].
  rewrite (Hk a). now rewrite app_assoc.
Qed.

Lemma append_only_bind {A B} (m : Scan A) (k : A -> Scan B) :
  append_only m -> (forall a, append_only (k a)) -> append_only (bind m k).
Proof.
  intros Hm Hk s. unfold completion, pushed.
  rewrite !(run_bind m k Hm Hk).
  destruct (completion m); reflexivity.
Qed.

Lemma run_try_catch {A} (body : Scan A) (handler : Exn -> Scan A) :
  append_only body -> (forall e, append_only (handler e)) ->
  forall s,
    try_catch body handler s =
    match completion body with
    | Return a => (Return a, s ++ pushed body)
    | Throw e => (completion (handler e), s ++ pushed body ++ pushed (handler e))
    end.
Proof.
  intros Hb Hh s. unfold try_catch. rewrite (Hb s).
  destruct (completion body) as [a|e]; [reflexivity|].
  rewrite (Hh e). now rewrite app_assoc.
Qed.

Lemma append_only_try_catch {A} (body : Scan A) (handler : Exn -> Scan A) :
  append_only body -> (forall e, append_only (handler e)) ->
  append_only (try_catch body handler).
Proof.
  intros Hb Hh s. unfold completion, pushed.
  rewrite !(run_try_catch body handler Hb Hh).
  destruct (completion body); reflexivity.
Qed.

Lemma append_only_for_of {A} (l : list A) (body : A -> Scan unit) :
  (forall x, append_only (body x)) -> append_only (for_of l body).
Proof.
  intros Hb. induction l as [|x l IH]; simpl.
  - apply append_only_ret.
  - apply append_only_bind; auto.
Qed.

Lemma pushed_bind {A B} (m : Scan A) (k : A -> Scan B) :
  append_only m -> (forall a, append_only (k a)) ->
  pushed (bind m k) =
  pushed m ++ match completion m with
              | Return a => pushed (k a)
              | Throw _ => []
              end.
Proof.
  intros Hm Hk. unfold pushed at 1. rewrite (run_bind m k Hm Hk).
  destruct (completion m); simpl; [reflexivity|now rewrite app_nil_r].
Qed.

Lemma completion_bind {A B} (m : Scan A) (k : A -> Scan B) :
  append_only m -> (forall a, append_only (k a)) ->
  completion (bind m k) =
  match completion m with
  | Return a => completion (k a)
  | Throw e => Throw e
  end.
Proof.
  intros Hm Hk. unfold completion at 1. rewrite (run_bind m k Hm Hk).
  destruct (completion m); reflexivity.
Qed.

(** A loop whose body never throws pushes the entries of each element in
    turn. *)
Lemma for_of_total {A} (l : list A) (body : A -> Scan unit) :
  (forall x, append_only (body x)) ->
  (forall x, completion (body x) = Return tt) ->
  completion (for_of l body) = Return tt /\
  pushed (for_of l body) = flat_map (fun x => pushed (body x)) l.
Proof.
  intros Hb Ht. induction l as [|x l [IHc IHp]]; simpl.
  - split; reflexivity.
  - pose proof (append_only_for_of l body Hb) as Hl.
    rewrite completion_bind, pushed_bind by auto.
    rewrite Ht. split; [exact IHc|]. now rewrite IHp.
Qed.

Create HintDb scan.

#[local] Hint Resolve append_only_ret append_only_lift append_only_push
  append_only_bind append_only_try_catch append_only_for_of : scan.

Ltac append_only_tac :=
  repeat first
    [ solve [trivial with scan]
    | apply append_only_ret
    | apply append_only_lift
    | apply append_only_push
    | apply append_only_for_of; intros
    | apply append_only_try_catch; [|intros]
    | apply append_only_bind; [|intros]
    | match goal with
      | |- append_only (if ?b then _ else _) => destruct b
      | |- append_only (match ?x with _ => _ end) => destruct x
      end ].

(* ------------------------------------------------------------------ *)
(** ** The scan *)

Section ScanFacts.

Variable decryptMessage : Buffer -> string -> Completion string.


Lemma append_only_instruction_body sigInfo tx message DISC secret k ix :
  append_only (instruction_body decryptMessage sigInfo tx message DISC secret k ix).
Proof. unfold instruction_body. append_only_tac. Qed.

#[local] Hint Resolve append_only_instruction_body : scan.

Lemma append_only_signature_body connection DISC secret k sigInfo :
  append_only (signature_body decryptMessage connection DISC secret k sigInfo).
Proof.
  unfold signature_body. append_only_tac.
Qed.

(** The per-reference [try]/[catch] swallows every exception. *)
Lemma signature_body_returns connection DISC secret k sigInfo :
  completion (signature_body decryptMessage connection DISC secret k sigInfo) = Return tt.
Proof.
  unfold completion, signature_body, try_catch.
  match goal with |- fst (match ?m with _ => _ end) = _ => destruct m as [[[]|e] s'] end;
    reflexivity.
Qed.

(** The [messages] array after the loop over the signatures. *)
Lemma scan_signatures connection DISC secret k signatures :
  snd (for_of signatures (signature_body decryptMessage connection DISC secret k) [])
  = flat_map (entries_of decryptMessage connection DISC secret k) signatures.
Proof.
  apply (for_of_total signatures (signature_body decryptMessage connection DISC secret k)).
  - intros x. apply append_only_signature_body.
  - intros x. apply signature_body_returns.
Qed.

Lemma _fetchNewMessages_listed connection metadata secret k signatures :
  getSignaturesForAddress connection (pda metadata) 1000 = Return signatures ->
  _fetchNewMessages decryptMessage connection metadata secret k =
  Return (Array_sort by_index
            (flat_map (entries_of decryptMessage connection (discriminator metadata) secret k)
               signatures)).
Proof.
  intros H. unfold _fetchNewMessages. rewrite H. simpl.
  now rewrite scan_signatures.
Qed.

End ScanFacts.

(* ------------------------------------------------------------------ *)
(** ** The sort by index *)

Lemma sort_insert_perm {A} (cmp : A -> A -> Z) (x : A) (l : list A) :
  Permutation (sort_insert cmp x l) (x :: l).
Proof.
  induction l as [|y l IH]; simpl.
  - apply Permutation_refl.
  - destruct (cmp x y <=? 0).
    + apply Permutation_refl.
    + apply perm_trans with (y :: x :: l).
      * now apply perm_skip.
      * apply perm_swap.
Qed.

(** Sorting loses and invents nothing. *)
Lemma Array_sort_perm {A} (cmp : A -> A -> Z) (l : list A) :
  Permutation (Array_sort cmp l) l.
Proof.
  induction l as [|x l IH]; simpl.
  - apply perm_nil.
  - apply perm_trans with (x :: Array_sort cmp l).
    + apply sort_insert_perm.
    + now apply perm_skip.
Qed.

Lemma sort_insert_sorted (x : Msg.t) (l : list Msg.t) :
  StronglySorted index_le l -> StronglySorted index_le (sort_insert by_index x l).
Proof.
  induction 1 as [|y l Hs IH Hy]; simpl.
  - constructor; constructor.
  - unfold by_index at 1. destruct (Z.leb_spec (Msg.index x - Msg.index y) 0) as [Hle|Hgt].
    + constructor.
      * now constructor.
      * constructor; [unfold index_le; lia|].
        eapply Forall_impl; [|exact Hy]. unfold index_le. intros; lia.
    + constructor; [exact IH|].
      eapply Permutation_Forall.
      * apply Permutation_sym, sort_insert_perm.
      * constructor; [unfold index_le; lia|exact Hy].
Qed.

(** The result is ascending by index. *)
Lemma Array_sort_sorted (l : list Msg.t) :
  StronglySorted index_le (Array_sort by_index l).
Proof.
  induction l as [|x l IH]; simpl.
  - constructor.
  - now apply sort_insert_sorted.
Qed.

Lemma sort_insert_front (x : Msg.t) (l : list Msg.t) :
  Forall (index_le x) l -> sort_insert by_index x l = x :: l.
Proof.
  intros H. destruct l as [|y l]; simpl; [reflexivity|].
  inversion H as [|? ? Hy _]; subst. unfold index_le in Hy. unfold by_index.
  destruct (Z.leb_spec (Msg.index x - Msg.index y) 0); [reflexivity|lia].
Qed.

Lemma filter_sort_insert_kept (p : Msg.t -> bool) (x : Msg.t) (l : list Msg.t) :
  StronglySorted index_le l -> p x = true ->
  filter p (sort_insert by_index x l) = sort_insert by_index x (filter p l).
Proof.
  intros Hs Hp. induction Hs as [|y l Hs IH Hy]; simpl.
  - now rewrite Hp.
  - unfold by_index at 1. destruct (Z.leb_spec (Msg.index x - Msg.index y) 0) as [Hle|Hgt].
    + simpl. rewrite Hp. symmetry.
      change (sort_insert by_index x (filter p (y :: l)) = x :: filter p (y :: l)).
      apply sort_insert_front.
      apply incl_Forall with (l1 := y :: l).
      * apply incl_filter.
      * constructor; [unfold index_le; lia|].
        eapply Forall_impl; [|exact Hy]. unfold index_le. intros; lia.
    + simpl. destruct (p y); simpl.
      * unfold by_index at 2.
        destruct (Z.leb_spec (Msg.index x - Msg.index y) 0); [lia|]. now rewrite IH.
      * exact IH.
Qed.

Lemma filter_sort_insert_dropped (p : Msg.t -> bool) (x : Msg.t) (l : list Msg.t) :
  p x = false -> filter p (sort_insert by_index x l) = filter p l.
Proof.
  intros Hp. induction l as [|y l IH]; simpl.
  - now rewrite Hp.
  - destruct (by_index x y <=? 0); simpl.
    + now rewrite Hp.
    + now rewrite IH.
Qed.

(** The sort is stable, so it commutes with dropping entries. *)
Lemma Array_sort_filter (p : Msg.t -> bool) (l : list Msg.t) :
  Array_sort by_index (filter p l) = filter p (Array_sort by_index l).
Proof.
  induction l as [|x l IH]; simpl; [reflexivity|].
  destruct (p x) eqn:Hp; simpl.
  - rewrite IH. symmetry. apply filter_sort_insert_kept; [apply Array_sort_sorted|exact Hp].
  - rewrite IH. symmetry. now apply filter_sort_insert_dropped.
Qed.

(** Two strictly ascending lists with the same elements are equal. *)
Lemma strictly_sorted_unique {A} (key : A -> Z) (l1 l2 : list A) :
  StronglySorted (fun a b => key a < key b) l1 ->
  StronglySorted (fun a b => key a < key b) l2 ->
  Permutation l1 l2 -> l1 = l2.
Proof.
  intros H1. revert l2. induction H1 as [|a l1 Hs1 IH Ha]; intros l2 H2 Hp.
  - apply Permutation_nil in Hp. now subst.
  - destruct H2 as [|b l2 Hs2 Hb].
    + apply Permutation_sym, Permutation_nil in Hp. discriminate.
    + assert (Hab : a = b).
      { assert (Hin1 : In a (b :: l2))
          by (eapply Permutation_in; [exact Hp|now left]).
        assert (Hin2 : In b (a :: l1))
          by (eapply Permutation_in; [apply Permutation_sym; exact Hp|now left]).
        destruct Hin1 as [->|Hin1]; [reflexivity|].
        destruct Hin2 as [->|Hin2]; [reflexivity|].
        rewrite Forall_forall in Ha, Hb.
        specialize (Ha _ Hin2). specialize (Hb _ Hin1). lia. }
      subst b. f_equal. apply IH; [exact Hs2|].
      eapply Permutation_cons_inv; exact Hp.
Qed.

(** An ascending list with pairwise distinct keys is strictly ascending. *)
Lemma sorted_NoDup_strict (l : list Msg.t) :
  StronglySorted index_le l -> NoDup (map Msg.index l) ->
  StronglySorted (fun a b => Msg.index a < Msg.index b) l.
Proof.
  induction 1 as [|a l Hs IH Ha]; intros Hnd; simpl in Hnd.
  - constructor.
  - inversion Hnd as [|? ? Hnotin Hnd']; subst.
    constructor; [now apply IH|].
    rewrite Forall_forall in *. intros b Hb.
    specialize (Ha _ Hb). unfold index_le in Ha.
    assert (Msg.index a <> Msg.index b).
    { intros E. apply Hnotin. rewrite E. now apply in_map. }
    lia.
Qed.

(** With pairwise distinct indices the sorted result does not depend on
    the order of arrival. *)
Lemma Array_sort_order_independent (l l' : list Msg.t) :
  Permutation l l' -> NoDup (map Msg.index l) ->
  Array_sort by_index l' = Array_sort by_index l.
Proof.
  intros Hp Hnd.
  assert (Hpl : Permutation (Array_sort by_index l') (Array_sort by_index l)).
  { eapply perm_trans; [apply Array_sort_perm|].
    eapply perm_trans; [apply Permutation_sym; exact Hp|].
    apply Permutation_sym, Array_sort_perm. }
  apply (strictly_sorted_unique Msg.index); [| |exact Hpl].
  - apply sorted_NoDup_strict; [apply Array_sort_sorted|].
    eapply Permutation_NoDup; [|exact Hnd].
    apply Permutation_map. eapply perm_trans; [exact Hp|].
    apply Permutation_sym, Array_sort_perm.
  - apply sorted_NoDup_strict; [apply Array_sort_sorted|].
    eapply Permutation_NoDup; [|exact Hnd].
    apply Permutation_map, Permutation_sym, Array_sort_perm.
Qed.

(* ------------------------------------------------------------------ *)
(** ** Append payloads *)

Lemma PublicKey_equals_iff (a b : PublicKey) : PublicKey_equals a b = true <-> a = b.
Proof. apply Buffer_equals_iff. Qed.

Lemma len_Uint32Array_bytes (n : Z) : List.length (Uint32Array_bytes n) = 4%nat.
Proof. reflexivity. Qed.

Lemma appendData_length (DISC : Buffer) (n : Z) (encrypted : Buffer) :
  List.length (appendData DISC n encrypted)
  = (List.length DISC + 8 + List.length encrypted)%nat.
Proof.
  unfold appendData. rewrite !length_app, !len_Uint32Array_bytes. lia.
Qed.

Lemma appendData_index (DISC : Buffer) (n : Z) (encrypted : Buffer) :
  List.length DISC = 8%nat -> 0 <= n < 2 ^ 32 ->
  readUInt32LE (appendData DISC n encrypted) 8 = Return n.
Proof.
  intros Hd Hn. unfold appendData. rewrite <- Hd.
  now apply readUInt32LE_Uint32Array.
Qed.

Lemma appendData_contentLength (DISC : Buffer) (n : Z) (encrypted : Buffer) :
  List.length DISC = 8%nat -> len encrypted < 2 ^ 32 ->
  readUInt32LE (appendData DISC n encrypted) 12 = Return (len encrypted).
Proof.
  intros Hd Hn. unfold appendData. rewrite app_assoc.
  replace 12%nat with (List.length (DISC ++ Uint32Array_bytes n))
    by (rewrite length_app, Hd; reflexivity).
  apply readUInt32LE_Uint32Array. pose proof (len_nonneg encrypted). lia.
Qed.

Lemma appendData_ciphertext (DISC : Buffer) (n : Z) (encrypted : Buffer) :
  List.length DISC = 8%nat ->
  slice (appendData DISC n encrypted) 16 (16 + len encrypted) = encrypted.
Proof.
  intros Hd. change 16 with (Z.of_nat 16) at 1.
  rewrite slice_clamped.
  - unfold appendData. rewrite !app_assoc.
    rewrite skipn_app.
    rewrite skipn_all2 by (rewrite !length_app, Hd; simpl; lia).
    rewrite !length_app, Hd. reflexivity.
  - rewrite appendData_length. lia.
  - unfold len. rewrite appendData_length. lia.
Qed.

Lemma appendData_matches (message : VersionedMessage) (ix : Ix.t) (DISC : Buffer)
    (n : Z) (encrypted : Buffer) :
  List.length DISC = 8%nat ->
  nth_error (staticAccountKeys message) (Ix.programIdIndex ix) = Some PROGRAM_ID ->
  Ix.data ix = appendData DISC n encrypted ->
  matchingInstruction message ix DISC = Return true.
Proof.
  intros Hd Hp Hdata. unfold matchingInstruction, element. rewrite Hp. simpl.
  replace (PublicKey_equals PROGRAM_ID PROGRAM_ID) with true
    by (symmetry; now apply PublicKey_equals_iff).
  rewrite Hdata. f_equal. apply andb_true_intro. split.
  - apply Z.ltb_lt. unfold len. rewrite appendData_length. lia.
  - apply Buffer_equals_iff. unfold subarray.
    change 0 with (Z.of_nat 0). change 8 with (Z.of_nat 8).
    rewrite slice_in_bounds by (rewrite appendData_length; lia).
    simpl skipn. unfold appendData. rewrite Nat.sub_0_r, <- Hd.
    rewrite firstn_app, Nat.sub_diag, firstn_all. simpl. now rewrite app_nil_r.
Qed.

(* ------------------------------------------------------------------ *)
(** ** One instruction, one transaction reference *)

Section InstructionFacts.

Variable decryptMessage : Buffer -> string -> Completion string.


Variables (sigInfo : ConfirmedSignatureInfo) (tx : TransactionResponse)
  (message : VersionedMessage) (DISC : Buffer) (secret : string).

(** An instruction the guard rejects is passed over. *)
Lemma instruction_body_unmatched k ix s :
  matchingInstruction message ix DISC = Return false ->
  instruction_body decryptMessage sigInfo tx message DISC secret k ix s = (Return tt, s).
Proof.
  intros H. unfold instruction_body, bind, lift. now rewrite H.
Qed.

(** A selected instruction with a readable header whose decryption and
    sender lookup succeed pushes one entry, whatever the array holds. *)
Lemma instruction_body_pushes k ix messageIndex contentLength decrypted senderIndex sender s :
  matchingInstruction message ix DISC = Return true ->
  readUInt32LE (Ix.data ix) 8 = Return messageIndex ->
  readUInt32LE (Ix.data ix) 12 = Return contentLength ->
  k <= messageIndex ->
  decryptMessage (slice (Ix.data ix) 16 (16 + contentLength)) secret = Return decrypted ->
  nth_error (Ix.accountKeyIndexes ix) 1 = Some senderIndex ->
  nth_error (staticAccountKeys message) senderIndex = Some sender ->
  instruction_body decryptMessage sigInfo tx message DISC secret k ix s
  = (Return tt,
     s ++ [{| Msg.index := messageIndex; Msg.sender := toBase58 sender;
              Msg.content := decrypted; Msg.timestamp := blockTime tx;
              Msg.signature := Some (signature sigInfo) |}]).
Proof.
  intros Hm H8 H12 Hk Hd Hi Hs.
  unfold instruction_body, bind, lift, try_catch, push, element.
  rewrite Hm, H8, H12. cbv zeta.
  apply Z.leb_le in Hk. rewrite Hk, Hd, Hi, Hs. reflexivity.
Qed.

(** A failed decryption is swallowed by the inner [catch]. *)
Lemma instruction_body_decrypt_fails k ix messageIndex contentLength e s :
  matchingInstruction message ix DISC = Return true ->
  readUInt32LE (Ix.data ix) 8 = Return messageIndex ->
  readUInt32LE (Ix.data ix) 12 = Return contentLength ->
  decryptMessage (slice (Ix.data ix) 16 (16 + contentLength)) secret = Throw e ->
  instruction_body decryptMessage sigInfo tx message DISC secret k ix s = (Return tt, s).
Proof.
  intros Hm H8 H12 Hd.
  unfold instruction_body, bind, lift, try_catch, ret.
  rewrite Hm, H8, H12. cbv zeta. rewrite Hd.
  destruct (k <=? messageIndex); reflexivity.
Qed.

(** An entry below the starting index is passed over. *)
Lemma instruction_body_older k ix messageIndex contentLength s :
  matchingInstruction message ix DISC = Return true ->
  readUInt32LE (Ix.data ix) 8 = Return messageIndex ->
  readUInt32LE (Ix.data ix) 12 = Return contentLength ->
  messageIndex < k ->
  instruction_body decryptMessage sigInfo tx message DISC secret k ix s = (Return tt, s).
Proof.
  intros Hm H8 H12 Hk.
  unfold instruction_body, bind, lift, ret.
  rewrite Hm, H8, H12. cbv zeta.
  apply Z.leb_gt in Hk. now rewrite Hk.
Qed.

(** An instruction never pushes more than one entry, and what it pushes
    is at or above the starting index. *)
Lemma instruction_body_pushed k ix :
  pushed (instruction_body decryptMessage sigInfo tx message DISC secret k ix) = [] \/
  exists m, pushed (instruction_body decryptMessage sigInfo tx message DISC secret k ix) = [m] /\
            k <= Msg.index m /\
            readUInt32LE (Ix.data ix) 8 = Return (Msg.index m).
Proof.
  unfold pushed, instruction_body, bind, lift, try_catch, push, ret.
  destruct (matchingInstruction message ix DISC) as [[|]|]; simpl; auto.
  destruct (readUInt32LE (Ix.data ix) 8) as [i|]; simpl; auto.
  destruct (readUInt32LE (Ix.data ix) 12) as [c|]; simpl; auto.
  destruct (Z.leb_spec k i); simpl; auto.
  destruct (decryptMessage _ secret); simpl; auto.
  destruct (element (Ix.accountKeyIndexes ix) 1); simpl; auto.
  destruct (element (staticAccountKeys message) _); simpl; auto.
  right. eexists. split; [reflexivity|]. simpl. auto.
Qed.

(** The instructions of a transaction push the entries they carry. *)
Lemma for_of_carries instructions ms :
  List.length DISC = 8%nat ->
  carries decryptMessage sigInfo tx message DISC secret instructions ms ->
  forall s,
    for_of instructions (instruction_body decryptMessage sigInfo tx message DISC secret 0) s
    = (Return tt, s ++ ms).
Proof.
  intros Hd H.
  induction H as [|ix m instructions ms Ha _ IH|ix instructions ms Ho _ IH];
    intros s; simpl.
  - unfold ret. now rewrite app_nil_r.
  - destruct Ha as (encrypted & senderIndex & sender & Hp & Hdata & Hi & Hl & Hdec
                    & Hsi & Hs & Hsender & Ht & Hsig).
    unfold bind at 1.
    rewrite (instruction_body_pushes 0 ix (Msg.index m) (len encrypted)
               (Msg.content m) senderIndex sender s).
    + rewrite IH. rewrite <- app_assoc. simpl.
      destruct m as [mi msd mc mt msg]. simpl in *. now subst.
    + eapply appendData_matches; eauto.
    + rewrite Hdata. now apply appendData_index.
    + rewrite Hdata. now apply appendData_contentLength.
    + lia.
    + rewrite Hdata, appendData_ciphertext; assumption.
    + exact Hsi.
    + exact Hs.
  - unfold bind at 1. rewrite (instruction_body_unmatched 0 ix s Ho). apply IH.
Qed.

End InstructionFacts.

(* ------------------------------------------------------------------ *)
(** ** Running the scan on the small ledger *)

Example read_newest_first :
  _fetchNewMessages Demo.decryptMessage Ledger.newestFirst Ledger.threadMetadata "mykey" 0
  = Return [Ledger.first; Ledger.second; Ledger.third].
Proof. vm_compute. reflexivity. Qed.

Example read_oldest_first :
  _fetchNewMessages Demo.decryptMessage Ledger.oldestFirst Ledger.threadMetadata "mykey" 0
  = Return [Ledger.first; Ledger.second; Ledger.third].
Proof. vm_compute. reflexivity. Qed.

Example fetch_thread_account :
  fetchAccountCount Ledger.newestFirst Ledger.threadPDA thread
  = Return (Ledger.threadMetadata, Ledger.threadData 3, 3).
Proof. vm_compute. reflexivity. Qed.

(* ------------------------------------------------------------------ *)
(** ** Transaction references *)

Section ReferenceFacts.

Variable decryptMessage : Buffer -> string -> Completion string.


(** A reference whose fetch throws contributes nothing. *)
Lemma entries_of_fetch_throws connection DISC secret k sigInfo e :
  getTransaction connection (signature sigInfo) = Throw e ->
  entries_of decryptMessage connection DISC secret k sigInfo = [].
Proof.
  intros H. unfold entries_of, pushed, signature_body,
    try_catch, bind, lift.
  now rewrite H.
Qed.

(** A reference that resolves to no transaction contributes nothing. *)
Lemma entries_of_fetch_null connection DISC secret k sigInfo :
  getTransaction connection (signature sigInfo) = Return None ->
  entries_of decryptMessage connection DISC secret k sigInfo = [].
Proof.
  intros H. unfold entries_of, pushed, signature_body,
    try_catch, bind, lift.
  now rewrite H.
Qed.

(** The entries of a reference depend on the ledger only through the
    transaction the reference resolves to. *)
Lemma entries_of_same_transaction connection connection' DISC secret k sigInfo :
  getTransaction connection' (signature sigInfo)
  = getTransaction connection (signature sigInfo) ->
  entries_of decryptMessage connection' DISC secret k sigInfo
  = entries_of decryptMessage connection DISC secret k sigInfo.
Proof.
  intros H. unfold entries_of, pushed, signature_body,
    try_catch, bind, lift.
  now rewrite H.
Qed.

(** The entries of a resolved reference are those its instruction loop
    pushes; an exception thrown inside the loop ends it. *)
Lemma entries_of_resolved connection DISC secret k sigInfo tx message instructions :
  getTransaction connection (signature sigInfo) = Return (Some tx) ->
  transaction tx = Some message ->
  compiledInstructions message = Some instructions ->
  entries_of decryptMessage connection DISC secret k sigInfo
  = pushed (for_of instructions
              (instruction_body decryptMessage sigInfo tx message DISC secret k)).
Proof.
  intros Hg Ht Hc. unfold entries_of, pushed at 1,
    signature_body, try_catch, bind, lift.
  rewrite Hg, Ht, Hc. unfold pushed.
  destruct (for_of instructions _ []) as [[[]|e] s']; reflexivity.
Qed.

Lemma entries_of_delivers connection DISC secret sigInfo ms :
  List.length DISC = 8%nat ->
  delivers decryptMessage connection DISC secret sigInfo ms ->
  entries_of decryptMessage connection DISC secret 0 sigInfo = ms.
Proof.
  intros Hd (tx & message & instructions & Hg & Ht & Hc & Hf).
  rewrite (entries_of_resolved _ _ _ _ _ _ _ _ Hg Ht Hc).
  unfold pushed. now rewrite (for_of_carries decryptMessage _ _ _ _ _ _ _ Hd Hf).
Qed.

Lemma flat_map_delivers connection DISC secret signatures found :
  List.length DISC = 8%nat ->
  Forall2 (delivers decryptMessage connection DISC secret) signatures found ->
  flat_map (entries_of decryptMessage connection DISC secret 0) signatures = List.concat found.
Proof.
  intros Hd H. induction H as [|s ms signatures found Hs _ IH]; simpl.
  - reflexivity.
  - now rewrite (entries_of_delivers _ _ _ _ _ Hd Hs), IH.
Qed.

End ReferenceFacts.

Lemma seq_strictly_sorted (a n : nat) :
  StronglySorted (fun x y : Z => x < y) (map Z.of_nat (seq a n)).
Proof.
  revert a. induction n as [|n IH]; intros a; simpl.
  - constructor.
  - constructor; [apply IH|].
    rewrite Forall_forall. intros z Hz.
    apply in_map_iff in Hz as (i & <- & Hi). apply in_seq in Hi. lia.
Qed.

Lemma map_strictly_sorted {A} (key : A -> Z) (l : list A) :
  StronglySorted (fun a b => key a < key b) l ->
  StronglySorted (fun x y : Z => x < y) (map key l).
Proof.
  induction 1 as [|a l Hs IH Ha]; simpl.
  - constructor.
  - constructor; [exact IH|].
    rewrite Forall_forall in *. intros z Hz.
    apply in_map_iff in Hz as (b & <- & Hb). auto.
Qed.

Lemma seq_NoDup_Z (n : nat) : NoDup (map Z.of_nat (seq 0 n)).
Proof.
  apply Finite.Injective_map_NoDup.
  - intros x y. apply Nat2Z.inj.
  - apply seq_NoDup.
Qed.

(* ------------------------------------------------------------------ *)
(** ** Reconstruction, decoding and filtering *)

(** C1. When the listed references resolve to transactions whose append
    instructions carry the indices 0, 1, ..., n-1, each once, reconstruction
    from index 0 under the secret that decrypts them returns the n entries
    they stand for, none lost, in ascending order of index; listing the
    same references in any other order gives the same result. *)
Theorem C1_reconstruction_sorted_without_loss
    (decryptMessage : Buffer -> string -> Completion string)
    (connection connection' : Connection) (metadata : AccountMetadata)
    (sharedSecret : string) (n : nat)
    (signatures signatures' : list ConfirmedSignatureInfo)
    (found : list (list Msg.t)) :
  List.length (discriminator metadata) = 8%nat ->
  getSignaturesForAddress connection (pda metadata) 1000 = Return signatures ->
  Forall2 (delivers decryptMessage connection (discriminator metadata) sharedSecret)
    signatures found ->
  Permutation (map Msg.index (List.concat found)) (map Z.of_nat (seq 0 n)) ->
  Permutation signatures signatures' ->
  (forall s, getTransaction connection' s = getTransaction connection s) ->
  getSignaturesForAddress connection' (pda metadata) 1000 = Return signatures' ->
  exists messages,
    _fetchNewMessages decryptMessage connection' metadata sharedSecret 0 = Return messages /\
    _fetchNewMessages decryptMessage connection metadata sharedSecret 0 = Return messages /\
    Permutation messages (List.concat found) /\
    map Msg.index messages = map Z.of_nat (seq 0 n).
Proof.
  intros Hd Hl Hf Hidx Hperm Htx Hl'.
  pose proof (flat_map_delivers decryptMessage _ _ _ _ _ Hd Hf) as Hfound.
  assert (Hnd : NoDup (map Msg.index (List.concat found))).
  { eapply Permutation_NoDup; [apply Permutation_sym; exact Hidx|apply seq_NoDup_Z]. }
  assert (Hfound' :
    Permutation (List.concat found)
      (flat_map (entries_of decryptMessage connection' (discriminator metadata)
                   sharedSecret 0) signatures')).
  { rewrite <- Hfound.
    replace (flat_map (entries_of decryptMessage connection' (discriminator metadata)
                         sharedSecret 0) signatures')
      with (flat_map (entries_of decryptMessage connection (discriminator metadata)
                        sharedSecret 0) signatures').
    - now apply Permutation_flat_map.
    - apply flat_map_ext. intros s. symmetry.
      apply entries_of_same_transaction. apply Htx. }
  exists (Array_sort by_index (List.concat found)).
  split; [|split; [|split]].
  - rewrite (_fetchNewMessages_listed decryptMessage _ _ _ _ _ Hl'). f_equal.
    now apply Array_sort_order_independent.
  - rewrite (_fetchNewMessages_listed decryptMessage _ _ _ _ _ Hl). now rewrite Hfound.
  - apply Array_sort_perm.
  - apply (strictly_sorted_unique (fun z => z)).
    + apply map_strictly_sorted, sorted_NoDup_strict; [apply Array_sort_sorted|].
      eapply Permutation_NoDup; [|exact Hnd].
      apply Permutation_map, Permutation_sym, Array_sort_perm.
    + apply seq_strictly_sorted.
    + eapply perm_trans; [|exact Hidx].
      apply Permutation_map, Array_sort_perm.
Qed.

Ltac closed_goal :=
  first [ reflexivity | vm_compute; reflexivity | vm_compute; discriminate | lia ].

Ltac is_append encrypted senderIndex sender :=
  exists encrypted, senderIndex, sender; repeat split; closed_goal.

Lemma C1_reconstruction_sorted_without_loss_witness :
  exists messages,
    _fetchNewMessages Demo.decryptMessage Ledger.oldestFirst Ledger.threadMetadata
      "mykey" 0 = Return messages /\
    _fetchNewMessages Demo.decryptMessage Ledger.newestFirst Ledger.threadMetadata
      "mykey" 0 = Return messages /\
    Permutation messages [Ledger.third; Ledger.first; Ledger.second] /\
    map Msg.index messages = [0; 1; 2].
Proof.
  apply (C1_reconstruction_sorted_without_loss Demo.decryptMessage
           Ledger.newestFirst Ledger.oldestFirst Ledger.threadMetadata "mykey" 3
           [{| signature := "sigC" |}; {| signature := "sigB" |}]
           [{| signature := "sigB" |}; {| signature := "sigC" |}]
           [[Ledger.third]; [Ledger.first; Ledger.second]]).
  - reflexivity.
  - reflexivity.
  - constructor; [|constructor; [|constructor]].
    + exists (Ledger.txOf Ledger.bob [Ledger.otherProgram; Ledger.send 2 "third"]
                1700000300),
        {| staticAccountKeys := Ledger.keysOf Ledger.bob;
           compiledInstructions := Some [Ledger.otherProgram; Ledger.send 2 "third"] |},
        [Ledger.otherProgram; Ledger.send 2 "third"].
      repeat split; try reflexivity.
      apply carries_other; [reflexivity|].
      apply carries_append; [|apply carries_nil].
      is_append (Demo.encryptMessage "third" "mykey") 0%nat Ledger.bob.
    + exists (Ledger.txOf Ledger.alice
                [Ledger.send 0 "first"; Ledger.send 1 "second"] 1700000200),
        {| staticAccountKeys := Ledger.keysOf Ledger.alice;
           compiledInstructions :=
             Some [Ledger.send 0 "first"; Ledger.send 1 "second"] |},
        [Ledger.send 0 "first"; Ledger.send 1 "second"].
      repeat split; try reflexivity.
      apply carries_append; [|apply carries_append; [|apply carries_nil]].
      * is_append (Demo.encryptMessage "first" "mykey") 0%nat Ledger.alice.
      * is_append (Demo.encryptMessage "second" "mykey") 0%nat Ledger.alice.
  - apply perm_trans with [0; 2; 1].
    + apply perm_swap.
    + apply perm_skip, perm_swap.
  - apply perm_swap.
  - reflexivity.
  - reflexivity.
Defined.

Lemma new_PublicKey_32 (b : Buffer) :
  List.length b = 32%nat -> new_PublicKey b = b.
Proof.
  intros H. unfold new_PublicKey, PUBLIC_KEY_LENGTH. rewrite H. reflexivity.
Qed.

Lemma slice_key (buf : Buffer) (s : nat) :
  (s + 32 <= List.length buf)%nat ->
  new_PublicKey (slice buf (Z.of_nat s) (Z.of_nat (s + 32))) = firstn 32 (skipn s buf).
Proof.
  intros H. rewrite slice_in_bounds by lia.
  replace (s + 32 - s)%nat with 32%nat by lia.
  apply new_PublicKey_32. rewrite length_firstn, length_skipn. lia.
Qed.

(** C4. For thread account bytes of length at least 108, decoding yields
    participant A from bytes 8 to 40, participant B from bytes 40 to 72
    and the message count from the little-endian u32 at offset 104; the
    result is a function of the bytes alone. *)
Theorem C4_thread_decode (connection : Connection) (pda : PublicKey)
    (accountData : Buffer) :
  getAccountInfo connection pda = Return (Some {| data := accountData |}) ->
  (108 <= List.length accountData)%nat ->
  exists metadata,
    fetchAccountCount connection pda thread
    = Return (metadata, accountData, u32_at accountData 104) /\
    participantA metadata = Some (firstn 32 (skipn 8 accountData)) /\
    participantB metadata = Some (firstn 32 (skipn 40 accountData)) /\
    forall connection',
      getAccountInfo connection' pda = Return (Some {| data := accountData |}) ->
      fetchAccountCount connection' pda thread = fetchAccountCount connection pda thread.
Proof.
  intros Hg Hlen.
  assert (Hrun : forall c,
    getAccountInfo c pda = Return (Some {| data := accountData |}) ->
    fetchAccountCount c pda thread
    = Return ({| type := thread; pda := pda; messageCountOffset := 104;
                 discriminator := Buffer_from_hex DISCRIMINATORS.sendMessage;
                 owner := None;
                 participantA := Some (firstn 32 (skipn 8 accountData));
                 participantB := Some (firstn 32 (skipn 40 accountData));
                 channelName := None |}, accountData, u32_at accountData 104)).
  { intros c Hc. unfold fetchAccountCount, _fetchAccountData. rewrite Hc. simpl.
    rewrite readUInt32LE_in_bounds by lia. simpl.
    change 8 with (Z.of_nat 8). change 40 with (Z.of_nat (8 + 32)).
    rewrite slice_key by lia.
    change (Z.of_nat (8 + 32)) with (Z.of_nat 40). change 72 with (Z.of_nat (40 + 32)).
    rewrite slice_key by lia. reflexivity. }
  eexists. split; [apply Hrun; exact Hg|].
  split; [reflexivity|]. split; [reflexivity|].
  intros c Hc. now rewrite (Hrun c Hc), (Hrun connection Hg).
Qed.

Lemma C4_thread_decode_witness :
  exists metadata,
    fetchAccountCount Ledger.newestFirst Ledger.threadPDA thread
    = Return (metadata, Ledger.threadData 3, 3) /\
    participantA metadata = Some Ledger.alice /\
    participantB metadata = Some Ledger.bob.
Proof.
  destruct (C4_thread_decode Ledger.newestFirst Ledger.threadPDA (Ledger.threadData 3))
    as (metadata & Hrun & HA & HB & _).
  - reflexivity.
  - vm_compute. lia.
  - exists metadata. split; [exact Hrun|]. split; [exact HA|exact HB].
Defined.

(** C2. For channel account bytes, decoding reads the broadcast count as
    the little-endian u32 at the fixed offset 76, whatever name length is
    stored at offset 40; the name is the bytes from 44 to 44 plus that
    length, so a stored length of 4 with the bytes of "Test" gives the
    name "Test" while the count still comes from offset 76. Bytes too short
    to hold the four bytes at offset 76 are rejected with a RangeError. *)
Theorem C2_channel_count_at_fixed_offset (connection : Connection) (pda : PublicKey)
    (accountData : Buffer) :
  getAccountInfo connection pda = Return (Some {| data := accountData |}) ->
  ((80 <= List.length accountData)%nat ->
   exists metadata,
     fetchAccountCount connection pda channel
     = Return (metadata, accountData, u32_at accountData 76) /\
     messageCountOffset metadata = 76%nat /\
     channelName metadata
     = Some (toString_utf8 (slice accountData 44 (44 + u32_at accountData 40))) /\
     (u32_at accountData 40 = 4 ->
      firstn 4 (skipn 44 accountData) = Buffer_from_utf8 "Test" ->
      channelName metadata = Some "Test")) /\
  ((List.length accountData < 80)%nat ->
   fetchAccountCount connection pda channel = Throw RangeError).
Proof.
  intros Hg. split.
  - intros Hlen.
    exists {| type := channel; pda := pda; messageCountOffset := 76;
              discriminator := Buffer_from_hex DISCRIMINATORS.sendBroadcast;
              owner := Some (new_PublicKey (slice accountData 8 40));
              participantA := None; participantB := None;
              channelName :=
                Some (toString_utf8
                        (slice accountData 44 (44 + u32_at accountData 40))) |}.
    split.
    { unfold fetchAccountCount, _fetchAccountData. rewrite Hg. simpl.
      rewrite (readUInt32LE_in_bounds accountData 40) by lia. simpl.
      rewrite (readUInt32LE_in_bounds accountData 76) by lia. reflexivity. }
    split; [reflexivity|]. split; [reflexivity|].
    intros Hn Hname. unfold channelName. rewrite Hn.
    change (slice accountData 44 (44 + 4))
      with (slice accountData (Z.of_nat 44) (Z.of_nat 48)).
    rewrite slice_in_bounds by lia.
    change (48 - 44)%nat with 4%nat. rewrite Hname.
    reflexivity.
  - intros Hlen. unfold fetchAccountCount, _fetchAccountData. rewrite Hg. simpl.
    destruct (readUInt32LE accountData 40) as [channelNameLen|e] eqn:H40; simpl.
    + now rewrite (readUInt32LE_out_of_bounds accountData 76) by lia.
    + destruct (Nat.le_gt_cases 44 (List.length accountData)) as [H|H].
      * rewrite readUInt32LE_in_bounds in H40 by lia. discriminate.
      * rewrite readUInt32LE_out_of_bounds in H40 by lia. now injection H40 as <-.
Qed.

Lemma C2_channel_count_at_fixed_offset_witness :
  exists metadata,
    fetchAccountCount Ledger.newestFirst Ledger.channelPDA channel
    = Return (metadata, Ledger.channelData "Test" 2, 2) /\
    channelName metadata = Some "Test" /\
    u32_at (Ledger.channelData "Test" 2) (44 + 4) <> 2.
Proof.
  destruct (C2_channel_count_at_fixed_offset Ledger.newestFirst Ledger.channelPDA
              (Ledger.channelData "Test" 2)) as [Hlong _]; [reflexivity|].
  destruct Hlong as (metadata & Hrun & _ & _ & Hname).
  - vm_compute. lia.
  - exists metadata. split; [exact Hrun|]. split.
    + apply Hname; reflexivity.
    + vm_compute. discriminate.
Defined.

(** C5, as stated, fails: a payload that is exactly the 8-byte tag,
    addressed to the program, meets the three stated conditions and is
    skipped all the same. *)
Lemma C5_tag_only_payload_is_skipped :
  (nth_error (staticAccountKeys Odd.message) (Ix.programIdIndex Odd.tagOnly)
   = Some PROGRAM_ID /\
   ~ len (Ix.data Odd.tagOnly) < 8 /\
   firstn 8 (Ix.data Odd.tagOnly) = Ledger.sendMessageTag) /\
  matchingInstruction Odd.message Odd.tagOnly Ledger.sendMessageTag = Return false.
Proof.
  split; [split; [reflexivity|split; [vm_compute; discriminate|reflexivity]]|].
  reflexivity.
Qed.

(** C5, amended. The filter selects an instruction exactly when its
    program is the configured program, its payload is strictly longer than
    the 8-byte tag, and the first 8 bytes of the payload are the tag; a
    payload of 8 bytes or fewer is never selected. *)
Theorem C5_filter_selects (message : VersionedMessage) (ix : Ix.t)
    (DISCRIMINATOR : Buffer) :
  (matchingInstruction message ix DISCRIMINATOR = Return true <->
   nth_error (staticAccountKeys message) (Ix.programIdIndex ix) = Some PROGRAM_ID /\
   8 < len (Ix.data ix) /\
   firstn 8 (Ix.data ix) = DISCRIMINATOR) /\
  (len (Ix.data ix) <= 8 ->
   matchingInstruction message ix DISCRIMINATOR <> Return true).
Proof.
  assert (Hsub : 8 < len (Ix.data ix) ->
                 subarray (Ix.data ix) 0 8 = firstn 8 (Ix.data ix)).
  { intros Hl. unfold subarray, len in *.
    change 0 with (Z.of_nat 0). change 8 with (Z.of_nat 8).
    rewrite slice_in_bounds by lia. reflexivity. }
  assert (Hiff :
    matchingInstruction message ix DISCRIMINATOR = Return true <->
    nth_error (staticAccountKeys message) (Ix.programIdIndex ix) = Some PROGRAM_ID /\
    8 < len (Ix.data ix) /\ firstn 8 (Ix.data ix) = DISCRIMINATOR).
  { unfold matchingInstruction, element.
    destruct (nth_error (staticAccountKeys message) (Ix.programIdIndex ix))
      as [programId|]; simpl.
    - destruct (PublicKey_equals programId PROGRAM_ID) eqn:Ep.
      + apply PublicKey_equals_iff in Ep. subst programId. split.
        * intros H. injection H as H. apply andb_prop in H as [Hl He].
          apply Z.ltb_lt in Hl. apply Buffer_equals_iff in He.
          rewrite Hsub in He by exact Hl. auto.
        * intros (_ & Hl & He). f_equal. apply andb_true_intro. split.
          -- now apply Z.ltb_lt.
          -- apply Buffer_equals_iff. now rewrite Hsub.
      + split; [discriminate|]. intros (Hp & _). injection Hp as ->.
        assert (PublicKey_equals PROGRAM_ID PROGRAM_ID = true)
          by now apply PublicKey_equals_iff.
        congruence.
    - split; [discriminate|]. intros (Hp & _). discriminate. }
  split; [exact Hiff|].
  intros Hl H. apply Hiff in H as (_ & Hl' & _). lia.
Qed.

(** C3, as stated, fails: a matched payload that declares 64 bytes of
    ciphertext and carries 16 is not rejected; the 16 bytes present are
    decrypted and the entry is pushed. *)
Lemma C3_overdeclared_payload_is_accepted :
  matchingInstruction Odd.message Odd.overdeclared Ledger.sendMessageTag = Return true /\
  readUInt32LE (Ix.data Odd.overdeclared) 12 = Return 64 /\
  len (Ix.data Odd.overdeclared) < 16 + 64 /\
  instruction_body Demo.decryptMessage {| signature := "sigB" |} Odd.tx Odd.message
    Ledger.sendMessageTag "mykey" 0 Odd.overdeclared []
  = (Return tt, [Ledger.first]).
Proof.
  split; [reflexivity|]. split; [reflexivity|]. split; [reflexivity|].
  vm_compute. reflexivity.
Qed.

(** C3, amended. For a matched payload whose declared content length
    exceeds the bytes that follow the 16-byte header, no length check is
    made: the ciphertext is clamped to the bytes present, the entry is
    pushed when those bytes decrypt (and its sender resolves, and its index
    is not below the starting index) and passed over otherwise, the
    instruction completes normally on every array, and the scan of any
    transaction reference completes normally. *)
Theorem C3_overdeclared_length_is_clamped
    (decryptMessage : Buffer -> string -> Completion string)
    (sigInfo : ConfirmedSignatureInfo) (tx : TransactionResponse)
    (message : VersionedMessage) (DISCRIMINATOR : Buffer) (sharedSecret : string)
    (startingIndex : Z) (ix : Ix.t) (messageIndex contentLength : Z) :
  matchingInstruction message ix DISCRIMINATOR = Return true ->
  readUInt32LE (Ix.data ix) 8 = Return messageIndex ->
  readUInt32LE (Ix.data ix) 12 = Return contentLength ->
  len (Ix.data ix) < 16 + contentLength ->
  slice (Ix.data ix) 16 (16 + contentLength) = skipn 16 (Ix.data ix) /\
  (forall s,
     instruction_body decryptMessage sigInfo tx message DISCRIMINATOR sharedSecret
       startingIndex ix s
     = (Return tt,
        if startingIndex <=? messageIndex then
          match decryptMessage (skipn 16 (Ix.data ix)) sharedSecret,
                senderOf message ix with
          | Return decrypted, Return sender =>
              s ++ [{| Msg.index := messageIndex; Msg.sender := toBase58 sender;
                       Msg.content := decrypted; Msg.timestamp := blockTime tx;
                       Msg.signature := Some (signature sigInfo) |}]
          | _, _ => s
          end
        else s)) /\
  (forall connection sigInfo',
     completion (signature_body decryptMessage connection DISCRIMINATOR sharedSecret
                   startingIndex sigInfo') = Return tt).
Proof.
  intros Hm H8 H12 Hlen.
  assert (Hslice : slice (Ix.data ix) 16 (16 + contentLength) = skipn 16 (Ix.data ix)).
  { change 16 with (Z.of_nat 16) at 1. apply slice_clamped; [|lia].
    destruct (Nat.le_gt_cases 16 (List.length (Ix.data ix))) as [H|H]; [exact H|].
    rewrite readUInt32LE_out_of_bounds in H12 by lia. discriminate. }
  split; [exact Hslice|]. split.
  - intros s.
    unfold instruction_body, senderOf, cbind, bind, lift, try_catch, push, ret.
    rewrite Hm, H8, H12. cbv zeta. rewrite Hslice.
    destruct (startingIndex <=? messageIndex); [|reflexivity].
    destruct (decryptMessage (skipn 16 (Ix.data ix)) sharedSecret); [|reflexivity].
    destruct (element (Ix.accountKeyIndexes ix) 1); [|reflexivity].
    destruct (element (staticAccountKeys message) _); reflexivity.
  - intros connection sigInfo'. apply signature_body_returns.
Qed.

Lemma C3_overdeclared_length_is_clamped_witness :
  slice (Ix.data Odd.overdeclared) 16 (16 + 64) = Demo.encryptMessage "first" "mykey" /\
  instruction_body Demo.decryptMessage {| signature := "sigB" |} Odd.tx Odd.message
    Ledger.sendMessageTag "mykey" 0 Odd.overdeclared [Ledger.third]
  = (Return tt, [Ledger.third; Ledger.first]).
Proof.
  destruct (C3_overdeclared_length_is_clamped Demo.decryptMessage
              {| signature := "sigB" |} Odd.tx Odd.message Ledger.sendMessageTag
              "mykey" 0 Odd.overdeclared 0 64) as (Hslice & Hrun & _).
  - reflexivity.
  - reflexivity.
  - reflexivity.
  - reflexivity.
  - split.
    + rewrite Hslice. reflexivity.
    + rewrite Hrun. vm_compute. reflexivity.
Defined.

(* ------------------------------------------------------------------ *)
(** ** The starting index *)

Section StartingIndex.

Variable decryptMessage : Buffer -> string -> Completion string.
Variables (DISC : Buffer) (secret : string) (k : Z).

Let kept (m : Msg.t) : bool := k <=? Msg.index m.

(** The entries of a reference, by the ways its scan can go. *)
Lemma entries_of_cases connection start sigInfo :
  entries_of decryptMessage connection DISC secret start sigInfo =
  match getTransaction connection (signature sigInfo) with
  | Return (Some tx) =>
      match transaction tx with
      | Some message =>
          match compiledInstructions message with
          | Some instructions =>
              pushed (for_of instructions
                        (instruction_body decryptMessage sigInfo tx message DISC
                           secret start))
          | None => []
          end
      | None => []
      end
  | _ => []
  end.
Proof.
  destruct (getTransaction connection (signature sigInfo)) as [[tx|]|e] eqn:Hg.
  - destruct (transaction tx) as [message|] eqn:Ht.
    + destruct (compiledInstructions message) as [instructions|] eqn:Hc.
      * now apply entries_of_resolved.
      * unfold entries_of, pushed, signature_body, try_catch, bind, lift.
        now rewrite Hg, Ht, Hc.
    + unfold entries_of, pushed, signature_body, try_catch, bind, lift.
      now rewrite Hg, Ht.
  - now apply entries_of_fetch_null.
  - now apply entries_of_fetch_throws with e.
Qed.

(** Raising the starting index changes neither whether an instruction
    throws nor anything but which of its entries are kept. *)
Lemma instruction_body_starting_index sigInfo tx message ix :
  completion (instruction_body decryptMessage sigInfo tx message DISC secret k ix)
  = completion (instruction_body decryptMessage sigInfo tx message DISC secret 0 ix) /\
  pushed (instruction_body decryptMessage sigInfo tx message DISC secret k ix)
  = filter kept
      (pushed (instruction_body decryptMessage sigInfo tx message DISC secret 0 ix)).
Proof.
  unfold completion, pushed, instruction_body, bind, lift, try_catch, push, ret, kept.
  destruct (matchingInstruction message ix DISC) as [[|]|]; simpl; auto.
  destruct (readUInt32LE (Ix.data ix) 8) as [i|] eqn:H8; simpl; auto.
  destruct (readUInt32LE (Ix.data ix) 12) as [c|]; simpl; auto.
  apply readUInt32LE_range in H8.
  replace (0 <=? i) with true by (symmetry; apply Z.leb_le; lia).
  destruct (decryptMessage _ secret); simpl.
  - destruct (element (Ix.accountKeyIndexes ix) 1); simpl.
    + destruct (element (staticAccountKeys message) _); simpl.
      * destruct (k <=? i); simpl; auto.
      * destruct (k <=? i); simpl; auto.
    + destruct (k <=? i); simpl; auto.
  - destruct (k <=? i); simpl; auto.
Qed.

Lemma for_of_starting_index sigInfo tx message instructions :
  completion (for_of instructions
                (instruction_body decryptMessage sigInfo tx message DISC secret k))
  = completion (for_of instructions
                  (instruction_body decryptMessage sigInfo tx message DISC secret 0)) /\
  pushed (for_of instructions
            (instruction_body decryptMessage sigInfo tx message DISC secret k))
  = filter kept
      (pushed (for_of instructions
                 (instruction_body decryptMessage sigInfo tx message DISC secret 0))).
Proof.
  induction instructions as [|ix instructions [IHc IHp]]; simpl.
  - split; reflexivity.
  - destruct (instruction_body_starting_index sigInfo tx message ix) as [Hc Hp].
    rewrite !completion_bind, !pushed_bind
      by (intros; auto using append_only_instruction_body, append_only_for_of).
    rewrite Hc, Hp, filter_app.
    destruct (completion (instruction_body decryptMessage sigInfo tx message DISC
                            secret 0 ix)).
    + split; [exact IHc|]. now rewrite IHp.
    + split; reflexivity.
Qed.

Lemma entries_of_starting_index connection sigInfo :
  entries_of decryptMessage connection DISC secret k sigInfo
  = filter kept (entries_of decryptMessage connection DISC secret 0 sigInfo).
Proof.
  rewrite !entries_of_cases.
  destruct (getTransaction connection (signature sigInfo)) as [[tx|]|e]; auto.
  destruct (transaction tx) as [message|]; auto.
  destruct (compiledInstructions message) as [instructions|]; auto.
  apply for_of_starting_index.
Qed.

Lemma flat_map_filter {A B} (f g : A -> list B) (p : B -> bool) (l : list A) :
  (forall x, f x = filter p (g x)) ->
  flat_map f l = filter p (flat_map g l).
Proof.
  intros H. induction l as [|x l IH]; simpl; [reflexivity|].
  now rewrite filter_app, H, IH.
Qed.

End StartingIndex.

(** C7. Reconstruction from index k returns exactly what reconstruction
    from index 0 over the same ledger returns once its entries with index
    below k are dropped: the same entries, field by field, in the same
    order. *)
Theorem C7_incremental_tail_equivalence
    (decryptMessage : Buffer -> string -> Completion string)
    (connection : Connection) (metadata : AccountMetadata)
    (sharedSecret : string) (k : Z) :
  _fetchNewMessages decryptMessage connection metadata sharedSecret k
  = match _fetchNewMessages decryptMessage connection metadata sharedSecret 0 with
    | Return messages => Return (filter (fun m => k <=? Msg.index m) messages)
    | Throw e => Throw e
    end.
Proof.
  destruct (getSignaturesForAddress connection (pda metadata) 1000)
    as [signatures|e] eqn:Hl.
  - rewrite !(_fetchNewMessages_listed decryptMessage _ _ _ _ _ Hl).
    f_equal. rewrite <- Array_sort_filter. f_equal.
    apply flat_map_filter. intros s. apply entries_of_starting_index.
  - unfold _fetchNewMessages. now rewrite Hl.
Qed.

Example incremental_read :
  _fetchNewMessages Demo.decryptMessage Ledger.newestFirst Ledger.threadMetadata "mykey" 1
  = Return [Ledger.second; Ledger.third].
Proof. vm_compute. reflexivity. Qed.

(* ------------------------------------------------------------------ *)
(** ** Failures and duplicates *)

Lemma sorted_nth_le (l : list Msg.t) :
  StronglySorted index_le l ->
  forall i j a b, (i <= j)%nat ->
    nth_error l i = Some a -> nth_error l j = Some b -> Msg.index a <= Msg.index b.
Proof.
  induction 1 as [|x l Hs IH Hx]; intros i j a b Hij Ha Hb.
  - destruct i; discriminate.
  - destruct i as [|i], j as [|j]; simpl in *.
    + injection Ha as <-. injection Hb as <-. lia.
    + injection Ha as <-. apply nth_error_In in Hb.
      rewrite Forall_forall in Hx. apply (Hx _ Hb).
    + lia.
    + apply (IH i j); auto; lia.
Qed.

Example read_past_failures :
  _fetchNewMessages Demo.decryptMessage
    (Ledger.listing ["sigE"; "sigD"; "sigC"; "sigA"; "sigB"]) Ledger.threadMetadata
    "mykey" 0
  = Return [Ledger.first; Ledger.second; Ledger.third; Ledger.fifth].
Proof. vm_compute. reflexivity. Qed.

Example read_with_duplicate :
  _fetchNewMessages Demo.decryptMessage
    (Ledger.listing ["sigC"; "sigR"; "sigB"]) Ledger.threadMetadata "mykey" 0
  = Return [Ledger.first; Ledger.secondAgain; Ledger.second; Ledger.third].
Proof. vm_compute. reflexivity. Qed.

(** C8. Once the references are listed, reconstruction returns. What it
    returns is, up to order, the entries each reference yields when
    scanned on its own, so nothing that happens while scanning one
    reference removes an entry of another; a reference whose fetch throws
    yields nothing; and an instruction whose decryption throws is passed
    over, the loop going on with the instructions after it. *)
Theorem C8_failures_are_contained
    (decryptMessage : Buffer -> string -> Completion string)
    (connection : Connection) (metadata : AccountMetadata)
    (sharedSecret : string) (startingIndex : Z)
    (signatures : list ConfirmedSignatureInfo) :
  getSignaturesForAddress connection (pda metadata) 1000 = Return signatures ->
  exists messages,
    _fetchNewMessages decryptMessage connection metadata sharedSecret startingIndex
    = Return messages /\
    Permutation messages
      (flat_map (entries_of decryptMessage connection (discriminator metadata)
                   sharedSecret startingIndex) signatures) /\
    (forall sigInfo m,
       In sigInfo signatures ->
       In m (entries_of decryptMessage connection (discriminator metadata)
               sharedSecret startingIndex sigInfo) ->
       In m messages) /\
    (forall sigInfo e,
       getTransaction connection (signature sigInfo) = Throw e ->
       entries_of decryptMessage connection (discriminator metadata) sharedSecret
         startingIndex sigInfo = []) /\
    (forall sigInfo tx message ix rest messageIndex contentLength e s,
       matchingInstruction message ix (discriminator metadata) = Return true ->
       readUInt32LE (Ix.data ix) 8 = Return messageIndex ->
       readUInt32LE (Ix.data ix) 12 = Return contentLength ->
       decryptMessage (slice (Ix.data ix) 16 (16 + contentLength)) sharedSecret
       = Throw e ->
       for_of (ix :: rest)
         (instruction_body decryptMessage sigInfo tx message (discriminator metadata)
            sharedSecret startingIndex) s
       = for_of rest
           (instruction_body decryptMessage sigInfo tx message (discriminator metadata)
              sharedSecret startingIndex) s).
Proof.
  intros Hl. eexists.
  split; [apply (_fetchNewMessages_listed decryptMessage _ _ _ _ _ Hl)|].
  split; [apply Array_sort_perm|]. split; [|split].
  - intros sigInfo m Hs Hm.
    eapply Permutation_in; [apply Permutation_sym, Array_sort_perm|].
    apply in_flat_map. now exists sigInfo.
  - intros sigInfo e He. now apply entries_of_fetch_throws with e.
  - intros sigInfo tx message ix rest messageIndex contentLength e s Hm H8 H12 Hd.
    simpl. unfold bind at 1.
    now rewrite (instruction_body_decrypt_fails decryptMessage _ _ _ _ _ _ _ _ _ _ _
                   Hm H8 H12 Hd).
Qed.

Lemma C8_failures_are_contained_witness :
  exists messages,
    _fetchNewMessages Demo.decryptMessage
      (Ledger.listing ["sigE"; "sigD"; "sigC"; "sigA"; "sigB"]) Ledger.threadMetadata
      "mykey" 0 = Return messages /\
    In Ledger.first messages /\ In Ledger.second messages /\
    In Ledger.third messages /\ In Ledger.fifth messages.
Proof.
  destruct (C8_failures_are_contained Demo.decryptMessage
              (Ledger.listing ["sigE"; "sigD"; "sigC"; "sigA"; "sigB"])
              Ledger.threadMetadata "mykey" 0
              (map (fun s => {| signature := s |}) ["sigE"; "sigD"; "sigC"; "sigA"; "sigB"]))
    as (messages & Hrun & _ & Hin & _).
  - reflexivity.
  - exists messages. split; [exact Hrun|].
    split; [|split; [|split]].
    + apply (Hin {| signature := "sigB" |}); [simpl; tauto|]. vm_compute. tauto.
    + apply (Hin {| signature := "sigB" |}); [simpl; tauto|]. vm_compute. tauto.
    + apply (Hin {| signature := "sigC" |}); [simpl; tauto|]. vm_compute. tauto.
    + apply (Hin {| signature := "sigD" |}); [simpl; tauto|]. vm_compute. tauto.
Defined.

(** C10, as stated, fails: three selected instructions carry index 1 and
    all three decrypt under the secret, yet reconstruction returns one
    entry, not three. The sender of the second and of the third cannot be
    looked up, and an instruction whose sender cannot be looked up is
    passed over like one that does not decrypt. *)
Lemma C10_decrypted_duplicate_is_dropped :
  Forall (fun ix =>
            matchingInstruction Stray.message ix Ledger.sendMessageTag = Return true /\
            readUInt32LE (Ix.data ix) 8 = Return 1 /\
            readUInt32LE (Ix.data ix) 12 = Return 16 /\
            Demo.decryptMessage (slice (Ix.data ix) 16 (16 + 16)) "mykey"
            = Return "second")
    Stray.instructions /\
  List.length Stray.instructions = 3%nat /\
  _fetchNewMessages Demo.decryptMessage Stray.ledger Ledger.threadMetadata "mykey" 0
  = Return [Ledger.entry 1 Ledger.alice "second" 1700000260 "sigU"].
Proof.
  split; [|split; vm_compute; reflexivity].
  repeat constructor; vm_compute; reflexivity.
Qed.

(** C10, amended. Once the references are listed, reconstruction removes
    no duplicates: a selected instruction at or above the starting index
    that decrypts and whose sender (key 1 of its account list) resolves to
    a static key pushes its entry whatever the array already holds, and one
    that decrypts but whose sender does not resolve pushes nothing; the
    result is, up to order, every entry pushed while the listed references
    are scanned, one per push; and since the result is ascending by index,
    entries that share an index are next to each other. *)
Theorem C10_duplicates_are_kept
    (decryptMessage : Buffer -> string -> Completion string)
    (connection : Connection) (metadata : AccountMetadata)
    (sharedSecret : string) (startingIndex : Z)
    (signatures : list ConfirmedSignatureInfo) :
  getSignaturesForAddress connection (pda metadata) 1000 = Return signatures ->
  exists messages,
    _fetchNewMessages decryptMessage connection metadata sharedSecret startingIndex
    = Return messages /\
    Permutation messages
      (flat_map (entries_of decryptMessage connection (discriminator metadata)
                   sharedSecret startingIndex) signatures) /\
    StronglySorted index_le messages /\
    (forall i j h a b c,
       (i <= h <= j)%nat ->
       nth_error messages i = Some a -> nth_error messages j = Some b ->
       nth_error messages h = Some c ->
       Msg.index a = Msg.index b -> Msg.index c = Msg.index a) /\
    (forall sigInfo tx message ix messageIndex contentLength decrypted sender s,
       matchingInstruction message ix (discriminator metadata) = Return true ->
       readUInt32LE (Ix.data ix) 8 = Return messageIndex ->
       readUInt32LE (Ix.data ix) 12 = Return contentLength ->
       startingIndex <= messageIndex ->
       decryptMessage (slice (Ix.data ix) 16 (16 + contentLength)) sharedSecret
       = Return decrypted ->
       senderOf message ix = Return sender ->
       instruction_body decryptMessage sigInfo tx message (discriminator metadata)
         sharedSecret startingIndex ix s
       = (Return tt,
          s ++ [{| Msg.index := messageIndex; Msg.sender := toBase58 sender;
                   Msg.content := decrypted; Msg.timestamp := blockTime tx;
                   Msg.signature := Some (signature sigInfo) |}])) /\
    (forall sigInfo tx message ix messageIndex contentLength decrypted e s,
       matchingInstruction message ix (discriminator metadata) = Return true ->
       readUInt32LE (Ix.data ix) 8 = Return messageIndex ->
       readUInt32LE (Ix.data ix) 12 = Return contentLength ->
       decryptMessage (slice (Ix.data ix) 16 (16 + contentLength)) sharedSecret
       = Return decrypted ->
       senderOf message ix = Throw e ->
       instruction_body decryptMessage sigInfo tx message (discriminator metadata)
         sharedSecret startingIndex ix s
       = (Return tt, s)).
Proof.
  intros Hl. eexists.
  split; [apply (_fetchNewMessages_listed decryptMessage _ _ _ _ _ Hl)|].
  split; [apply Array_sort_perm|]. split; [apply Array_sort_sorted|].
  split; [|split].
  - intros i j h a b c Hij Ha Hb Hc Hab.
    pose proof (Array_sort_sorted
                  (flat_map (entries_of decryptMessage connection (discriminator metadata)
                               sharedSecret startingIndex) signatures)) as Hs.
    pose proof (sorted_nth_le _ Hs i h a c ltac:(lia) Ha Hc).
    pose proof (sorted_nth_le _ Hs h j c b ltac:(lia) Hc Hb).
    lia.
  - intros sigInfo tx message ix messageIndex contentLength decrypted sender s
      Hm H8 H12 Hk Hd Hs.
    unfold senderOf, cbind, element in Hs.
    destruct (nth_error (Ix.accountKeyIndexes ix) 1) as [senderIndex|] eqn:Hi;
      [|discriminate].
    destruct (nth_error (staticAccountKeys message) senderIndex) as [sender'|] eqn:Hs';
      [|discriminate].
    injection Hs as <-.
    now apply instruction_body_pushes with contentLength senderIndex.
  - intros sigInfo tx message ix messageIndex contentLength decrypted e s
      Hm H8 H12 Hd Hs.
    unfold instruction_body, bind, lift, try_catch, push, ret.
    rewrite Hm, H8, H12. cbv zeta.
    destruct (startingIndex <=? messageIndex); [|reflexivity].
    rewrite Hd.
    unfold senderOf, cbind in Hs.
    destruct (element (Ix.accountKeyIndexes ix) 1) as [senderIndex|]; [|reflexivity].
    destruct (element (staticAccountKeys message) senderIndex); [discriminate|].
    reflexivity.
Qed.

Lemma C10_duplicates_are_kept_witness :
  exists messages,
    _fetchNewMessages Demo.decryptMessage
      (Ledger.listing ["sigC"; "sigR"; "sigB"]) Ledger.threadMetadata "mykey" 0
    = Return messages /\
    Permutation messages
      [Ledger.third; Ledger.secondAgain; Ledger.first; Ledger.second] /\
    StronglySorted index_le messages.
Proof.
  destruct (C10_duplicates_are_kept Demo.decryptMessage
              (Ledger.listing ["sigC"; "sigR"; "sigB"]) Ledger.threadMetadata "mykey" 0
              (map (fun s => {| signature := s |}) ["sigC"; "sigR"; "sigB"]))
    as (messages & Hrun & Hperm & Hsorted & _).
  - reflexivity.
  - exists messages. split; [exact Hrun|]. split; [exact Hperm|exact Hsorted].
Defined.

(* ------------------------------------------------------------------ *)
(** ** The listener *)

Lemma last_cons {A} (l : list A) (x y : A) : last (y :: l) x = last l y.
Proof.
  revert x y. induction l as [|z l IH]; intros x y; [reflexivity|].
  change (last (y :: z :: l) x) with (last (z :: l) x).
  now rewrite (IH x z), (IH y z).
Qed.

Lemma nth_error_last {A} (x : A) (l : list A) :
  nth_error (x :: l) (List.length (x :: l) - 1) = Some (last l x).
Proof.
  revert x. induction l as [|y l IH]; intros x; [reflexivity|].
  rewrite last_cons, <- (IH y). simpl. now rewrite Nat.sub_0_r.
Qed.

(** C6, as stated, fails: with one message seen and the counter at 3,
    reconstruction from index 1 returns two entries and the listener shows
    the last one only. *)
Lemma C6_listener_shows_one_of_two :
  _fetchNewMessages Demo.decryptMessage Ledger.newestFirst
    (metadata Ledger.listener) (sharedSecret Ledger.listener)
    (initialCount Ledger.listener)
  = Return [Ledger.second; Ledger.third] /\
  accountChangeCallback Demo.decryptMessage Ledger.newestFirst Ledger.listener
    (Ledger.threadData 3)
  = Return (counted Ledger.listener 3,
            [NewReceived true; Content true Ledger.third]).
Proof. split; vm_compute; reflexivity. Qed.

(** C6, amended. On a change notification whose counter reads as
    [newCount]: when it exceeds the last-observed counter, the listener
    runs reconstruction from the last-observed counter, prints the banner
    and then only the last entry of the result (a could-not-find line when
    the result is empty, an error line when reconstruction throws), and the
    last-observed counter becomes [newCount]; otherwise nothing is printed
    and nothing changes. *)
Theorem C6_listener_shows_latest
    (decryptMessage : Buffer -> string -> Completion string)
    (connection : Connection) (l : Listener) (updatedData : Buffer) (newCount : Z) :
  readUInt32LE updatedData (messageCountOffset (metadata l)) = Return newCount ->
  (initialCount l < newCount ->
   accountChangeCallback decryptMessage connection l updatedData
   = Return (counted l newCount,
             NewReceived (isThread l) ::
             match _fetchNewMessages decryptMessage connection (metadata l)
                     (sharedSecret l) (initialCount l) with
             | Return [] => [CouldNotFind (isThread l) (initialCount l) newCount]
             | Return (m :: newMessages) => [Content (isThread l) (last newMessages m)]
             | Throw e => [FetchError e]
             end)) /\
  (newCount <= initialCount l ->
   accountChangeCallback decryptMessage connection l updatedData = Return (l, [])).
Proof.
  intros Hr. unfold accountChangeCallback, counted. rewrite Hr. simpl. split.
  - intros Hlt. apply Z.ltb_lt in Hlt. rewrite Hlt.
    destruct (_fetchNewMessages decryptMessage connection (metadata l)
                (sharedSecret l) (initialCount l)) as [[|m newMessages]|e];
      try reflexivity.
    rewrite nth_error_last.
    replace (0 <? Z.of_nat (List.length (m :: newMessages))) with true
      by (symmetry; apply Z.ltb_lt; simpl; lia).
    reflexivity.
  - intros Hle. apply Z.ltb_ge in Hle. now rewrite Hle.
Qed.

Lemma C6_listener_shows_latest_witness :
  accountChangeCallback Demo.decryptMessage Ledger.newestFirst Ledger.listener
    (Ledger.threadData 3)
  = Return (counted Ledger.listener 3, [NewReceived true; Content true Ledger.third]) /\
  accountChangeCallback Demo.decryptMessage Ledger.newestFirst Ledger.listener
    (Ledger.threadData 1)
  = Return (Ledger.listener, []).
Proof.
  split.
  - destruct (C6_listener_shows_latest Demo.decryptMessage Ledger.newestFirst
                Ledger.listener (Ledger.threadData 3) 3) as [Hnew _].
    + reflexivity.
    + rewrite Hnew by (simpl; lia). vm_compute. reflexivity.
  - destruct (C6_listener_shows_latest Demo.decryptMessage Ledger.newestFirst
                Ledger.listener (Ledger.threadData 1) 1) as [_ Hsame].
    + reflexivity.
    + apply Hsame. simpl. lia.
Defined.

(* ------------------------------------------------------------------ *)
(** ** Fallback secrets *)

(** The ciphertext of an append payload is what follows its 16-byte
    header. *)
Lemma appendData_after_header (DISC : Buffer) (n : Z) (encrypted : Buffer) :
  List.length DISC = 8%nat ->
  skipn 16 (appendData DISC n encrypted) = encrypted.
Proof.
  intros Hd. unfold appendData. rewrite !app_assoc. rewrite skipn_app.
  rewrite skipn_all2 by (rewrite !length_app, Hd; simpl; lia).
  rewrite !length_app, Hd. reflexivity.
Qed.

(** The secret each command hands to the cipher. *)
Lemma sendMessageCommand_secret
    (encryptMessage : string -> string -> Buffer)
    (connection : Connection) (wallet : PublicKey) (options : Options.t)
    (sent : TransactionInstruction.t) :
  sendMessageCommand encryptMessage connection wallet options = Return sent ->
  skipn 16 (TransactionInstruction.data sent)
  = encryptMessage (Options.message options)
      (or_default (Options.key options) "default-secret-key").
Proof.
  unfold sendMessageCommand. intros H.
  destruct (address (Options.thread options)) as [p|]; [|discriminate].
  simpl in H.
  destruct (fetchAccountCount connection p thread) as [[[md d] n]|]; [|discriminate].
  simpl in H. injection H as <-. cbn [TransactionInstruction.data].
  now apply appendData_after_header.
Qed.

Lemma sendBroadcastCommand_secret
    (encryptMessage : string -> string -> Buffer)
    (connection : Connection) (wallet : PublicKey) (options : Options.t)
    (sent : TransactionInstruction.t) :
  sendBroadcastCommand encryptMessage connection wallet options = Return sent ->
  skipn 16 (TransactionInstruction.data sent)
  = encryptMessage (Options.message options)
      (or_default (Options.key options) "default-channel-key").
Proof.
  unfold sendBroadcastCommand. intros H.
  destruct (address (Options.channel options)) as [p|]; [|discriminate].
  simpl in H.
  destruct (fetchAccountCount connection p channel) as [[[md d] n]|]; [|discriminate].
  simpl in H. injection H as <-. cbn [TransactionInstruction.data].
  now apply appendData_after_header.
Qed.

Lemma readMessagesCommand_secret
    (decryptMessage : Buffer -> string -> Completion string)
    (connection : Connection) (options : Options.t)
    (metadata : AccountMetadata) (messageCount : Z) (messages : list Msg.t) :
  readMessagesCommand decryptMessage connection options
  = Return (metadata, messageCount, messages) ->
  _fetchNewMessages decryptMessage connection metadata
    (or_default (Options.key options) "default-secret-key") 0
  = Return messages.
Proof.
  unfold readMessagesCommand. intros H.
  destruct (address (Options.thread options)) as [p|]; [|discriminate].
  cbn [cbind] in H.
  destruct (fetchAccountCount connection p thread) as [[[md d] n]|]; [|discriminate].
  cbn [cbind] in H.
  destruct (_fetchNewMessages decryptMessage connection md
              (or_default (Options.key options) "default-secret-key") 0)
    as [ms|] eqn:Hf; [|discriminate].
  cbn [cbind] in H. injection H as <- _ <-. exact Hf.
Qed.

Lemma readBroadcastsCommand_secret
    (decryptMessage : Buffer -> string -> Completion string)
    (connection : Connection) (options : Options.t)
    (metadata : AccountMetadata) (messageCount : Z) (messages : list Msg.t) :
  readBroadcastsCommand decryptMessage connection options
  = Return (metadata, messageCount, messages) ->
  _fetchNewMessages decryptMessage connection metadata
    (or_default (Options.key options) "default-channel-key") 0
  = Return messages.
Proof.
  unfold readBroadcastsCommand. intros H.
  destruct (address (Options.channel options)) as [p|]; [|discriminate].
  cbn [cbind] in H.
  destruct (fetchAccountCount connection p channel) as [[[md d] n]|]; [|discriminate].
  cbn [cbind] in H.
  destruct (_fetchNewMessages decryptMessage connection md
              (or_default (Options.key options) "default-channel-key") 0)
    as [ms|] eqn:Hf; [|discriminate].
  cbn [cbind] in H. injection H as <- _ <-. exact Hf.
Qed.

(** The metadata that [fetchAccountCount] returns names the address it was
    given. *)
Lemma fetchAccountCount_pda (connection : Connection) (address : PublicKey)
    (accountType : AccountType) (metadata : AccountMetadata) (accountData : Buffer)
    (messageCount : Z) :
  fetchAccountCount connection address accountType
  = Return (metadata, accountData, messageCount) ->
  pda metadata = address.
Proof.
  unfold fetchAccountCount, _fetchAccountData. intros H.
  destruct (getAccountInfo connection address) as [[accountInfo|]|]; try discriminate.
  simpl in H. destruct accountType; simpl in H.
  - destruct (readUInt32LE (data accountInfo) 104); [|discriminate].
    simpl in H. now injection H as <- _ _.
  - destruct (readUInt32LE (data accountInfo) 40); [|discriminate].
    simpl in H.
    destruct (readUInt32LE (data accountInfo) 76); [|discriminate].
    simpl in H. now injection H as <- _ _.
Qed.

(** The listener that listen starts is the one of [monitorPdaUpdates]. *)
Lemma monitorPdaUpdates_logged_state (cluster : string) (connection : Connection)
    (options : Options.t) :
  snd (monitorPdaUpdates_logged cluster connection options)
  = monitorPdaUpdates connection options.
Proof.
  unfold monitorPdaUpdates_logged, monitorPdaUpdates, truthy.
  destruct (Options.thread options) as [[|c a]|];
    [destruct (Options.channel options) as [[|c a]|]; try reflexivity| |
     destruct (Options.channel options) as [[|c a]|]; try reflexivity].
  all: destruct (address (Some (String c a))) as [targetPDA|]; try reflexivity.
  all: cbn [cbind].
  all: match goal with
       | |- context [fetchAccountCount ?c ?p ?t] =>
           destruct (fetchAccountCount c p t) as [[[md d] n]|]
       end; reflexivity.
Qed.

(** The secret of the listener, and the lines listen prints up to the
    subscription when it starts one. *)
Lemma monitorPdaUpdates_started (cluster : string) (connection : Connection)
    (options : Options.t) (l : Listener) :
  monitorPdaUpdates connection options = Return l ->
  sharedSecret l = or_default (Options.key options) "default-secret-key" /\
  fst (monitorPdaUpdates_logged cluster connection options)
  = (if truthy (Options.key options) then [] else [NoKeyWarning])
    ++ [ListeningFor (isThread l); TargetPDA (toBase58 (pda (metadata l)));
        Cluster cluster; DecryptionKey (truthy (Options.key options));
        InitialCount (initialCount l)].
Proof.
  unfold monitorPdaUpdates_logged, monitorPdaUpdates, truthy.
  destruct (Options.thread options) as [[|c a]|];
    [destruct (Options.channel options) as [[|c a]|]; try discriminate| |
     destruct (Options.channel options) as [[|c a]|]; try discriminate].
  all: destruct (address (Some (String c a))) as [targetPDA|]; try discriminate.
  all: cbn [cbind].
  all: match goal with
       | |- context [fetchAccountCount ?c ?p ?t] =>
           destruct (fetchAccountCount c p t) as [[[md d] n]|] eqn:Hf
       end; try discriminate.
  all: apply fetchAccountCount_pda in Hf; subst targetPDA.
  all: intros H; injection H as <-; cbn [sharedSecret isThread metadata initialCount fst].
  all: split; [reflexivity|]; rewrite <- app_assoc; reflexivity.
Qed.

(** C9, as stated, fails: listen does not substitute its secret silently.
    Started on the channel without [--key] it prints a warning that no key
    was given and then that the default is used; with the key given it
    prints neither. *)
Lemma C9_listen_announces_the_fallback :
  Options.key Ledger.listenChannel = None /\
  monitorPdaUpdates_logged "devnet" Ledger.newestFirst Ledger.listenChannel
  = ([NoKeyWarning; ListeningFor false; TargetPDA Ledger.channelAddress;
      Cluster "devnet"; DecryptionKey false; InitialCount 2],
     Return {| isThread := false;
               metadata :=
                 {| type := channel; pda := Ledger.channelPDA;
                    messageCountOffset := 76;
                    discriminator := Buffer_from_hex DISCRIMINATORS.sendBroadcast;
                    owner := Some Ledger.alice; participantA := None;
                    participantB := None; channelName := Some "Test" |};
               sharedSecret := "default-secret-key"; initialCount := 2 |}) /\
  fst (monitorPdaUpdates_logged "devnet" Ledger.newestFirst
         (with_key Ledger.listenChannel "default-secret-key"))
  = [ListeningFor false; TargetPDA Ledger.channelAddress;
     Cluster "devnet"; DecryptionKey true; InitialCount 2].
Proof. repeat split; vm_compute; reflexivity. Qed.

(** C9, amended. Without [--key] no command fails on that account, each
    running as it does with [--key] set to a fixed literal, and that
    literal is the secret the cipher is given: ["default-secret-key"] for
    send and read on a thread, ["default-channel-key"] for send-broadcast
    and read-broadcasts, and ["default-secret-key"] for listen on a thread
    and on a channel alike, which is not the secret the channel commands
    fall back to. Listen is not silent about it: when it starts a
    listener, the lines it has printed begin with the no-key warning and
    say that the default is used, where with the literal given there is no
    warning and they say that a key was provided. *)
Theorem C9_fallback_secrets
    (encryptMessage : string -> string -> Buffer)
    (decryptMessage : Buffer -> string -> Completion string)
    (cluster : string) (connection : Connection) (wallet : PublicKey)
    (options : Options.t) :
  Options.key options = None ->
  (sendMessageCommand encryptMessage connection wallet options
   = sendMessageCommand encryptMessage connection wallet
       (with_key options "default-secret-key") /\
   readMessagesCommand decryptMessage connection options
   = readMessagesCommand decryptMessage connection
       (with_key options "default-secret-key") /\
   sendBroadcastCommand encryptMessage connection wallet options
   = sendBroadcastCommand encryptMessage connection wallet
       (with_key options "default-channel-key") /\
   readBroadcastsCommand decryptMessage connection options
   = readBroadcastsCommand decryptMessage connection
       (with_key options "default-channel-key") /\
   monitorPdaUpdates connection options
   = monitorPdaUpdates connection (with_key options "default-secret-key")) /\
  (forall sent,
     sendMessageCommand encryptMessage connection wallet options = Return sent ->
     skipn 16 (TransactionInstruction.data sent)
     = encryptMessage (Options.message options) "default-secret-key") /\
  (forall metadata messageCount messages,
     readMessagesCommand decryptMessage connection options
     = Return (metadata, messageCount, messages) ->
     _fetchNewMessages decryptMessage connection metadata "default-secret-key" 0
     = Return messages) /\
  (forall sent,
     sendBroadcastCommand encryptMessage connection wallet options = Return sent ->
     skipn 16 (TransactionInstruction.data sent)
     = encryptMessage (Options.message options) "default-channel-key") /\
  (forall metadata messageCount messages,
     readBroadcastsCommand decryptMessage connection options
     = Return (metadata, messageCount, messages) ->
     _fetchNewMessages decryptMessage connection metadata "default-channel-key" 0
     = Return messages) /\
  (forall l,
     monitorPdaUpdates connection options = Return l ->
     sharedSecret l = "default-secret-key" /\
     sharedSecret l <> "default-channel-key" /\
     fst (monitorPdaUpdates_logged cluster connection options)
     = [NoKeyWarning; ListeningFor (isThread l);
        TargetPDA (toBase58 (pda (metadata l))); Cluster cluster;
        DecryptionKey false; InitialCount (initialCount l)] /\
     fst (monitorPdaUpdates_logged cluster connection
            (with_key options "default-secret-key"))
     = [ListeningFor (isThread l);
        TargetPDA (toBase58 (pda (metadata l))); Cluster cluster;
        DecryptionKey true; InitialCount (initialCount l)]).
Proof.
  intros Hk.
  assert (Hsame :
    monitorPdaUpdates connection options
    = monitorPdaUpdates connection (with_key options "default-secret-key")).
  { unfold monitorPdaUpdates, with_key. simpl. rewrite Hk. reflexivity. }
  split; [|split; [|split; [|split; [|split]]]].
  - unfold sendMessageCommand, readMessagesCommand, sendBroadcastCommand,
      readBroadcastsCommand, with_key.
    simpl. rewrite Hk. simpl.
    repeat (split; [reflexivity|]). exact Hsame.
  - intros sent H. apply sendMessageCommand_secret in H.
    now rewrite Hk in H.
  - intros metadata messageCount messages H. apply readMessagesCommand_secret in H.
    now rewrite Hk in H.
  - intros sent H. apply sendBroadcastCommand_secret in H.
    now rewrite Hk in H.
  - intros metadata messageCount messages H. apply readBroadcastsCommand_secret in H.
    now rewrite Hk in H.
  - intros l Hl.
    destruct (monitorPdaUpdates_started cluster connection options l Hl) as [Hs Hp].
    rewrite Hsame in Hl.
    destruct (monitorPdaUpdates_started cluster connection
                (with_key options "default-secret-key") l Hl) as [_ Hp'].
    rewrite Hk in Hs, Hp. simpl in Hs, Hp.
    split; [exact Hs|]. split; [rewrite Hs; discriminate|].
    split; [exact Hp|exact Hp'].
Qed.

Lemma C9_fallback_secrets_witness :
  (exists sent,
     sendMessageCommand Demo.encryptMessage Ledger.newestFirst Ledger.alice
       Plain.sendThread = Return sent /\
     skipn 16 (TransactionInstruction.data sent)
     = Demo.encryptMessage "hello" "default-secret-key") /\
  (exists sent,
     sendBroadcastCommand Demo.encryptMessage Ledger.newestFirst Ledger.alice
       Plain.sendChannel = Return sent /\
     skipn 16 (TransactionInstruction.data sent)
     = Demo.encryptMessage "hello" "default-channel-key") /\
  (exists metadata,
     readMessagesCommand Demo.decryptMessage Plain.sentThread Ledger.readThread
     = Return (metadata, 1, [Ledger.entry 0 Ledger.alice "hello" 1700000800 "sigP"]) /\
     _fetchNewMessages Demo.decryptMessage Plain.sentThread metadata
       "default-secret-key" 0
     = Return [Ledger.entry 0 Ledger.alice "hello" 1700000800 "sigP"]) /\
  (exists metadata,
     readBroadcastsCommand Demo.decryptMessage (Ledger.listing ["sigX"])
       Plain.sendChannel
     = Return (metadata, 2,
               [Ledger.entry 2 Ledger.alice "New Update" 1700000600 "sigX"]) /\
     _fetchNewMessages Demo.decryptMessage (Ledger.listing ["sigX"]) metadata
       "default-channel-key" 0
     = Return [Ledger.entry 2 Ledger.alice "New Update" 1700000600 "sigX"]) /\
  exists l,
    monitorPdaUpdates Ledger.newestFirst Ledger.listenChannel = Return l /\
    isThread l = false /\ sharedSecret l = "default-secret-key" /\
    fst (monitorPdaUpdates_logged "devnet" Ledger.newestFirst Ledger.listenChannel)
    = [NoKeyWarning; ListeningFor false; TargetPDA (toBase58 (pda (metadata l)));
       Cluster "devnet"; DecryptionKey false; InitialCount (initialCount l)].
Proof.
  split; [|split; [|split; [|split]]].
  - eexists. split; [vm_compute; reflexivity|].
    destruct (C9_fallback_secrets Demo.encryptMessage Demo.decryptMessage "devnet"
                Ledger.newestFirst Ledger.alice Plain.sendThread)
      as (_ & Hsend & _); [reflexivity|].
    apply Hsend. vm_compute. reflexivity.
  - eexists. split; [vm_compute; reflexivity|].
    destruct (C9_fallback_secrets Demo.encryptMessage Demo.decryptMessage "devnet"
                Ledger.newestFirst Ledger.alice Plain.sendChannel)
      as (_ & _ & _ & Hsend & _); [reflexivity|].
    apply Hsend. vm_compute. reflexivity.
  - eexists. split; [vm_compute; reflexivity|].
    destruct (C9_fallback_secrets Demo.encryptMessage Demo.decryptMessage "devnet"
                Plain.sentThread Ledger.alice Ledger.readThread)
      as (_ & _ & Hread & _); [reflexivity|].
    eapply Hread. vm_compute. reflexivity.
  - eexists. split; [vm_compute; reflexivity|].
    destruct (C9_fallback_secrets Demo.encryptMessage Demo.decryptMessage "devnet"
                (Ledger.listing ["sigX"]) Ledger.alice Plain.sendChannel)
      as (_ & _ & _ & _ & Hread & _); [reflexivity|].
    eapply Hread. vm_compute. reflexivity.
  - eexists. split; [vm_compute; reflexivity|]. split; [reflexivity|].
    destruct (C9_fallback_secrets Demo.encryptMessage Demo.decryptMessage "devnet"
                Ledger.newestFirst Ledger.alice Ledger.listenChannel)
      as (_ & _ & _ & _ & _ & Hlisten); [reflexivity|].
    match goal with
    | |- sharedSecret ?l = _ /\ _ =>
        destruct (Hlisten l) as (Hs & _ & Hp & _); [vm_compute; reflexivity|]
    end.
    split; [exact Hs|exact Hp].
Defined.

(** Listening on the channel without [--key]: the broadcast made under
    the channel fallback does not decrypt under the listener's fallback,
    and does under the channel's. *)
Example listen_on_channel_without_key :
  exists l,
    monitorPdaUpdates (Ledger.listing ["sigX"]) Ledger.listenChannel = Return l /\
    accountChangeCallback Demo.decryptMessage (Ledger.listing ["sigX"]) l
      (Ledger.channelData "Test" 3)
    = Return (counted l 3, [NewReceived false; CouldNotFind false 2 3]) /\
    accountChangeCallback Demo.decryptMessage (Ledger.listing ["sigX"])
      {| isThread := false; metadata := metadata l;
         sharedSecret := "default-channel-key"; initialCount := 2 |}
      (Ledger.channelData "Test" 3)
    = Return ({| isThread := false; metadata := metadata l;
                 sharedSecret := "default-channel-key"; initialCount := 3 |},
              [NewReceived false;
               Content false (Ledger.entry 2 Ledger.alice "New Update" 1700000600 "sigX")]).
Proof.
  eexists. split; [vm_compute; reflexivity|].
  split; vm_compute; reflexivity.
Qed.

(* ------------------------------------------------------------------ *)
(** ** The cli2 build agrees with the cli *)

Section Cli2Facts.

Variable decryptMessage : Buffer -> string -> Completion string.
Variables (DISC : Buffer) (secret : string).

Lemma append_only_Cli2_instruction_body tx message ix :
  append_only (Cli2.instruction_body decryptMessage tx message DISC secret ix).
Proof. unfold Cli2.instruction_body. append_only_tac. Qed.

#[local] Hint Resolve append_only_Cli2_instruction_body : scan.

Lemma append_only_Cli2_signature_body connection sigInfo :
  append_only (Cli2.signature_body decryptMessage connection DISC secret sigInfo).
Proof. unfold Cli2.signature_body. append_only_tac. Qed.

Lemma Cli2_signature_body_returns connection sigInfo :
  completion (Cli2.signature_body decryptMessage connection DISC secret sigInfo)
  = Return tt.
Proof.
  unfold completion, Cli2.signature_body, try_catch.
  match goal with |- fst (match ?m with _ => _ end) = _ => destruct m as [[[]|e] s'] end;
    reflexivity.
Qed.

(** One instruction: the cli2 loop behaves as the cli loop started at
    index 0, but for the signature field of what it pushes. *)
Lemma Cli2_instruction_body_agrees sigInfo tx message ix :
  completion (Cli2.instruction_body decryptMessage tx message DISC secret ix)
  = completion (instruction_body decryptMessage sigInfo tx message DISC secret 0 ix) /\
  pushed (Cli2.instruction_body decryptMessage tx message DISC secret ix)
  = map unsigned
      (pushed (instruction_body decryptMessage sigInfo tx message DISC secret 0 ix)).
Proof.
  unfold completion, pushed, Cli2.instruction_body, instruction_body,
    bind, lift, try_catch, push, ret.
  destruct (matchingInstruction message ix DISC) as [[|]|]; simpl; auto.
  destruct (readUInt32LE (Ix.data ix) 8) as [i|] eqn:H8; simpl; auto.
  destruct (readUInt32LE (Ix.data ix) 12) as [c|]; simpl; auto.
  apply readUInt32LE_range in H8.
  replace (0 <=? i) with true by (symmetry; apply Z.leb_le; lia).
  destruct (decryptMessage _ secret); simpl; auto.
  destruct (element (Ix.accountKeyIndexes ix) 1); simpl; auto.
  destruct (element (staticAccountKeys message) _); simpl; auto.
Qed.

Lemma Cli2_for_of_agrees sigInfo tx message instructions :
  completion (for_of instructions
                (Cli2.instruction_body decryptMessage tx message DISC secret))
  = completion (for_of instructions
                  (instruction_body decryptMessage sigInfo tx message DISC secret 0)) /\
  pushed (for_of instructions
            (Cli2.instruction_body decryptMessage tx message DISC secret))
  = map unsigned
      (pushed (for_of instructions
                 (instruction_body decryptMessage sigInfo tx message DISC secret 0))).
Proof.
  induction instructions as [|ix instructions [IHc IHp]]; simpl.
  - split; reflexivity.
  - destruct (Cli2_instruction_body_agrees sigInfo tx message ix) as [Hc Hp].
    rewrite !completion_bind, !pushed_bind
      by (intros; auto using append_only_instruction_body,
            append_only_Cli2_instruction_body, append_only_for_of).
    rewrite Hc, Hp, map_app.
    destruct (completion (instruction_body decryptMessage sigInfo tx message DISC
                            secret 0 ix)).
    + split; [exact IHc|]. now rewrite IHp.
    + split; reflexivity.
Qed.

Lemma Cli2_entries_agree connection sigInfo :
  pushed (Cli2.signature_body decryptMessage connection DISC secret sigInfo)
  = map unsigned (entries_of decryptMessage connection DISC secret 0 sigInfo).
Proof.
  rewrite entries_of_cases.
  unfold pushed at 1, Cli2.signature_body, try_catch, bind, lift.
  destruct (getTransaction connection (signature sigInfo)) as [[tx|]|e]; auto.
  destruct (transaction tx) as [message|]; auto.
  destruct (compiledInstructions message) as [instructions|]; auto.
  destruct (Cli2_for_of_agrees sigInfo tx message instructions) as [_ Hp].
  rewrite <- Hp. unfold pushed.
  destruct (for_of instructions _ []) as [[[]|e] s']; reflexivity.
Qed.

Lemma Cli2_scan_agrees connection signatures :
  snd (for_of signatures (Cli2.signature_body decryptMessage connection DISC secret) [])
  = map unsigned
      (flat_map (entries_of decryptMessage connection DISC secret 0) signatures).
Proof.
  assert (Hmap :
    flat_map (fun x => pushed (Cli2.signature_body decryptMessage connection DISC
                                 secret x)) signatures
    = map unsigned
        (flat_map (entries_of decryptMessage connection DISC secret 0) signatures)).
  { induction signatures as [|s signatures IH]; simpl; [reflexivity|].
    now rewrite map_app, Cli2_entries_agree, IH. }
  rewrite <- Hmap.
  apply (for_of_total signatures
           (Cli2.signature_body decryptMessage connection DISC secret)).
  - intros x. apply append_only_Cli2_signature_body.
  - intros x. apply Cli2_signature_body_returns.
Qed.

End Cli2Facts.

Lemma sort_insert_unsigned (x : Msg.t) (l : list Msg.t) :
  sort_insert by_index (unsigned x) (map unsigned l)
  = map unsigned (sort_insert by_index x l).
Proof.
  induction l as [|y l IH]; simpl; [reflexivity|].
  change (by_index (unsigned x) (unsigned y)) with (by_index x y).
  destruct (by_index x y <=? 0); simpl; [reflexivity|]. now rewrite IH.
Qed.

Lemma Array_sort_unsigned (l : list Msg.t) :
  Array_sort by_index (map unsigned l) = map unsigned (Array_sort by_index l).
Proof.
  induction l as [|x l IH]; simpl; [reflexivity|].
  now rewrite IH, sort_insert_unsigned.
Qed.

(** X22. The thread read of the cli2 build returns when the cli's does,
    with the same participants, the same count and the same entries less
    their signature field. *)
Theorem Cli2_readMessagesCommand_agrees
    (decryptMessage : Buffer -> string -> Completion string)
    (connection : Connection) (options : Options.t) :
  match readMessagesCommand decryptMessage connection options,
        Cli2.readMessagesCommand decryptMessage connection options with
  | Return (metadata, messageCount, messages), Return (a, b, messageCount', messages') =>
      participantA metadata = Some a /\ participantB metadata = Some b /\
      messageCount' = messageCount /\ messages' = map unsigned messages
  | Throw _, Throw _ => True
  | _, _ => False
  end.
Proof.
  unfold readMessagesCommand, Cli2.readMessagesCommand, fetchAccountCount,
    _fetchAccountData, _fetchNewMessages.
  destruct (address (Options.thread options)) as [threadPDA|]; simpl; [|exact I].
  destruct (getAccountInfo connection threadPDA) as [[accountInfo|]|]; simpl;
    try exact I.
  destruct (readUInt32LE (data accountInfo) 104) as [messageCount|]; simpl;
    [|exact I].
  destruct (getSignaturesForAddress connection threadPDA 1000) as [signatures|];
    simpl; [|exact I].
  repeat split.
  rewrite Cli2_scan_agrees, scan_signatures. apply Array_sort_unsigned.
Qed.

(** X23. The channel read of the cli2 build returns when the cli's does,
    with the same owner, the same name, the same count and the same entries
    less their signature field. *)
Theorem Cli2_readBroadcastsCommand_agrees
    (decryptMessage : Buffer -> string -> Completion string)
    (connection : Connection) (options : Options.t) :
  match readBroadcastsCommand decryptMessage connection options,
        Cli2.readBroadcastsCommand decryptMessage connection options with
  | Return (metadata, messageCount, messages),
    Return (channelOwner, name, messageCount', messages') =>
      owner metadata = Some channelOwner /\ channelName metadata = Some name /\
      messageCount' = messageCount /\ messages' = map unsigned messages
  | Throw _, Throw _ => True
  | _, _ => False
  end.
Proof.
  unfold readBroadcastsCommand, Cli2.readBroadcastsCommand, fetchAccountCount,
    _fetchAccountData, _fetchNewMessages.
  destruct (address (Options.channel options)) as [channelPDA|]; simpl; [|exact I].
  destruct (getAccountInfo connection channelPDA) as [[accountInfo|]|]; simpl;
    try exact I.
  destruct (readUInt32LE (data accountInfo) 40) as [channelNameLen|]; simpl;
    [|exact I].
  destruct (readUInt32LE (data accountInfo) 76) as [messageCount|]; simpl;
    [|exact I].
  destruct (getSignaturesForAddress connection channelPDA 1000) as [signatures|];
    simpl; [|exact I].
  repeat split.
  rewrite Cli2_scan_agrees, scan_signatures. apply Array_sort_unsigned.
Qed.

(* ------------------------------------------------------------------ *)
(** * Further properties *)

(** ** What is sent is what is read *)

Lemma matchingInstruction_selected (message : VersionedMessage) (ix : Ix.t)
    (DISC : Buffer) :
  matchingInstruction message ix DISC = Return true ->
  nth_error (staticAccountKeys message) (Ix.programIdIndex ix) = Some PROGRAM_ID /\
  8 < len (Ix.data ix) /\
  firstn 8 (Ix.data ix) = DISC.
Proof.
  unfold matchingInstruction, element.
  destruct (nth_error (staticAccountKeys message) (Ix.programIdIndex ix))
    as [programId|]; simpl; [|discriminate].
  destruct (PublicKey_equals programId PROGRAM_ID) eqn:Ep; [|discriminate].
  apply PublicKey_equals_iff in Ep. subst programId.
  intros H. injection H as H. apply andb_prop in H as [Hl He].
  apply Z.ltb_lt in Hl. apply Buffer_equals_iff in He.
  split; [reflexivity|]. split; [exact Hl|].
  rewrite <- He. unfold subarray, len in *.
  change 0 with (Z.of_nat 0). change 8 with (Z.of_nat 8).
  rewrite slice_in_bounds by lia. reflexivity.
Qed.

Lemma Buffer_from_hex_sendMessage_length :
  List.length (Buffer_from_hex DISCRIMINATORS.sendMessage) = 8%nat.
Proof. reflexivity. Qed.

Lemma Buffer_from_hex_sendBroadcast_length :
  List.length (Buffer_from_hex DISCRIMINATORS.sendBroadcast) = 8%nat.
Proof. reflexivity. Qed.

(** The scan of the compiled form of an append instruction built by a
    send command. *)
Lemma compiled_append_is_pushed
    (decryptMessage : Buffer -> string -> Completion string)
    (sigInfo : ConfirmedSignatureInfo) (tx : TransactionResponse)
    (message : VersionedMessage) (ix : Ix.t) (DISC : Buffer) (secret : string)
    (startingIndex messageCount : Z) (encrypted : Buffer) (plain : string)
    (account wallet : PublicKey) (s : list Msg.t) :
  List.length DISC = 8%nat ->
  0 <= messageCount < 2 ^ 32 ->
  len encrypted < 2 ^ 32 ->
  decryptMessage encrypted secret = Return plain ->
  startingIndex <= messageCount ->
  compiled message ix
    {| TransactionInstruction.programId := PROGRAM_ID;
       TransactionInstruction.keys :=
         [ {| pubkey := account; isSigner := false; isWritable := true |};
           {| pubkey := wallet; isSigner := true; isWritable := false |} ];
       TransactionInstruction.data := appendData DISC messageCount encrypted |} ->
  instruction_body decryptMessage sigInfo tx message DISC secret startingIndex ix s
  = (Return tt,
     s ++ [{| Msg.index := messageCount; Msg.sender := toBase58 wallet;
              Msg.content := plain; Msg.timestamp := blockTime tx;
              Msg.signature := Some (signature sigInfo) |}]).
Proof.
  intros Hd Hc Hl Hdec Hk (Hp & Hdata & Hkeys). simpl in Hp, Hdata, Hkeys.
  inversion Hkeys as [|i0 k0 is0 ks0 _ Hrest]; subst.
  inversion Hrest as [|i1 k1 is1 ks1 Hw _]; subst. simpl in Hw.
  apply instruction_body_pushes with (len encrypted) i1.
  - eapply appendData_matches; eauto.
  - rewrite Hdata. now apply appendData_index.
  - rewrite Hdata. now apply appendData_contentLength.
  - exact Hk.
  - rewrite Hdata, appendData_ciphertext; assumption.
  - match goal with H : _ = Ix.accountKeyIndexes ix |- _ => rewrite <- H end.
    reflexivity.
  - exact Hw.
Qed.

(** X1. A message sent by [sendMessageCommand] is read back: when the
    cipher decrypts what it encrypted, the compiled form of the submitted
    instruction, met by the scan under the same key option, pushes one
    entry whose index is the message count the account held when the
    command ran, whose sender is the wallet and whose content is the
    message. *)
Theorem sent_message_is_read
    (encryptMessage : string -> string -> Buffer)
    (decryptMessage : Buffer -> string -> Completion string)
    (connection : Connection) (wallet : PublicKey) (options : Options.t)
    (sent : TransactionInstruction.t) :
  sendMessageCommand encryptMessage connection wallet options = Return sent ->
  decryptMessage
    (encryptMessage (Options.message options)
       (or_default (Options.key options) "default-secret-key"))
    (or_default (Options.key options) "default-secret-key")
  = Return (Options.message options) ->
  len (encryptMessage (Options.message options)
         (or_default (Options.key options) "default-secret-key")) < 2 ^ 32 ->
  exists threadPDA metadata accountData messageCount,
    address (Options.thread options) = Return threadPDA /\
    fetchAccountCount connection threadPDA thread
    = Return (metadata, accountData, messageCount) /\
    forall sigInfo tx message ix startingIndex s,
      compiled message ix sent ->
      startingIndex <= messageCount ->
      instruction_body decryptMessage sigInfo tx message (discriminator metadata)
        (or_default (Options.key options) "default-secret-key") startingIndex ix s
      = (Return tt,
         s ++ [{| Msg.index := messageCount; Msg.sender := toBase58 wallet;
                  Msg.content := Options.message options;
                  Msg.timestamp := blockTime tx;
                  Msg.signature := Some (signature sigInfo) |}]).
Proof.
  intros Hsend Hdec Hlen. unfold sendMessageCommand in Hsend.
  destruct (address (Options.thread options)) as [threadPDA|]; [|discriminate].
  simpl in Hsend.
  destruct (fetchAccountCount connection threadPDA thread)
    as [[[metadata accountData] messageCount]|] eqn:Hf; [|discriminate].
  simpl in Hsend. injection Hsend as <-.
  exists threadPDA, metadata, accountData, messageCount.
  split; [reflexivity|]. split; [exact Hf|].
  assert (Hmd : discriminator metadata = Buffer_from_hex DISCRIMINATORS.sendMessage
                /\ 0 <= messageCount < 2 ^ 32).
  { unfold fetchAccountCount, _fetchAccountData in Hf.
    destruct (getAccountInfo connection threadPDA) as [[accountInfo|]|];
      try discriminate.
    simpl in Hf.
    destruct (readUInt32LE (data accountInfo) 104) as [n|] eqn:Hr; [|discriminate].
    simpl in Hf. injection Hf as <- _ <-.
    split; [reflexivity|]. now apply readUInt32LE_range in Hr. }
  destruct Hmd as [Hmd Hrange]. rewrite Hmd.
  intros sigInfo tx message ix startingIndex s Hc Hk.
  eapply compiled_append_is_pushed; eauto.
Qed.

Lemma sent_message_is_read_witness :
  exists sent,
    sendMessageCommand Demo.encryptMessage Ledger.newestFirst Ledger.bob
      {| Options.thread := Some Ledger.threadAddress; Options.channel := None;
         Options.key := Some "mykey"; Options.message := "fourth" |}
    = Return sent /\
    exists threadPDA metadata accountData messageCount,
      address (Some Ledger.threadAddress) = Return threadPDA /\
      fetchAccountCount Ledger.newestFirst threadPDA thread
      = Return (metadata, accountData, messageCount) /\
      forall sigInfo tx message ix startingIndex s,
        compiled message ix sent ->
        startingIndex <= messageCount ->
        instruction_body Demo.decryptMessage sigInfo tx message (discriminator metadata)
          "mykey" startingIndex ix s
        = (Return tt,
           s ++ [{| Msg.index := messageCount; Msg.sender := toBase58 Ledger.bob;
                    Msg.content := "fourth"; Msg.timestamp := blockTime tx;
                    Msg.signature := Some (signature sigInfo) |}]).
Proof.
  eexists. split; [vm_compute; reflexivity|].
  apply (sent_message_is_read Demo.encryptMessage Demo.decryptMessage
           Ledger.newestFirst Ledger.bob
           {| Options.thread := Some Ledger.threadAddress; Options.channel := None;
              Options.key := Some "mykey"; Options.message := "fourth" |}).
  - vm_compute. reflexivity.
  - vm_compute. reflexivity.
  - vm_compute. reflexivity.
Defined.

(** X2. A broadcast sent by [sendBroadcastCommand] is read back: under
    the same key option, the compiled form of the submitted instruction
    pushes one entry whose index is the broadcast count read at offset 76
    when the command ran, whose sender is the wallet and whose content is
    the message. *)
Theorem sent_broadcast_is_read
    (encryptMessage : string -> string -> Buffer)
    (decryptMessage : Buffer -> string -> Completion string)
    (connection : Connection) (wallet : PublicKey) (options : Options.t)
    (sent : TransactionInstruction.t) :
  sendBroadcastCommand encryptMessage connection wallet options = Return sent ->
  decryptMessage
    (encryptMessage (Options.message options)
       (or_default (Options.key options) "default-channel-key"))
    (or_default (Options.key options) "default-channel-key")
  = Return (Options.message options) ->
  len (encryptMessage (Options.message options)
         (or_default (Options.key options) "default-channel-key")) < 2 ^ 32 ->
  exists channelPDA metadata accountData messageCount,
    address (Options.channel options) = Return channelPDA /\
    fetchAccountCount connection channelPDA channel
    = Return (metadata, accountData, messageCount) /\
    messageCount = u32_at accountData 76 /\
    forall sigInfo tx message ix startingIndex s,
      compiled message ix sent ->
      startingIndex <= messageCount ->
      instruction_body decryptMessage sigInfo tx message (discriminator metadata)
        (or_default (Options.key options) "default-channel-key") startingIndex ix s
      = (Return tt,
         s ++ [{| Msg.index := messageCount; Msg.sender := toBase58 wallet;
                  Msg.content := Options.message options;
                  Msg.timestamp := blockTime tx;
                  Msg.signature := Some (signature sigInfo) |}]).
Proof.
  intros Hsend Hdec Hlen. unfold sendBroadcastCommand in Hsend.
  destruct (address (Options.channel options)) as [channelPDA|]; [|discriminate].
  simpl in Hsend.
  destruct (fetchAccountCount connection channelPDA channel)
    as [[[metadata accountData] messageCount]|] eqn:Hf; [|discriminate].
  simpl in Hsend. injection Hsend as <-.
  exists channelPDA, metadata, accountData, messageCount.
  split; [reflexivity|]. split; [exact Hf|].
  assert (Hmd : discriminator metadata = Buffer_from_hex DISCRIMINATORS.sendBroadcast
                /\ 0 <= messageCount < 2 ^ 32
                /\ messageCount = u32_at accountData 76).
  { unfold fetchAccountCount, _fetchAccountData in Hf.
    destruct (getAccountInfo connection channelPDA) as [[accountInfo|]|];
      try discriminate.
    simpl in Hf.
    destruct (readUInt32LE (data accountInfo) 40) as [nameLen|]; [|discriminate].
    simpl in Hf.
    destruct (readUInt32LE (data accountInfo) 76) as [n|] eqn:Hr; [|discriminate].
    simpl in Hf. injection Hf as <- <- <-.
    split; [reflexivity|]. split; [now apply readUInt32LE_range in Hr|].
    destruct (Nat.le_gt_cases 80 (List.length (data accountInfo))) as [H|H].
    - rewrite readUInt32LE_in_bounds in Hr by lia. now injection Hr.
    - rewrite readUInt32LE_out_of_bounds in Hr by lia. discriminate. }
  destruct Hmd as (Hmd & Hrange & Hat). split; [exact Hat|]. rewrite Hmd.
  intros sigInfo tx message ix startingIndex s Hc Hk.
  eapply compiled_append_is_pushed; eauto.
Qed.

Lemma sent_broadcast_is_read_witness :
  exists sent,
    sendBroadcastCommand Demo.encryptMessage Ledger.newestFirst Ledger.alice
      {| Options.thread := None; Options.channel := Some Ledger.channelAddress;
         Options.key := None; Options.message := "New Update" |}
    = Return sent /\
    exists channelPDA metadata accountData messageCount,
      address (Some Ledger.channelAddress) = Return channelPDA /\
      fetchAccountCount Ledger.newestFirst channelPDA channel
      = Return (metadata, accountData, messageCount) /\
      messageCount = u32_at accountData 76 /\
      forall sigInfo tx message ix startingIndex s,
        compiled message ix sent ->
        startingIndex <= messageCount ->
        instruction_body Demo.decryptMessage sigInfo tx message (discriminator metadata)
          "default-channel-key" startingIndex ix s
        = (Return tt,
           s ++ [{| Msg.index := messageCount; Msg.sender := toBase58 Ledger.alice;
                    Msg.content := "New Update"; Msg.timestamp := blockTime tx;
                    Msg.signature := Some (signature sigInfo) |}]).
Proof.
  eexists. split; [vm_compute; reflexivity|].
  apply (sent_broadcast_is_read Demo.encryptMessage Demo.decryptMessage
           Ledger.newestFirst Ledger.alice
           {| Options.thread := None; Options.channel := Some Ledger.channelAddress;
              Options.key := None; Options.message := "New Update" |}).
  - vm_compute. reflexivity.
  - vm_compute. reflexivity.
  - vm_compute. reflexivity.
Defined.

(** X3. The index a send carries is the count the account shows when the
    command runs, and nothing reserves it: two sends against the same
    account state, from any two wallets and with any messages, carry the
    same index. *)
Theorem concurrent_sends_carry_the_same_index
    (encryptMessage : string -> string -> Buffer)
    (connection : Connection) (wallet wallet' : PublicKey)
    (options options' : Options.t) (sent sent' : TransactionInstruction.t) :
  Options.thread options' = Options.thread options ->
  sendMessageCommand encryptMessage connection wallet options = Return sent ->
  sendMessageCommand encryptMessage connection wallet' options' = Return sent' ->
  exists threadPDA metadata accountData messageCount,
    address (Options.thread options) = Return threadPDA /\
    fetchAccountCount connection threadPDA thread
    = Return (metadata, accountData, messageCount) /\
    readUInt32LE (TransactionInstruction.data sent) 8 = Return messageCount /\
    readUInt32LE (TransactionInstruction.data sent') 8 = Return messageCount.
Proof.
  intros Ht Hs Hs'. unfold sendMessageCommand in Hs, Hs'. rewrite Ht in Hs'.
  destruct (address (Options.thread options)) as [threadPDA|]; [|discriminate].
  simpl in Hs, Hs'.
  destruct (fetchAccountCount connection threadPDA thread)
    as [[[metadata accountData] messageCount]|] eqn:Hf; [|discriminate].
  simpl in Hs, Hs'. injection Hs as <-. injection Hs' as <-.
  exists threadPDA, metadata, accountData, messageCount.
  split; [reflexivity|]. split; [exact Hf|].
  assert (Hrange : 0 <= messageCount < 2 ^ 32).
  { unfold fetchAccountCount in Hf.
    destruct (_fetchAccountData connection threadPDA thread) as [[md d]|];
      [|discriminate].
    simpl in Hf.
    destruct (readUInt32LE d (messageCountOffset md)) as [n|] eqn:Hr; [|discriminate].
    simpl in Hf. injection Hf as _ _ <-. now apply readUInt32LE_range in Hr. }
  simpl. split; apply appendData_index; auto.
Qed.

Lemma concurrent_sends_carry_the_same_index_witness :
  exists sent sent',
    sendMessageCommand Demo.encryptMessage Ledger.newestFirst Ledger.alice
      {| Options.thread := Some Ledger.threadAddress; Options.channel := None;
         Options.key := Some "mykey"; Options.message := "from alice" |}
    = Return sent /\
    sendMessageCommand Demo.encryptMessage Ledger.newestFirst Ledger.bob
      {| Options.thread := Some Ledger.threadAddress; Options.channel := None;
         Options.key := Some "mykey"; Options.message := "from bob" |}
    = Return sent' /\
    exists messageCount,
      readUInt32LE (TransactionInstruction.data sent) 8 = Return messageCount /\
      readUInt32LE (TransactionInstruction.data sent') 8 = Return messageCount.
Proof.
  eexists. eexists. split; [vm_compute; reflexivity|].
  split; [vm_compute; reflexivity|].
  match goal with
  | |- exists _, readUInt32LE (TransactionInstruction.data ?a) 8 = _ /\
                 readUInt32LE (TransactionInstruction.data ?b) 8 = _ =>
      destruct (concurrent_sends_carry_the_same_index Demo.encryptMessage
                  Ledger.newestFirst Ledger.alice Ledger.bob
                  {| Options.thread := Some Ledger.threadAddress;
                     Options.channel := None; Options.key := Some "mykey";
                     Options.message := "from alice" |}
                  {| Options.thread := Some Ledger.threadAddress;
                     Options.channel := None; Options.key := Some "mykey";
                     Options.message := "from bob" |} a b)
        as (pda & md & d & count & _ & _ & H1 & H2)
  end.
  - reflexivity.
  - vm_compute. reflexivity.
  - vm_compute. reflexivity.
  - exists count. split; assumption.
Defined.

(* ------------------------------------------------------------------ *)
(** ** The other operations of the program *)

Lemma firstn_8_app (D rest : Buffer) :
  List.length D = 8%nat -> firstn 8 (D ++ rest) = D.
Proof.
  intros H. rewrite <- H at 1. rewrite firstn_app, Nat.sub_diag, firstn_all.
  simpl. apply app_nil_r.
Qed.

Lemma unselected_pushes_nothing
    (decryptMessage : Buffer -> string -> Completion string)
    sigInfo tx message DISC secret k ix s :
  matchingInstruction message ix DISC <> Return true ->
  snd (instruction_body decryptMessage sigInfo tx message DISC secret k ix s) = s.
Proof.
  intros H. unfold instruction_body, bind, lift, ret.
  destruct (matchingInstruction message ix DISC) as [[|]|]; simpl;
    [contradiction|reflexivity|reflexivity].
Qed.

(** The payload of every administrative instruction starts with its own
    operation tag. *)
Lemma administrative_data
    (findProgramAddressSync : list Buffer -> PublicKey -> Completion (PublicKey * nat))
    (wallet : PublicKey) (threadId : Buffer) (options : AdminOptions.t)
    (sent : TransactionInstruction.t) :
  initThreadCommand findProgramAddressSync wallet threadId options = Return sent \/
  createChannelCommand findProgramAddressSync wallet options = Return sent \/
  subscribeChannelCommand findProgramAddressSync wallet options = Return sent \/
  closeThreadCommand wallet options = Return sent \/
  closeChannelCommand wallet options = Return sent ->
  exists tag rest,
    TransactionInstruction.data sent = Buffer_from_hex tag ++ rest /\
    In tag [DISCRIMINATORS.initializeThread; DISCRIMINATORS.initializeChannel;
            DISCRIMINATORS.subscribeChannel; DISCRIMINATORS.closeThread;
            DISCRIMINATORS.closeChannel].
Proof.
  intros [H|[H|[H|[H|H]]]].
  - unfold initThreadCommand, deriveThreadPDA in H.
    destruct (address (AdminOptions.recipient options)) as [b|]; [|discriminate].
    simpl in H.
    destruct (findProgramAddressSync _ PROGRAM_ID) as [[p n]|]; [|discriminate].
    simpl in H. injection H as <-.
    exists DISCRIMINATORS.initializeThread, threadId. simpl. tauto.
  - unfold createChannelCommand, deriveChannelPDA in H.
    destruct (findProgramAddressSync _ PROGRAM_ID) as [[p n]|]; [|discriminate].
    simpl in H. injection H as <-.
    exists DISCRIMINATORS.initializeChannel,
      (Uint32Array_bytes (len (Buffer_from_utf8 (AdminOptions.name options)))
       ++ Buffer_from_utf8 (AdminOptions.name options)).
    split; [reflexivity|]. simpl. tauto.
  - unfold subscribeChannelCommand, deriveSubscriptionPDA in H.
    destruct (address (AdminOptions.channel options)) as [c|]; [|discriminate].
    simpl in H.
    destruct (findProgramAddressSync _ PROGRAM_ID) as [[p n]|]; [|discriminate].
    simpl in H. injection H as <-.
    exists DISCRIMINATORS.subscribeChannel, []. split; [now rewrite app_nil_r|].
    simpl. tauto.
  - unfold closeThreadCommand in H.
    destruct (address (AdminOptions.thread options)) as [c|]; [|discriminate].
    simpl in H.
    destruct (refundRecipient (AdminOptions.recipient options) wallet) as [r|];
      [|discriminate].
    simpl in H. injection H as <-.
    exists DISCRIMINATORS.closeThread, []. split; [now rewrite app_nil_r|].
    simpl. tauto.
  - unfold closeChannelCommand in H.
    destruct (address (AdminOptions.channel options)) as [c|]; [|discriminate].
    simpl in H.
    destruct (refundRecipient (AdminOptions.recipient options) wallet) as [r|];
      [|discriminate].
    simpl in H. injection H as <-.
    exists DISCRIMINATORS.closeChannel, []. split; [now rewrite app_nil_r|].
    simpl. tauto.
Qed.

(** X4. The instructions that create a thread or a channel, subscribe to
    a channel, or close a thread or a channel are never taken for
    messages: in whatever compiled form the scan meets their payload, with
    the thread tag as with the channel tag, the filter does not select it
    and the instruction pushes nothing. *)
Theorem administrative_instructions_are_not_read
    (findProgramAddressSync : list Buffer -> PublicKey -> Completion (PublicKey * nat))
    (wallet : PublicKey) (threadId : Buffer) (options : AdminOptions.t)
    (sent : TransactionInstruction.t) (message : VersionedMessage) (ix : Ix.t)
    (DISCRIMINATOR : Buffer) :
  initThreadCommand findProgramAddressSync wallet threadId options = Return sent \/
  createChannelCommand findProgramAddressSync wallet options = Return sent \/
  subscribeChannelCommand findProgramAddressSync wallet options = Return sent \/
  closeThreadCommand wallet options = Return sent \/
  closeChannelCommand wallet options = Return sent ->
  Ix.data ix = TransactionInstruction.data sent ->
  DISCRIMINATOR = Buffer_from_hex DISCRIMINATORS.sendMessage \/
  DISCRIMINATOR = Buffer_from_hex DISCRIMINATORS.sendBroadcast ->
  matchingInstruction message ix DISCRIMINATOR <> Return true /\
  forall decryptMessage sigInfo tx sharedSecret startingIndex s,
    snd (instruction_body decryptMessage sigInfo tx message DISCRIMINATOR
           sharedSecret startingIndex ix s) = s.
Proof.
  intros Hsent Hdata Hdisc.
  assert (Hno : matchingInstruction message ix DISCRIMINATOR <> Return true).
  { intros Hm. apply matchingInstruction_selected in Hm as (_ & _ & Hfirst).
    destruct (administrative_data _ _ _ _ _ Hsent) as (tag & rest & Hd & Hin).
    rewrite Hdata, Hd in Hfirst.
    simpl in Hin.
    destruct Hin as [<-|[<-|[<-|[<-|[<-|[]]]]]];
      rewrite firstn_8_app in Hfirst by reflexivity;
      destruct Hdisc as [-> | ->]; vm_compute in Hfirst; discriminate. }
  split; [exact Hno|].
  intros. now apply unselected_pushes_nothing.
Qed.

Lemma administrative_instructions_are_not_read_witness :
  exists sent,
    initThreadCommand Desk.findProgramAddressSync Ledger.alice (repeat x33 32)
      Desk.initThread = Return sent /\
    matchingInstruction (Desk.messageOf sent) (Desk.compile sent)
      (Buffer_from_hex DISCRIMINATORS.sendMessage) <> Return true /\
    snd (instruction_body Demo.decryptMessage {| signature := "sigI" |}
           (Ledger.txOf Ledger.alice [] 1700000100) (Desk.messageOf sent)
           (Buffer_from_hex DISCRIMINATORS.sendMessage) "mykey" 0
           (Desk.compile sent) [Ledger.first]) = [Ledger.first].
Proof.
  eexists. split; [vm_compute; reflexivity|].
  match goal with
  | |- matchingInstruction (Desk.messageOf ?a) _ _ <> _ /\ _ =>
      destruct (administrative_instructions_are_not_read
                  Desk.findProgramAddressSync Ledger.alice (repeat x33 32)
                  Desk.initThread a (Desk.messageOf a) (Desk.compile a)
                  (Buffer_from_hex DISCRIMINATORS.sendMessage)) as [Hno Hpush]
  end.
  - left. vm_compute. reflexivity.
  - reflexivity.
  - left. reflexivity.
  - split; [exact Hno|]. apply Hpush.
Defined.

Lemma toString_Buffer_from_utf8 (s : string) :
  toString_utf8 (Buffer_from_utf8 s) = s.
Proof. apply string_of_list_byte_of_string. Qed.

Lemma firstn_skipn_split {A} (l : list A) (n : nat) (mid : list A) :
  firstn (List.length mid) (skipn n l) = mid ->
  l = firstn n l ++ mid ++ skipn (List.length mid) (skipn n l).
Proof.
  intros H. rewrite <- H at 1. now rewrite firstn_skipn, firstn_skipn.
Qed.

(** X5. The name a channel is created with is the name the channel is
    read with: when the account stores at offset 40 the length-prefixed
    name as [createChannelCommand] sends it behind its tag,
    [_fetchAccountData] decodes that name. *)
Theorem created_channel_name_is_decoded
    (findProgramAddressSync : list Buffer -> PublicKey -> Completion (PublicKey * nat))
    (wallet : PublicKey) (options : AdminOptions.t) (sent : TransactionInstruction.t)
    (connection : Connection) (pda : PublicKey) (accountData : Buffer) :
  createChannelCommand findProgramAddressSync wallet options = Return sent ->
  len (Buffer_from_utf8 (AdminOptions.name options)) < 2 ^ 32 ->
  getAccountInfo connection pda = Return (Some {| data := accountData |}) ->
  firstn (List.length (skipn 8 (TransactionInstruction.data sent)))
    (skipn 40 accountData)
  = skipn 8 (TransactionInstruction.data sent) ->
  exists metadata,
    _fetchAccountData connection pda channel = Return (metadata, accountData) /\
    channelName metadata = Some (AdminOptions.name options).
Proof.
  intros Hsent Hlen Hg Hstored.
  unfold createChannelCommand, deriveChannelPDA in Hsent.
  destruct (findProgramAddressSync _ PROGRAM_ID) as [[p n]|]; [|discriminate].
  simpl in Hsent. injection Hsent as <-.
  set (nameBytes := Buffer_from_utf8 (AdminOptions.name options)) in *.
  set (mid := Uint32Array_bytes (len nameBytes) ++ nameBytes) in *.
  match type of Hstored with
  | context [skipn 8 ?d] =>
      assert (Hd : skipn 8 d = mid) by reflexivity; rewrite Hd in Hstored; clear Hd
  end.
  pose proof (firstn_skipn_split accountData 40 mid Hstored) as Hsplit.
  assert (Hmid : List.length mid = (4 + List.length nameBytes)%nat)
    by (unfold mid; now rewrite length_app).
  assert (H40 : List.length (firstn 40 accountData) = 40%nat).
  { apply firstn_length_le.
    assert (Hl := f_equal (@List.length byte) Hstored).
    rewrite length_firstn, length_skipn in Hl. lia. }
  set (pre := firstn 40 accountData) in *.
  set (post := skipn (List.length mid) (skipn 40 accountData)) in *.
  assert (Hread : readUInt32LE accountData 40 = Return (len nameBytes)).
  { rewrite Hsplit. unfold mid. rewrite <- app_assoc, <- H40.
    apply readUInt32LE_Uint32Array. pose proof (len_nonneg nameBytes). lia. }
  assert (Hname : slice accountData 44 (44 + len nameBytes) = nameBytes).
  { unfold len.
    replace (44 + Z.of_nat (List.length nameBytes))
      with (Z.of_nat (44 + List.length nameBytes)) by lia.
    change 44 with (Z.of_nat 44) at 1.
    assert (Hall : List.length accountData
                   = (40 + List.length mid + List.length post)%nat).
    { rewrite Hsplit at 1. rewrite !length_app, H40. lia. }
    rewrite slice_in_bounds by lia.
    replace (44 + List.length nameBytes - 44)%nat with (List.length nameBytes) by lia.
    rewrite Hsplit. unfold mid.
    replace (pre ++ (Uint32Array_bytes (len nameBytes) ++ nameBytes) ++ post)
      with ((pre ++ Uint32Array_bytes (len nameBytes)) ++ nameBytes ++ post)
      by (now rewrite <- !app_assoc).
    rewrite skipn_app.
    rewrite skipn_all2 by (rewrite length_app, H40; simpl; lia).
    rewrite length_app, H40. simpl.
    rewrite firstn_app, Nat.sub_diag, firstn_all. simpl. apply app_nil_r. }
  exists {| type := channel; pda := pda; messageCountOffset := 76;
            discriminator := Buffer_from_hex DISCRIMINATORS.sendBroadcast;
            owner := Some (new_PublicKey (slice accountData 8 40));
            participantA := None; participantB := None;
            channelName :=
              Some (toString_utf8 (slice accountData 44 (44 + len nameBytes))) |}.
  split.
  - unfold _fetchAccountData. rewrite Hg. simpl. rewrite Hread. reflexivity.
  - cbn [channelName]. rewrite Hname. unfold nameBytes.
    now rewrite toString_Buffer_from_utf8.
Qed.

Lemma created_channel_name_is_decoded_witness :
  exists sent,
    createChannelCommand Desk.findProgramAddressSync Ledger.alice Desk.createChannel
    = Return sent /\
    exists metadata,
      _fetchAccountData Ledger.newestFirst Ledger.channelPDA channel
      = Return (metadata, Ledger.channelData "Test" 2) /\
      channelName metadata = Some "Test".
Proof.
  eexists. split; [vm_compute; reflexivity|].
  eapply (created_channel_name_is_decoded Desk.findProgramAddressSync Ledger.alice
            Desk.createChannel).
  - vm_compute. reflexivity.
  - vm_compute. reflexivity.
  - reflexivity.
  - vm_compute. reflexivity.
Defined.

(* ------------------------------------------------------------------ *)
(** ** The listener over time *)

Lemma fold_left_max_ge (l : list Z) (a : Z) : a <= fold_left Z.max l a.
Proof.
  revert a. induction l as [|x l IH]; intros a; simpl; [lia|].
  specialize (IH (Z.max a x)). lia.
Qed.

(** One notification: the closed-over variables afterwards. *)
Lemma accountChangeCallback_state
    (decryptMessage : Buffer -> string -> Completion string)
    (connection : Connection) (l l' : Listener) (updatedData : Buffer)
    (printed : list Console) :
  accountChangeCallback decryptMessage connection l updatedData = Return (l', printed) ->
  exists newCount,
    readUInt32LE updatedData (messageCountOffset (metadata l)) = Return newCount /\
    l' = counted l (Z.max (initialCount l) newCount) /\
    (newCount <= initialCount l -> printed = []).
Proof.
  unfold accountChangeCallback, counted.
  destruct (readUInt32LE updatedData (messageCountOffset (metadata l)))
    as [newCount|]; simpl; [|discriminate].
  intros H. exists newCount. split; [reflexivity|].
  destruct (Z.ltb_spec (initialCount l) newCount) as [Hlt|Hge].
  - injection H as <- <-. split; [|lia].
    now rewrite Z.max_r by lia.
  - injection H as <- <-. split; [|reflexivity].
    rewrite Z.max_l by lia. now destruct l.
Qed.

(** One event: the account type, the metadata and the secret stay. *)
Lemma deliver_keeps
    (decryptMessage : Buffer -> string -> Completion string)
    (l l' : Listener) (waiting waiting' : list Waiting.t) (event : Event)
    (shown : list Console) :
  deliver decryptMessage l waiting event = Return (l', waiting', shown) ->
  isThread l' = isThread l /\ metadata l' = metadata l /\
  sharedSecret l' = sharedSecret l.
Proof.
  destruct event as [updatedData|k connection]; simpl.
  - destruct (readUInt32LE updatedData (messageCountOffset (metadata l)))
      as [newCount|]; simpl; [|discriminate].
    destruct (initialCount l <? newCount); intros H; injection H as <- _ _; auto.
  - destruct (nth_error waiting k) as [w|]; intros H; injection H as <- _ _; auto.
Qed.

Lemma onAccountChange_keeps
    (decryptMessage : Buffer -> string -> Completion string)
    (events : list Event) (l : Listener) (waiting : list Waiting.t) :
  isThread (Outcome.listener (onAccountChange decryptMessage l waiting events))
  = isThread l /\
  metadata (Outcome.listener (onAccountChange decryptMessage l waiting events))
  = metadata l /\
  sharedSecret (Outcome.listener (onAccountChange decryptMessage l waiting events))
  = sharedSecret l.
Proof.
  revert l waiting. induction events as [|event rest IH]; intros l waiting; simpl.
  - auto.
  - destruct (deliver decryptMessage l waiting event) as [[[l' waiting'] shown]|e]
      eqn:Hd; simpl; [|auto].
    apply deliver_keeps in Hd as (H1 & H2 & H3).
    destruct (IH l' waiting') as (I1 & I2 & I3).
    rewrite I1, I2, I3. auto.
Qed.

(** A notification and the settling of its fetch, with no other callback
    waiting, are one run of the callback. *)
Lemma onAccountChange_one_at_a_time
    (decryptMessage : Buffer -> string -> Completion string)
    (connection : Connection) (l : Listener) (updatedData : Buffer)
    (rest : list Event) :
  onAccountChange decryptMessage l []
    (Notified updatedData :: Settled 0 connection :: rest)
  = match accountChangeCallback decryptMessage connection l updatedData with
    | Return (l', shown) =>
        {| Outcome.listener :=
             Outcome.listener (onAccountChange decryptMessage l' [] rest);
           Outcome.waiting :=
             Outcome.waiting (onAccountChange decryptMessage l' [] rest);
           Outcome.printed :=
             shown ++ Outcome.printed (onAccountChange decryptMessage l' [] rest);
           Outcome.ended :=
             Outcome.ended (onAccountChange decryptMessage l' [] rest) |}
    | Throw e =>
        {| Outcome.listener := l; Outcome.waiting := [];
           Outcome.printed := []; Outcome.ended := Some e |}
    end.
Proof.
  unfold accountChangeCallback.
  cbn [onAccountChange deliver].
  destruct (readUInt32LE updatedData (messageCountOffset (metadata l)))
    as [newCount|e]; cbn [cbind]; [|reflexivity].
  destruct (initialCount l <? newCount); reflexivity.
Qed.

(** X6. The account type, the metadata and the secret of the listener
    never change, whatever the order in which notifications arrive and
    fetches settle. When the notifications are answered one at a time, no
    callback is left waiting and the last-observed counter is the largest
    of its starting value and the counters read, so it never decreases;
    the first notification whose counter cannot be read ends the process,
    and the notifications after it change and print nothing. When two
    callbacks overlap and the later one settles first, the counter ends on
    the smaller of the two. *)
Theorem listener_counter_is_the_maximum
    (decryptMessage : Buffer -> string -> Completion string)
    (l : Listener) (notifications : list (Connection * Buffer)) :
  (forall waiting events,
     isThread (Outcome.listener (onAccountChange decryptMessage l waiting events))
     = isThread l /\
     metadata (Outcome.listener (onAccountChange decryptMessage l waiting events))
     = metadata l /\
     sharedSecret (Outcome.listener (onAccountChange decryptMessage l waiting events))
     = sharedSecret l) /\
  Outcome.waiting (onAccountChange decryptMessage l [] (oneAtATime notifications)) = [] /\
  initialCount
    (Outcome.listener (onAccountChange decryptMessage l [] (oneAtATime notifications)))
  = fold_left Z.max (countsRead (messageCountOffset (metadata l)) notifications)
      (initialCount l) /\
  initialCount l
  <= initialCount
       (Outcome.listener (onAccountChange decryptMessage l [] (oneAtATime notifications))) /\
  (Outcome.ended (onAccountChange decryptMessage l [] (oneAtATime notifications)) = None <->
   List.length (countsRead (messageCountOffset (metadata l)) notifications)
   = List.length notifications) /\
  onAccountChange decryptMessage l []
    (oneAtATime
       (firstn (List.length (countsRead (messageCountOffset (metadata l)) notifications))
          notifications))
  = {| Outcome.listener :=
         Outcome.listener (onAccountChange decryptMessage l [] (oneAtATime notifications));
       Outcome.waiting := [];
       Outcome.printed :=
         Outcome.printed (onAccountChange decryptMessage l [] (oneAtATime notifications));
       Outcome.ended := None |} /\
  (forall connection connection' first second a b,
     readUInt32LE first (messageCountOffset (metadata l)) = Return a ->
     readUInt32LE second (messageCountOffset (metadata l)) = Return b ->
     initialCount l < a -> a < b ->
     initialCount
       (Outcome.listener
          (onAccountChange decryptMessage l []
             [Notified first; Notified second;
              Settled 1 connection'; Settled 0 connection]))
     = a).
Proof.
  split; [intros waiting events; apply onAccountChange_keeps|].
  assert (Hmain :
    Outcome.waiting (onAccountChange decryptMessage l [] (oneAtATime notifications)) = [] /\
    initialCount
      (Outcome.listener (onAccountChange decryptMessage l [] (oneAtATime notifications)))
    = fold_left Z.max (countsRead (messageCountOffset (metadata l)) notifications)
        (initialCount l) /\
    (Outcome.ended (onAccountChange decryptMessage l [] (oneAtATime notifications)) = None <->
     List.length (countsRead (messageCountOffset (metadata l)) notifications)
     = List.length notifications) /\
    onAccountChange decryptMessage l []
      (oneAtATime
         (firstn (List.length (countsRead (messageCountOffset (metadata l)) notifications))
            notifications))
    = {| Outcome.listener :=
           Outcome.listener (onAccountChange decryptMessage l [] (oneAtATime notifications));
         Outcome.waiting := [];
         Outcome.printed :=
           Outcome.printed (onAccountChange decryptMessage l [] (oneAtATime notifications));
         Outcome.ended := None |}).
  { revert l. induction notifications as [|[connection updatedData] rest IH]; intros l.
    - simpl. repeat split; reflexivity.
    - change (oneAtATime ((connection, updatedData) :: rest))
        with (Notified updatedData :: Settled 0 connection :: oneAtATime rest).
      rewrite onAccountChange_one_at_a_time.
      cbn [countsRead snd].
      destruct (accountChangeCallback decryptMessage connection l updatedData)
        as [[l' shown]|e] eqn:Hcb.
      + apply accountChangeCallback_state in Hcb as Hst.
        destruct Hst as (newCount & Hr & -> & _).
        rewrite Hr. cbn [List.length firstn fold_left].
        change (oneAtATime ((connection, updatedData)
                            :: firstn (List.length (countsRead (messageCountOffset (metadata l)) rest)) rest))
          with (Notified updatedData :: Settled 0 connection
                :: oneAtATime (firstn (List.length (countsRead (messageCountOffset (metadata l)) rest)) rest)).
        rewrite onAccountChange_one_at_a_time, Hcb.
        destruct (IH (counted l (Z.max (initialCount l) newCount)))
          as (H1 & H2 & H3 & H4).
        cbn [metadata counted initialCount] in H1, H2, H3, H4.
        cbn [Outcome.listener Outcome.waiting Outcome.printed Outcome.ended].
        split; [exact H1|]. split; [exact H2|]. split.
        * rewrite H3. split; intros H; lia.
        * rewrite H4. reflexivity.
      + assert (Hr : exists e', readUInt32LE updatedData
                                  (messageCountOffset (metadata l)) = Throw e').
        { unfold accountChangeCallback in Hcb.
          destruct (readUInt32LE updatedData (messageCountOffset (metadata l)))
            as [newCount|e']; [|now exists e'].
          simpl in Hcb. destruct (initialCount l <? newCount); discriminate. }
        destruct Hr as [e' Hr]. rewrite Hr. simpl.
        repeat split; try reflexivity; try discriminate. }
  destruct Hmain as (H1 & H2 & H3 & H4).
  split; [exact H1|]. split; [exact H2|].
  split; [rewrite H2; apply fold_left_max_ge|].
  split; [exact H3|]. split; [exact H4|].
  intros connection connection' first second a b Ha Hb Hla Hab.
  cbn [onAccountChange deliver]. rewrite Ha. cbn [cbind].
  replace (initialCount l <? a) with true by (symmetry; apply Z.ltb_lt; lia).
  cbn [onAccountChange deliver]. rewrite Hb. cbn [cbind].
  replace (initialCount l <? b) with true by (symmetry; apply Z.ltb_lt; lia).
  reflexivity.
Qed.

(** Three notifications one at a time, the second unreadable: the third
    is not answered. *)
Example listener_over_three_notifications :
  onAccountChange Demo.decryptMessage Ledger.listener []
    (oneAtATime [(Ledger.newestFirst, Ledger.threadData 3);
                 (Ledger.newestFirst, []);
                 (Ledger.newestFirst, Ledger.threadData 4)])
  = {| Outcome.listener := counted Ledger.listener 3;
       Outcome.waiting := [];
       Outcome.printed := [NewReceived true; Content true Ledger.third];
       Outcome.ended := Some RangeError |}.
Proof. vm_compute. reflexivity. Qed.

(** Two overlapping callbacks, the later settling first: both fetch from
    index 1, and the counter ends on 2 after 3 was written. *)
Example overlapping_callbacks_lower_the_counter :
  onAccountChange Demo.decryptMessage Ledger.listener []
    [Notified (Ledger.threadData 2); Notified (Ledger.threadData 3);
     Settled 1 Ledger.newestFirst; Settled 0 Ledger.newestFirst]
  = {| Outcome.listener := counted Ledger.listener 2;
       Outcome.waiting := [];
       Outcome.printed :=
         [NewReceived true; NewReceived true;
          Content true Ledger.third; Content true Ledger.third];
       Outcome.ended := None |}.
Proof. vm_compute. reflexivity. Qed.

(** X7. A notification that repeats is answered once: after the
    callback has run on some account bytes, running it again on the same
    bytes, on any state of the ledger, prints nothing and changes
    nothing. *)
Theorem repeated_notification_prints_nothing
    (decryptMessage : Buffer -> string -> Completion string)
    (connection connection' : Connection) (l l' : Listener) (updatedData : Buffer)
    (printed : list Console) :
  accountChangeCallback decryptMessage connection l updatedData = Return (l', printed) ->
  accountChangeCallback decryptMessage connection' l' updatedData = Return (l', []).
Proof.
  intros H. apply accountChangeCallback_state in H as (newCount & Hr & -> & _).
  unfold accountChangeCallback. cbn [metadata counted initialCount].
  rewrite Hr. simpl.
  replace (Z.max (initialCount l) newCount <? newCount) with false
    by (symmetry; apply Z.ltb_ge; lia).
  reflexivity.
Qed.

Lemma repeated_notification_prints_nothing_witness :
  accountChangeCallback Demo.decryptMessage Ledger.oldestFirst
    (counted Ledger.listener 3) (Ledger.threadData 3)
  = Return (counted Ledger.listener 3, []).
Proof.
  apply (repeated_notification_prints_nothing Demo.decryptMessage Ledger.newestFirst
           Ledger.oldestFirst Ledger.listener (counted Ledger.listener 3)
           (Ledger.threadData 3) [NewReceived true; Content true Ledger.third]).
  vm_compute. reflexivity.
Defined.

(** X8. When both a thread and a channel address are given to listen,
    the channel is ignored: the command runs as without it, and the
    listener it starts is a thread listener reading the count at offset
    104 with the thread message tag. *)
Theorem listen_prefers_the_thread (connection : Connection) (options : Options.t)
    (c : ascii) (rest : string) :
  Options.thread options = Some (String c rest) ->
  monitorPdaUpdates connection options
  = monitorPdaUpdates connection
      {| Options.thread := Options.thread options; Options.channel := None;
         Options.key := Options.key options;
         Options.message := Options.message options |} /\
  forall l,
    monitorPdaUpdates connection options = Return l ->
    isThread l = true /\
    type (metadata l) = thread /\
    messageCountOffset (metadata l) = 104%nat /\
    discriminator (metadata l) = Buffer_from_hex DISCRIMINATORS.sendMessage.
Proof.
  intros Ht. unfold monitorPdaUpdates. simpl. rewrite Ht. split; [reflexivity|].
  intros l.
  destruct (address (Some (String c rest))) as [targetPDA|]; [|discriminate].
  simpl. unfold fetchAccountCount, _fetchAccountData.
  destruct (getAccountInfo connection targetPDA) as [[accountInfo|]|];
    try discriminate.
  simpl.
  destruct (readUInt32LE (data accountInfo) 104) as [n|]; [|discriminate].
  simpl. intros H. injection H as <-. repeat split; reflexivity.
Qed.

Lemma listen_prefers_the_thread_witness :
  exists l,
    monitorPdaUpdates Ledger.newestFirst
      {| Options.thread := Some Ledger.threadAddress;
         Options.channel := Some Ledger.channelAddress;
         Options.key := None; Options.message := "" |} = Return l /\
    isThread l = true /\ initialCount l = 3.
Proof.
  eexists. split; [vm_compute; reflexivity|].
  split; [|reflexivity].
  eapply (listen_prefers_the_thread Ledger.newestFirst
            {| Options.thread := Some Ledger.threadAddress;
               Options.channel := Some Ledger.channelAddress;
               Options.key := None; Options.message := "" |}).
  - vm_compute. reflexivity.
  - vm_compute. reflexivity.
Defined.

(* ------------------------------------------------------------------ *)
(** ** Where entries come from *)

Lemma instruction_body_pushed_inv
    (decryptMessage : Buffer -> string -> Completion string)
    sigInfo tx message DISC secret k ix m :
  In m (pushed (instruction_body decryptMessage sigInfo tx message DISC secret k ix)) ->
  matchingInstruction message ix DISC = Return true /\
  readUInt32LE (Ix.data ix) 8 = Return (Msg.index m) /\
  k <= Msg.index m /\
  exists contentLength sender,
    readUInt32LE (Ix.data ix) 12 = Return contentLength /\
    decryptMessage (slice (Ix.data ix) 16 (16 + contentLength)) secret
    = Return (Msg.content m) /\
    senderOf message ix = Return sender /\
    Msg.sender m = toBase58 sender /\
    Msg.timestamp m = blockTime tx /\
    Msg.signature m = Some (signature sigInfo).
Proof.
  unfold pushed, instruction_body, senderOf, cbind, bind, lift, try_catch, push, ret.
  destruct (matchingInstruction message ix DISC) as [[|]|]; cbn -[Z.add]; try tauto.
  destruct (readUInt32LE (Ix.data ix) 8) as [i|]; cbn -[Z.add]; try tauto.
  destruct (readUInt32LE (Ix.data ix) 12) as [c|]; cbn -[Z.add]; try tauto.
  destruct (Z.leb_spec k i); cbn -[Z.add]; try tauto.
  destruct (decryptMessage (slice (Ix.data ix) 16 (16 + c)) secret) as [plain|]
    eqn:Hdec; cbn -[Z.add]; try tauto.
  destruct (element (Ix.accountKeyIndexes ix) 1) as [senderIndex|]; cbn -[Z.add];
    try tauto.
  destruct (element (staticAccountKeys message) senderIndex) as [sender|];
    cbn -[Z.add]; try tauto.
  intros [<-|[]]. cbn -[Z.add]. repeat split; auto.
  exists c, sender. repeat split; auto.
Qed.

Lemma pushed_for_of_app {A} (body : A -> Scan unit) (a b : list A) :
  (forall x, append_only (body x)) ->
  pushed (for_of (a ++ b) body)
  = pushed (for_of a body)
    ++ match completion (for_of a body) with
       | Return _ => pushed (for_of b body)
       | Throw _ => []
       end.
Proof.
  intros Hb. induction a as [|x a IH]; simpl.
  - reflexivity.
  - rewrite !pushed_bind, completion_bind by auto using append_only_for_of.
    destruct (completion (body x)); [|now rewrite !app_nil_r].
    now rewrite IH, app_assoc.
Qed.

Lemma pushed_for_of_in {A} (body : A -> Scan unit) (l : list A) (m : Msg.t) :
  (forall x, append_only (body x)) ->
  In m (pushed (for_of l body)) ->
  exists x, In x l /\ In m (pushed (body x)).
Proof.
  intros Hb. induction l as [|x l IH]; simpl.
  - intros [].
  - rewrite pushed_bind by auto using append_only_for_of.
    intros H. apply in_app_or in H as [H|H].
    + exists x. auto.
    + destruct (completion (body x)); [|destruct H].
      destruct (IH H) as (y & Hy & Hm). exists y. auto.
Qed.

(** X9. Reconstruction invents nothing: every entry it returns stands
    for an instruction of a transaction that a listed reference resolves
    to, addressed to the program, longer than the tag and starting with
    it, whose header holds the entry's index, whose clamped ciphertext
    decrypts under the secret to the entry's content, and whose key 1 is
    the entry's sender; the entry carries that transaction's block time and
    that reference's signature, and its index is at least the starting
    index and below 2^32. *)
Theorem every_entry_comes_from_a_listed_instruction
    (decryptMessage : Buffer -> string -> Completion string)
    (connection : Connection) (metadata : AccountMetadata)
    (sharedSecret : string) (startingIndex : Z)
    (messages : list Msg.t) (m : Msg.t) :
  _fetchNewMessages decryptMessage connection metadata sharedSecret startingIndex
  = Return messages ->
  In m messages ->
  exists signatures sigInfo tx message instructions ix contentLength sender,
    getSignaturesForAddress connection (pda metadata) 1000 = Return signatures /\
    In sigInfo signatures /\
    getTransaction connection (signature sigInfo) = Return (Some tx) /\
    transaction tx = Some message /\
    compiledInstructions message = Some instructions /\
    In ix instructions /\
    nth_error (staticAccountKeys message) (Ix.programIdIndex ix) = Some PROGRAM_ID /\
    8 < len (Ix.data ix) /\
    firstn 8 (Ix.data ix) = discriminator metadata /\
    readUInt32LE (Ix.data ix) 8 = Return (Msg.index m) /\
    readUInt32LE (Ix.data ix) 12 = Return contentLength /\
    startingIndex <= Msg.index m < 2 ^ 32 /\
    decryptMessage (slice (Ix.data ix) 16 (16 + contentLength)) sharedSecret
    = Return (Msg.content m) /\
    senderOf message ix = Return sender /\
    Msg.sender m = toBase58 sender /\
    Msg.timestamp m = blockTime tx /\
    Msg.signature m = Some (signature sigInfo).
Proof.
  intros Hrun Hin.
  destruct (getSignaturesForAddress connection (pda metadata) 1000)
    as [signatures|e] eqn:Hl;
    [|unfold _fetchNewMessages in Hrun; rewrite Hl in Hrun; discriminate].
  rewrite (_fetchNewMessages_listed decryptMessage _ _ _ _ _ Hl) in Hrun.
  injection Hrun as <-.
  apply (Permutation_in _ (Array_sort_perm by_index _)) in Hin.
  apply in_flat_map in Hin as (sigInfo & Hs & Hm).
  rewrite entries_of_cases in Hm.
  destruct (getTransaction connection (signature sigInfo)) as [[tx|]|] eqn:Hg;
    try destruct Hm.
  destruct (transaction tx) as [message|] eqn:Ht; [|destruct Hm].
  destruct (compiledInstructions message) as [instructions|] eqn:Hc; [|destruct Hm].
  apply pushed_for_of_in in Hm as (ix & Hix & Hm);
    [|intros; apply append_only_instruction_body].
  apply instruction_body_pushed_inv in Hm
    as (Hsel & H8 & Hk & contentLength & sender & H12 & Hdec & Hsender & Hrest).
  pose proof (matchingInstruction_selected _ _ _ Hsel) as (Hp & Hlen & Hfirst).
  pose proof (readUInt32LE_range _ _ _ H8) as Hrange.
  exists signatures, sigInfo, tx, message, instructions, ix, contentLength, sender.
  repeat split; try assumption; try tauto; try lia.
Qed.

Lemma every_entry_comes_from_a_listed_instruction_witness :
  exists signatures sigInfo tx message instructions ix contentLength sender,
    getSignaturesForAddress Ledger.newestFirst (pda Ledger.threadMetadata) 1000
    = Return signatures /\
    In sigInfo signatures /\
    getTransaction Ledger.newestFirst (signature sigInfo) = Return (Some tx) /\
    transaction tx = Some message /\
    compiledInstructions message = Some instructions /\
    In ix instructions /\
    nth_error (staticAccountKeys message) (Ix.programIdIndex ix) = Some PROGRAM_ID /\
    8 < len (Ix.data ix) /\
    firstn 8 (Ix.data ix) = discriminator Ledger.threadMetadata /\
    readUInt32LE (Ix.data ix) 8 = Return (Msg.index Ledger.third) /\
    readUInt32LE (Ix.data ix) 12 = Return contentLength /\
    0 <= Msg.index Ledger.third < 2 ^ 32 /\
    Demo.decryptMessage (slice (Ix.data ix) 16 (16 + contentLength)) "mykey"
    = Return (Msg.content Ledger.third) /\
    senderOf message ix = Return sender /\
    Msg.sender Ledger.third = toBase58 sender /\
    Msg.timestamp Ledger.third = blockTime tx /\
    Msg.signature Ledger.third = Some (signature sigInfo).
Proof.
  apply (every_entry_comes_from_a_listed_instruction Demo.decryptMessage
           Ledger.newestFirst Ledger.threadMetadata "mykey" 0
           [Ledger.first; Ledger.second; Ledger.third] Ledger.third).
  - vm_compute. reflexivity.
  - simpl. tauto.
Defined.

(** X10. An instruction that cannot be read ends the scan of its
    transaction: when the program index of an instruction names no static
    key, or a selected payload is shorter than its 16-byte header, the
    entries of the reference are those pushed before it, and no later
    instruction of the transaction is looked at. *)
Theorem unreadable_instruction_ends_its_transaction
    (decryptMessage : Buffer -> string -> Completion string)
    (connection : Connection) (DISCRIMINATOR : Buffer) (sharedSecret : string)
    (startingIndex : Z) (sigInfo : ConfirmedSignatureInfo)
    (tx : TransactionResponse) (message : VersionedMessage)
    (before after : list Ix.t) (ix : Ix.t) :
  getTransaction connection (signature sigInfo) = Return (Some tx) ->
  transaction tx = Some message ->
  compiledInstructions message = Some (before ++ ix :: after) ->
  nth_error (staticAccountKeys message) (Ix.programIdIndex ix) = None \/
  (matchingInstruction message ix DISCRIMINATOR = Return true /\
   len (Ix.data ix) < 16) ->
  entries_of decryptMessage connection DISCRIMINATOR sharedSecret startingIndex sigInfo
  = pushed (for_of before
              (instruction_body decryptMessage sigInfo tx message DISCRIMINATOR
                 sharedSecret startingIndex)).
Proof.
  intros Hg Ht Hc Hbad.
  rewrite (entries_of_resolved decryptMessage _ _ _ _ _ _ _ _ Hg Ht Hc).
  rewrite pushed_for_of_app by (intros; apply append_only_instruction_body).
  destruct (completion (for_of before _)); [|apply app_nil_r].
  assert (Hthrow :
    exists e, instruction_body decryptMessage sigInfo tx message DISCRIMINATOR
                sharedSecret startingIndex ix [] = (Throw e, [])).
  { unfold instruction_body, bind, lift.
    destruct Hbad as [Hnone|[Hsel Hshort]].
    - unfold matchingInstruction, element. rewrite Hnone. simpl. eauto.
    - rewrite Hsel.
      destruct (readUInt32LE (Ix.data ix) 8) as [i|e8] eqn:H8; [|eauto].
      destruct (Nat.le_gt_cases 16 (List.length (Ix.data ix))) as [H|H];
        [unfold len in Hshort; lia|].
      rewrite (readUInt32LE_out_of_bounds (Ix.data ix) 12) by lia. eauto. }
  destruct Hthrow as [e He].
  simpl. rewrite pushed_bind
    by (intros; auto using append_only_instruction_body, append_only_for_of).
  unfold pushed at 2, completion. rewrite He. simpl. now rewrite app_nil_r.
Qed.

Lemma unreadable_instruction_ends_its_transaction_witness :
  entries_of Demo.decryptMessage Ledger.newestFirst Ledger.sendMessageTag "mykey" 0
    {| signature := "sigE" |} = [].
Proof.
  apply (unreadable_instruction_ends_its_transaction Demo.decryptMessage
           Ledger.newestFirst Ledger.sendMessageTag "mykey" 0 {| signature := "sigE" |}
           (Ledger.txOf Ledger.bob [Ledger.truncated; Ledger.send 5 "sixth"] 1700000500)
           {| staticAccountKeys := Ledger.keysOf Ledger.bob;
              compiledInstructions :=
                Some [Ledger.truncated; Ledger.send 5 "sixth"] |}
           [] [Ledger.send 5 "sixth"] Ledger.truncated).
  - reflexivity.
  - reflexivity.
  - reflexivity.
  - right. split; [reflexivity|reflexivity].
Defined.

Lemma Array_sort_same_index (i : Z) (l : list Msg.t) :
  Forall (fun m => Msg.index m = i) l -> Array_sort by_index l = l.
Proof.
  induction 1 as [|x l Hx Hl IH]; simpl; [reflexivity|].
  rewrite IH. apply sort_insert_front.
  eapply Forall_impl; [|exact Hl]. unfold index_le. intros a Ha. lia.
Qed.

(** X11. Entries that share an index are returned in the order the scan
    met them: listing order first, instruction order within a
    transaction. *)
Theorem equal_indices_keep_scan_order
    (decryptMessage : Buffer -> string -> Completion string)
    (connection : Connection) (metadata : AccountMetadata)
    (sharedSecret : string) (startingIndex : Z)
    (signatures : list ConfirmedSignatureInfo) :
  getSignaturesForAddress connection (pda metadata) 1000 = Return signatures ->
  exists messages,
    _fetchNewMessages decryptMessage connection metadata sharedSecret startingIndex
    = Return messages /\
    forall i,
      filter (fun m => Msg.index m =? i) messages
      = filter (fun m => Msg.index m =? i)
          (flat_map (entries_of decryptMessage connection (discriminator metadata)
                       sharedSecret startingIndex) signatures).
Proof.
  intros Hl. eexists.
  split; [apply (_fetchNewMessages_listed decryptMessage _ _ _ _ _ Hl)|].
  intros i. rewrite <- Array_sort_filter.
  apply Array_sort_same_index with i.
  apply Forall_forall. intros m Hm. apply filter_In in Hm as [_ Hm].
  now apply Z.eqb_eq.
Qed.

Lemma equal_indices_keep_scan_order_witness :
  exists messages,
    _fetchNewMessages Demo.decryptMessage (Ledger.listing ["sigC"; "sigR"; "sigB"])
      Ledger.threadMetadata "mykey" 0 = Return messages /\
    filter (fun m => Msg.index m =? 1) messages = [Ledger.secondAgain; Ledger.second].
Proof.
  destruct (equal_indices_keep_scan_order Demo.decryptMessage
              (Ledger.listing ["sigC"; "sigR"; "sigB"]) Ledger.threadMetadata "mykey" 0
              (map (fun s => {| signature := s |}) ["sigC"; "sigR"; "sigB"]))
    as (messages & Hrun & Horder).
  - reflexivity.
  - exists messages. split; [exact Hrun|]. rewrite Horder. vm_compute. reflexivity.
Defined.

(* ------------------------------------------------------------------ *)
(** ** When the commands fail *)

Lemma readUInt32LE_returns_iff (buf : Buffer) (offset : nat) :
  (exists n, readUInt32LE buf offset = Return n) <->
  (offset + 4 <= List.length buf)%nat.
Proof.
  split.
  - intros [n H]. destruct (Nat.le_gt_cases (offset + 4) (List.length buf)) as [Hl|Hl];
      [exact Hl|].
    rewrite readUInt32LE_out_of_bounds in H by lia. discriminate.
  - intros H. eexists. now apply readUInt32LE_in_bounds.
Qed.

Lemma new_PublicKey_slice_length (buf : Buffer) (s : Z) :
  0 <= s -> List.length (new_PublicKey (slice buf s (s + 32))) = 32%nat.
Proof.
  intros Hs. unfold new_PublicKey, PUBLIC_KEY_LENGTH.
  assert (Hle : (List.length (slice buf s (s + 32)) <= 32)%nat).
  { unfold slice. rewrite length_firstn. pose proof (len_nonneg buf). lia. }
  rewrite length_app, repeat_length. lia.
Qed.

(** X12. [_fetchAccountData] fails only for a missing account or, for a
    channel, for bytes too short to hold the name length: on a thread it
    returns whatever the bytes are, the participants being padded to 32
    bytes. What it returns echoes the address, type and bytes it was given
    and carries an 8-byte tag. *)
Theorem _fetchAccountData_returns_iff (connection : Connection) (address : PublicKey)
    (accountType : AccountType) :
  ((exists r, _fetchAccountData connection address accountType = Return r) <->
   exists accountInfo,
     getAccountInfo connection address = Return (Some accountInfo) /\
     (accountType = channel -> (44 <= List.length (data accountInfo))%nat)) /\
  (getAccountInfo connection address = Return None ->
   exists msg, _fetchAccountData connection address accountType = Throw (Error msg)) /\
  (forall metadata accountData,
     _fetchAccountData connection address accountType = Return (metadata, accountData) ->
     getAccountInfo connection address = Return (Some {| data := accountData |}) /\
     pda metadata = address /\ type metadata = accountType /\
     List.length (discriminator metadata) = 8%nat /\
     forall k,
       participantA metadata = Some k \/ participantB metadata = Some k \/
       owner metadata = Some k ->
       List.length k = 32%nat).
Proof.
  unfold _fetchAccountData.
  destruct (getAccountInfo connection address) as [[[accountData]|]|e]; simpl.
  - destruct accountType.
    + split; [|split].
      * split; [intros _; eexists; split; [reflexivity|discriminate]|].
        intros _. eexists. reflexivity.
      * discriminate.
      * intros metadata d H. injection H as <- <-. simpl.
        repeat split; try reflexivity.
        intros k [H|[H|H]]; try discriminate; injection H as <-.
        -- apply (new_PublicKey_slice_length accountData 8). lia.
        -- apply (new_PublicKey_slice_length accountData 40). lia.
    + destruct (readUInt32LE accountData 40) as [nameLen|e] eqn:Hr; simpl.
      * assert (Hlen : (44 <= List.length accountData)%nat)
          by (apply (readUInt32LE_returns_iff accountData 40); eauto).
        split; [|split].
        -- split; [intros _; eexists; split; [reflexivity|auto]|].
           intros _. eexists. reflexivity.
        -- discriminate.
        -- intros metadata d H. injection H as <- <-. simpl.
           repeat split; try reflexivity.
           intros k [H|[H|H]]; try discriminate; injection H as <-.
           apply (new_PublicKey_slice_length accountData 8). lia.
      * split; [|split].
        -- split; [intros [r H]; discriminate|].
           intros (accountInfo & H & Hlen). injection H as <-. simpl in Hlen.
           specialize (Hlen eq_refl).
           rewrite readUInt32LE_in_bounds in Hr by lia. discriminate.
        -- discriminate.
        -- discriminate.
  - split; [|split].
    + split; [intros [r H]; discriminate|intros (a & H & _); discriminate].
    + intros _. eexists. reflexivity.
    + discriminate.
  - split; [|split].
    + split; [intros [r H]; discriminate|intros (a & H & _); discriminate].
    + discriminate.
    + discriminate.
Qed.

(** X13. Reading a thread succeeds exactly when the address is a valid
    base58 key, the account exists and holds at least 108 bytes, and the
    references can be listed. No transaction and no message can make the
    command fail. *)
Theorem readMessagesCommand_returns_iff
    (decryptMessage : Buffer -> string -> Completion string)
    (connection : Connection) (options : Options.t) :
  (exists r, readMessagesCommand decryptMessage connection options = Return r) <->
  exists threadPDA accountInfo signatures,
    address (Options.thread options) = Return threadPDA /\
    getAccountInfo connection threadPDA = Return (Some accountInfo) /\
    (108 <= List.length (data accountInfo))%nat /\
    getSignaturesForAddress connection threadPDA 1000 = Return signatures.
Proof.
  unfold readMessagesCommand, fetchAccountCount, _fetchAccountData, _fetchNewMessages.
  split.
  - intros [r H].
    destruct (address (Options.thread options)) as [threadPDA|]; [|discriminate].
    simpl in H.
    destruct (getAccountInfo connection threadPDA) as [[accountInfo|]|] eqn:Hg;
      try discriminate.
    simpl in H.
    destruct (readUInt32LE (data accountInfo) 104) as [n|] eqn:Hr; [|discriminate].
    simpl in H.
    destruct (getSignaturesForAddress connection threadPDA 1000) as [signatures|]
      eqn:Hl; [|discriminate].
    exists threadPDA, accountInfo, signatures. repeat split; auto.
    apply (readUInt32LE_returns_iff (data accountInfo) 104). eauto.
  - intros (threadPDA & accountInfo & signatures & Hp & Hg & Hlen & Hl).
    rewrite Hp. simpl. rewrite Hg. simpl.
    rewrite readUInt32LE_in_bounds by lia. simpl. rewrite Hl. simpl.
    eexists. reflexivity.
Qed.

(** X14. Reading a channel succeeds exactly when the address is a valid
    base58 key, the account exists and holds at least 80 bytes, and the
    references can be listed; in particular a channel account cut after a
    short name, before offset 80, cannot be read. *)
Theorem readBroadcastsCommand_returns_iff
    (decryptMessage : Buffer -> string -> Completion string)
    (connection : Connection) (options : Options.t) :
  (exists r, readBroadcastsCommand decryptMessage connection options = Return r) <->
  exists channelPDA accountInfo signatures,
    address (Options.channel options) = Return channelPDA /\
    getAccountInfo connection channelPDA = Return (Some accountInfo) /\
    (80 <= List.length (data accountInfo))%nat /\
    getSignaturesForAddress connection channelPDA 1000 = Return signatures.
Proof.
  unfold readBroadcastsCommand, fetchAccountCount, _fetchAccountData, _fetchNewMessages.
  split.
  - intros [r H].
    destruct (address (Options.channel options)) as [channelPDA|]; [|discriminate].
    simpl in H.
    destruct (getAccountInfo connection channelPDA) as [[accountInfo|]|] eqn:Hg;
      try discriminate.
    simpl in H.
    destruct (readUInt32LE (data accountInfo) 40) as [nameLen|]; [|discriminate].
    simpl in H.
    destruct (readUInt32LE (data accountInfo) 76) as [n|] eqn:Hr; [|discriminate].
    simpl in H.
    destruct (getSignaturesForAddress connection channelPDA 1000) as [signatures|]
      eqn:Hl; [|discriminate].
    exists channelPDA, accountInfo, signatures. repeat split; auto.
    apply (readUInt32LE_returns_iff (data accountInfo) 76). eauto.
  - intros (channelPDA & accountInfo & signatures & Hp & Hg & Hlen & Hl).
    rewrite Hp. simpl. rewrite Hg. simpl.
    rewrite (readUInt32LE_in_bounds (data accountInfo) 40) by lia. simpl.
    rewrite (readUInt32LE_in_bounds (data accountInfo) 76) by lia. simpl.
    rewrite Hl. simpl. eexists. reflexivity.
Qed.

(** X15. An empty [--key] counts as no key: send, read, send-broadcast,
    read-broadcasts and listen, the lines listen prints when it starts
    included, do what they do with the option left out. The cipher is given
    ["default-secret-key"] by send, read and listen and
    ["default-channel-key"] by send-broadcast and read-broadcasts, and
    listen, when it starts a listener, has printed the no-key warning and
    that the default is used. Only the empty key is treated so: a key of
    one character or more is the secret the send commands encrypt under
    and the listener decrypts under, and listen then prints no warning and
    that a key was provided. *)
Theorem empty_key_falls_back
    (encryptMessage : string -> string -> Buffer)
    (decryptMessage : Buffer -> string -> Completion string)
    (cluster : string) (connection : Connection) (wallet : PublicKey)
    (options : Options.t) :
  Options.key options = Some EmptyString ->
  (sendMessageCommand encryptMessage connection wallet options
   = sendMessageCommand encryptMessage connection wallet (without_key options) /\
   readMessagesCommand decryptMessage connection options
   = readMessagesCommand decryptMessage connection (without_key options) /\
   sendBroadcastCommand encryptMessage connection wallet options
   = sendBroadcastCommand encryptMessage connection wallet (without_key options) /\
   readBroadcastsCommand decryptMessage connection options
   = readBroadcastsCommand decryptMessage connection (without_key options) /\
   monitorPdaUpdates connection options
   = monitorPdaUpdates connection (without_key options) /\
   monitorPdaUpdates_logged cluster connection options
   = monitorPdaUpdates_logged cluster connection (without_key options)) /\
  (forall sent,
     sendMessageCommand encryptMessage connection wallet options = Return sent ->
     skipn 16 (TransactionInstruction.data sent)
     = encryptMessage (Options.message options) "default-secret-key") /\
  (forall metadata messageCount messages,
     readMessagesCommand decryptMessage connection options
     = Return (metadata, messageCount, messages) ->
     _fetchNewMessages decryptMessage connection metadata "default-secret-key" 0
     = Return messages) /\
  (forall sent,
     sendBroadcastCommand encryptMessage connection wallet options = Return sent ->
     skipn 16 (TransactionInstruction.data sent)
     = encryptMessage (Options.message options) "default-channel-key") /\
  (forall metadata messageCount messages,
     readBroadcastsCommand decryptMessage connection options
     = Return (metadata, messageCount, messages) ->
     _fetchNewMessages decryptMessage connection metadata "default-channel-key" 0
     = Return messages) /\
  (forall l,
     monitorPdaUpdates connection options = Return l ->
     sharedSecret l = "default-secret-key" /\
     fst (monitorPdaUpdates_logged cluster connection options)
     = [NoKeyWarning; ListeningFor (isThread l);
        TargetPDA (toBase58 (pda (metadata l))); Cluster cluster;
        DecryptionKey false; InitialCount (initialCount l)]) /\
  (forall c rest,
     (forall sent,
        sendMessageCommand encryptMessage connection wallet
          (with_key options (String c rest)) = Return sent ->
        skipn 16 (TransactionInstruction.data sent)
        = encryptMessage (Options.message options) (String c rest)) /\
     (forall sent,
        sendBroadcastCommand encryptMessage connection wallet
          (with_key options (String c rest)) = Return sent ->
        skipn 16 (TransactionInstruction.data sent)
        = encryptMessage (Options.message options) (String c rest)) /\
     (forall l,
        monitorPdaUpdates connection (with_key options (String c rest)) = Return l ->
        sharedSecret l = String c rest /\
        fst (monitorPdaUpdates_logged cluster connection
               (with_key options (String c rest)))
        = [ListeningFor (isThread l);
           TargetPDA (toBase58 (pda (metadata l))); Cluster cluster;
           DecryptionKey true; InitialCount (initialCount l)])).
Proof.
  intros Hk.
  split; [|split; [|split; [|split; [|split; [|split]]]]];
    [| | | | | |
     intros c rest; split; [|split];
     [intros sent H; apply sendMessageCommand_secret in H; exact H
     |intros sent H; apply sendBroadcastCommand_secret in H; exact H
     |intros l Hl;
      destruct (monitorPdaUpdates_started cluster connection
                  (with_key options (String c rest)) l Hl) as [Hs Hp];
      split; [exact Hs|exact Hp]]].
  - unfold sendMessageCommand, readMessagesCommand, sendBroadcastCommand,
      readBroadcastsCommand, monitorPdaUpdates, monitorPdaUpdates_logged,
      without_key.
    simpl. rewrite Hk. simpl.
    repeat split; reflexivity.
  - intros sent H. apply sendMessageCommand_secret in H.
    now rewrite Hk in H.
  - intros metadata messageCount messages H. apply readMessagesCommand_secret in H.
    now rewrite Hk in H.
  - intros sent H. apply sendBroadcastCommand_secret in H.
    now rewrite Hk in H.
  - intros metadata messageCount messages H. apply readBroadcastsCommand_secret in H.
    now rewrite Hk in H.
  - intros l Hl.
    destruct (monitorPdaUpdates_started cluster connection options l Hl) as [Hs Hp].
    rewrite Hk in Hs, Hp. split; [exact Hs|exact Hp].
Qed.

Lemma empty_key_falls_back_witness :
  (exists sent,
     sendBroadcastCommand Demo.encryptMessage Ledger.newestFirst Ledger.alice
       (with_key Plain.sendChannel "") = Return sent /\
     skipn 16 (TransactionInstruction.data sent)
     = Demo.encryptMessage "hello" "default-channel-key") /\
  (exists metadata,
     readMessagesCommand Demo.decryptMessage Plain.sentThread
       (with_key Ledger.readThread "")
     = Return (metadata, 1, [Ledger.entry 0 Ledger.alice "hello" 1700000800 "sigP"]) /\
     _fetchNewMessages Demo.decryptMessage Plain.sentThread metadata
       "default-secret-key" 0
     = Return [Ledger.entry 0 Ledger.alice "hello" 1700000800 "sigP"]) /\
  monitorPdaUpdates_logged "devnet" Ledger.newestFirst
    (with_key Ledger.listenChannel "")
  = monitorPdaUpdates_logged "devnet" Ledger.newestFirst Ledger.listenChannel.
Proof.
  split; [|split].
  - eexists. split; [vm_compute; reflexivity|].
    destruct (empty_key_falls_back Demo.encryptMessage Demo.decryptMessage "devnet"
                Ledger.newestFirst Ledger.alice (with_key Plain.sendChannel ""))
      as (_ & _ & _ & Hsend & _); [reflexivity|].
    apply Hsend. vm_compute. reflexivity.
  - eexists. split; [vm_compute; reflexivity|].
    destruct (empty_key_falls_back Demo.encryptMessage Demo.decryptMessage "devnet"
                Plain.sentThread Ledger.alice (with_key Ledger.readThread ""))
      as (_ & _ & Hread & _); [reflexivity|].
    eapply Hread. vm_compute. reflexivity.
  - destruct (empty_key_falls_back Demo.encryptMessage Demo.decryptMessage "devnet"
                Ledger.newestFirst Ledger.alice (with_key Ledger.listenChannel ""))
      as ((_ & _ & _ & _ & _ & Hlogged) & _); [reflexivity|].
    exact Hlogged.
Defined.

(* ------------------------------------------------------------------ *)
(** ** The send commands of the two builds *)

(** X16. The two builds send the same thread message: on every ledger,
    wallet and options [sendMessageCommand] of the cli2 build submits the
    instruction the cli submits, and fails when the cli fails. *)
Theorem Cli2_sendMessageCommand_agrees
    (encryptMessage : string -> string -> Buffer)
    (connection : Connection) (wallet : PublicKey) (options : Options.t) :
  match sendMessageCommand encryptMessage connection wallet options,
        Cli2Send.sendMessageCommand encryptMessage connection wallet options with
  | Return sent, Return sent' => sent' = sent
  | Throw _, Throw _ => True
  | _, _ => False
  end.
Proof.
  unfold sendMessageCommand, Cli2Send.sendMessageCommand, fetchAccountCount,
    _fetchAccountData.
  destruct (address (Options.thread options)) as [threadPDA|]; simpl; [|exact I].
  destruct (getAccountInfo connection threadPDA) as [[accountInfo|]|]; simpl;
    try exact I.
  destruct (readUInt32LE (data accountInfo) 104) as [n|]; simpl; [reflexivity|exact I].
Qed.

(** X17. The two builds send the same broadcast. The cli also reads the
    name length at offset 40 before the count at offset 76 and the cli2
    build reads the count alone, yet both fail on the same accounts: those
    shorter than 80 bytes. *)
Theorem Cli2_sendBroadcastCommand_agrees
    (encryptMessage : string -> string -> Buffer)
    (connection : Connection) (wallet : PublicKey) (options : Options.t) :
  match sendBroadcastCommand encryptMessage connection wallet options,
        Cli2Send.sendBroadcastCommand encryptMessage connection wallet options with
  | Return sent, Return sent' => sent' = sent
  | Throw _, Throw _ => True
  | _, _ => False
  end.
Proof.
  unfold sendBroadcastCommand, Cli2Send.sendBroadcastCommand, fetchAccountCount,
    _fetchAccountData.
  destruct (address (Options.channel options)) as [channelPDA|]; simpl; [|exact I].
  destruct (getAccountInfo connection channelPDA) as [[accountInfo|]|]; simpl;
    try exact I.
  destruct (readUInt32LE (data accountInfo) 40) as [nameLen|] eqn:Hn; simpl.
  - destruct (readUInt32LE (data accountInfo) 76) as [n|]; simpl; [reflexivity|exact I].
  - destruct (readUInt32LE (data accountInfo) 76) as [n|] eqn:Hr; simpl; [|exact I].
    assert (Hlen : (80 <= List.length (data accountInfo))%nat)
      by (apply (readUInt32LE_returns_iff (data accountInfo) 76); eauto).
    rewrite readUInt32LE_in_bounds in Hn by lia. discriminate.
Qed.

(* ------------------------------------------------------------------ *)
(** ** From a send to the next read and to the listener *)

Lemma flat_map_nil {A B} (f : A -> list B) (l : list A) :
  (forall x, In x l -> f x = []) -> flat_map f l = [].
Proof.
  induction l as [|x l IH]; intros H; simpl; [reflexivity|].
  rewrite (H x) by now left. apply IH. intros y Hy. apply H. now right.
Qed.

Lemma filter_nil {A} (p : A -> bool) (l : list A) :
  (forall x, In x l -> p x = false) -> filter p l = [].
Proof.
  induction l as [|x l IH]; intros H; simpl; [reflexivity|].
  rewrite (H x) by now left. apply IH. intros y Hy. apply H. now right.
Qed.

Lemma sorted_after (l1 l2 : list Msg.t) (x : Msg.t) :
  StronglySorted index_le (l1 ++ x :: l2) -> Forall (index_le x) l2.
Proof.
  induction l1 as [|y l1 IH]; simpl; intros H; inversion H; subst; auto.
Qed.

(** A sorted list holding one entry above all the others ends with it. *)
Lemma sorted_greatest_last (sorted others : list Msg.t) (x : Msg.t) :
  StronglySorted index_le sorted ->
  Permutation sorted (x :: others) ->
  Forall (fun m => Msg.index m < Msg.index x) others ->
  exists earlier,
    sorted = earlier ++ [x] /\ Forall (fun m => Msg.index m < Msg.index x) earlier.
Proof.
  intros Hs Hp Hlt.
  assert (Hin : In x sorted)
    by (eapply Permutation_in; [apply Permutation_sym; exact Hp|now left]).
  apply in_split in Hin as (l1 & l2 & ->).
  assert (Hrest : Permutation (l1 ++ l2) others).
  { apply Permutation_cons_inv with x.
    eapply perm_trans; [|exact Hp]. apply Permutation_middle. }
  assert (Hall : Forall (fun m => Msg.index m < Msg.index x) (l1 ++ l2))
    by (eapply Permutation_Forall; [apply Permutation_sym; exact Hrest|exact Hlt]).
  apply Forall_app in Hall as [H1 H2].
  apply sorted_after in Hs.
  destruct l2 as [|y l2].
  - exists l1. split; [reflexivity|exact H1].
  - inversion Hs; subst. inversion H2; subst. unfold index_le in *. lia.
Qed.

(** The scan, after a send, of a listing that holds the reference of the
    sent instruction among references whose entries all have a lower
    index. *)
Lemma entries_after_send
    (decryptMessage : Buffer -> string -> Completion string)
    (after : Connection) (DISC : Buffer) (secret : string) (k messageCount : Z)
    (encrypted : Buffer) (plain : string) (account wallet : PublicKey)
    (newer older : list ConfirmedSignatureInfo) (sigInfo : ConfirmedSignatureInfo)
    (tx : TransactionResponse) (message : VersionedMessage) (ix : Ix.t) :
  List.length DISC = 8%nat ->
  0 <= messageCount < 2 ^ 32 ->
  len encrypted < 2 ^ 32 ->
  decryptMessage encrypted secret = Return plain ->
  k <= messageCount ->
  getTransaction after (signature sigInfo) = Return (Some tx) ->
  transaction tx = Some message ->
  compiledInstructions message = Some [ix] ->
  compiled message ix
    {| TransactionInstruction.programId := PROGRAM_ID;
       TransactionInstruction.keys :=
         [ {| pubkey := account; isSigner := false; isWritable := true |};
           {| pubkey := wallet; isSigner := true; isWritable := false |} ];
       TransactionInstruction.data := appendData DISC messageCount encrypted |} ->
  flat_map (entries_of decryptMessage after DISC secret k) (newer ++ sigInfo :: older)
  = flat_map (entries_of decryptMessage after DISC secret k) newer
    ++ {| Msg.index := messageCount; Msg.sender := toBase58 wallet;
          Msg.content := plain; Msg.timestamp := blockTime tx;
          Msg.signature := Some (signature sigInfo) |}
       :: flat_map (entries_of decryptMessage after DISC secret k) older.
Proof.
  intros Hd Hc Hl Hdec Hk Hg Ht Hi Hcomp.
  rewrite flat_map_app. simpl. f_equal.
  rewrite (entries_of_resolved decryptMessage _ _ _ _ _ _ _ _ Hg Ht Hi).
  unfold pushed. simpl. unfold bind.
  rewrite (compiled_append_is_pushed decryptMessage sigInfo tx message ix DISC secret
             k messageCount encrypted plain account wallet [] Hd Hc Hl Hdec Hk Hcomp).
  reflexivity.
Qed.

(** What [sendMessageCommand] submits, and the account state it read. *)
Lemma sendMessageCommand_sent
    (encryptMessage : string -> string -> Buffer)
    (connection : Connection) (wallet : PublicKey) (options : Options.t)
    (sent : TransactionInstruction.t) :
  sendMessageCommand encryptMessage connection wallet options = Return sent ->
  exists threadPDA metadata accountData messageCount c rest,
    Options.thread options = Some (String c rest) /\
    address (Options.thread options) = Return threadPDA /\
    fetchAccountCount connection threadPDA thread
    = Return (metadata, accountData, messageCount) /\
    pda metadata = threadPDA /\
    messageCountOffset metadata = 104%nat /\
    discriminator metadata = Buffer_from_hex DISCRIMINATORS.sendMessage /\
    0 <= messageCount < 2 ^ 32 /\
    sent = {| TransactionInstruction.programId := PROGRAM_ID;
              TransactionInstruction.keys :=
                [ {| pubkey := threadPDA; isSigner := false; isWritable := true |};
                  {| pubkey := wallet; isSigner := true; isWritable := false |} ];
              TransactionInstruction.data :=
                appendData (Buffer_from_hex DISCRIMINATORS.sendMessage) messageCount
                  (encryptMessage (Options.message options)
                     (or_default (Options.key options) "default-secret-key")) |}.
Proof.
  intros Hsend. unfold sendMessageCommand in Hsend.
  destruct (Options.thread options) as [[|c rest]|] eqn:Ht;
    [vm_compute in Hsend; discriminate| |discriminate].
  destruct (address (Some (String c rest))) as [threadPDA|] eqn:Ha; [|discriminate].
  simpl in Hsend.
  destruct (fetchAccountCount connection threadPDA thread)
    as [[[metadata accountData] messageCount]|] eqn:Hf; [|discriminate].
  simpl in Hsend. injection Hsend as <-.
  exists threadPDA, metadata, accountData, messageCount, c, rest.
  split; [reflexivity|]. split; [first [exact Ha|reflexivity]|].
  split; [exact Hf|].
  unfold fetchAccountCount, _fetchAccountData in Hf.
  destruct (getAccountInfo connection threadPDA) as [[accountInfo|]|];
    try discriminate.
  simpl in Hf.
  destruct (readUInt32LE (data accountInfo) 104) as [n|] eqn:Hr; [|discriminate].
  simpl in Hf. injection Hf as <- _ <-.
  apply readUInt32LE_range in Hr. repeat split; try reflexivity; lia.
Qed.

(** X18. A sent message is the last entry of the next read: when the
    ledger then lists the reference of the submitted instruction among
    references whose entries all have a lower index than the count the
    send read, reconstruction from index 0 under the same key returns
    those earlier entries followed by the sent message, with the wallet as
    its sender. *)
Theorem sent_message_is_last_in_the_next_read
    (encryptMessage : string -> string -> Buffer)
    (decryptMessage : Buffer -> string -> Completion string)
    (before : Connection) (wallet : PublicKey) (options : Options.t)
    (sent : TransactionInstruction.t) :
  sendMessageCommand encryptMessage before wallet options = Return sent ->
  decryptMessage
    (encryptMessage (Options.message options)
       (or_default (Options.key options) "default-secret-key"))
    (or_default (Options.key options) "default-secret-key")
  = Return (Options.message options) ->
  len (encryptMessage (Options.message options)
         (or_default (Options.key options) "default-secret-key")) < 2 ^ 32 ->
  exists threadPDA metadata accountData messageCount,
    address (Options.thread options) = Return threadPDA /\
    fetchAccountCount before threadPDA thread
    = Return (metadata, accountData, messageCount) /\
    forall after newer older sigInfo tx message ix,
      getSignaturesForAddress after threadPDA 1000
      = Return (newer ++ sigInfo :: older) ->
      getTransaction after (signature sigInfo) = Return (Some tx) ->
      transaction tx = Some message ->
      compiledInstructions message = Some [ix] ->
      compiled message ix sent ->
      (forall s m,
         In s (newer ++ older) ->
         In m (entries_of decryptMessage after (discriminator metadata)
                 (or_default (Options.key options) "default-secret-key") 0 s) ->
         Msg.index m < messageCount) ->
      exists earlier,
        _fetchNewMessages decryptMessage after metadata
          (or_default (Options.key options) "default-secret-key") 0
        = Return
            (earlier
             ++ [{| Msg.index := messageCount; Msg.sender := toBase58 wallet;
                    Msg.content := Options.message options;
                    Msg.timestamp := blockTime tx;
                    Msg.signature := Some (signature sigInfo) |}]) /\
        Forall (fun m => Msg.index m < messageCount) earlier.
Proof.
  intros Hsend Hdec Hlen.
  destruct (sendMessageCommand_sent _ _ _ _ _ Hsend)
    as (threadPDA & metadata & accountData & messageCount & c & rest
        & _ & Ha & Hf & Hpda & _ & Hdisc & Hrange & ->).
  exists threadPDA, metadata, accountData, messageCount.
  split; [exact Ha|]. split; [exact Hf|].
  intros after newer older sigInfo tx message ix Hl Hg Ht Hi Hcomp Hlow.
  rewrite <- Hpda in Hl.
  rewrite (_fetchNewMessages_listed decryptMessage _ _ _ _ _ Hl).
  rewrite Hdisc in *.
  rewrite (entries_after_send decryptMessage after
             (Buffer_from_hex DISCRIMINATORS.sendMessage)
             (or_default (Options.key options) "default-secret-key") 0 messageCount
             (encryptMessage (Options.message options)
                (or_default (Options.key options) "default-secret-key"))
             (Options.message options) threadPDA wallet
             newer older sigInfo tx message ix);
    auto using Buffer_from_hex_sendMessage_length; try lia.
  match goal with
  | |- exists earlier, Return (Array_sort by_index (?A ++ ?x :: ?B)) = _ /\ _ =>
      destruct (sorted_greatest_last (Array_sort by_index (A ++ x :: B)) (A ++ B) x)
        as (earlier & Heq & Hall)
  end.
  - apply Array_sort_sorted.
  - eapply perm_trans; [apply Array_sort_perm|].
    apply Permutation_sym, Permutation_middle.
  - apply Forall_forall. intros m Hm. simpl.
    apply in_app_or in Hm.
    destruct Hm as [Hm|Hm]; apply in_flat_map in Hm as (s & Hs & Hm);
      apply (Hlow s m); auto; apply in_or_app; auto.
  - exists earlier. rewrite Heq. split; [reflexivity|exact Hall].
Qed.

Lemma sent_message_is_last_in_the_next_read_witness :
  exists earlier,
    _fetchNewMessages Demo.decryptMessage Later.ledger Ledger.threadMetadata "mykey" 0
    = Return (earlier ++ [Later.fourth]) /\
    Forall (fun m => Msg.index m < 3) earlier.
Proof.
  destruct (sent_message_is_last_in_the_next_read Demo.encryptMessage
              Demo.decryptMessage Ledger.newestFirst Ledger.bob Later.sendFourth
              {| TransactionInstruction.programId := PROGRAM_ID;
                 TransactionInstruction.keys :=
                   [ {| pubkey := Ledger.threadPDA; isSigner := false;
                        isWritable := true |};
                     {| pubkey := Ledger.bob; isSigner := true; isWritable := false |} ];
                 TransactionInstruction.data :=
                   appendData Ledger.sendMessageTag 3
                     (Demo.encryptMessage "fourth" "mykey") |})
    as (threadPDA & metadata & accountData & messageCount & Ha & Hf & Hnext).
  - vm_compute. reflexivity.
  - vm_compute. reflexivity.
  - vm_compute. reflexivity.
  - assert (Hpda : threadPDA = Ledger.threadPDA)
      by (vm_compute in Ha; now injection Ha).
    subst threadPDA.
    assert (Hmd : metadata = Ledger.threadMetadata /\ messageCount = 3)
      by (vm_compute in Hf; injection Hf as <- _ <-; split; reflexivity).
    destruct Hmd as [-> ->].
    apply (Hnext Later.ledger [{| signature := "sigI" |}]
             [{| signature := "sigC" |}; {| signature := "sigB" |}]
             {| signature := "sigN" |}
             (Ledger.txOf Ledger.bob [Ledger.send 3 "fourth"] 1700000700)
             {| staticAccountKeys := Ledger.keysOf Ledger.bob;
                compiledInstructions := Some [Ledger.send 3 "fourth"] |}
             (Ledger.send 3 "fourth")).
    + reflexivity.
    + reflexivity.
    + reflexivity.
    + reflexivity.
    + split; [reflexivity|]. split; [reflexivity|].
      repeat constructor.
    + intros s m [<-|[<-|[<-|[]]]] Hm; vm_compute in Hm.
      * destruct Hm.
      * destruct Hm as [<-|[]]. reflexivity.
      * destruct Hm as [<-|[<-|[]]]; reflexivity.
Defined.

(** X19. A sent message is what the listener shows: a listener started
    with the options of the send, on the account state the send read, and
    then notified of a larger counter while the ledger lists the reference
    of the submitted instruction among references whose entries all have a
    lower index than its last-observed counter, prints the banner and the
    sent message, with the last-observed counter as its index and the
    wallet as its sender. *)
Theorem sent_message_is_shown_by_the_listener
    (encryptMessage : string -> string -> Buffer)
    (decryptMessage : Buffer -> string -> Completion string)
    (before : Connection) (wallet : PublicKey) (options : Options.t)
    (sent : TransactionInstruction.t) (l : Listener) :
  sendMessageCommand encryptMessage before wallet options = Return sent ->
  decryptMessage
    (encryptMessage (Options.message options)
       (or_default (Options.key options) "default-secret-key"))
    (or_default (Options.key options) "default-secret-key")
  = Return (Options.message options) ->
  len (encryptMessage (Options.message options)
         (or_default (Options.key options) "default-secret-key")) < 2 ^ 32 ->
  monitorPdaUpdates before options = Return l ->
  forall after newer older sigInfo tx message ix updatedData newCount,
    getSignaturesForAddress after (pda (metadata l)) 1000
    = Return (newer ++ sigInfo :: older) ->
    getTransaction after (signature sigInfo) = Return (Some tx) ->
    transaction tx = Some message ->
    compiledInstructions message = Some [ix] ->
    compiled message ix sent ->
    (forall s m,
       In s (newer ++ older) ->
       In m (entries_of decryptMessage after (discriminator (metadata l))
               (sharedSecret l) 0 s) ->
       Msg.index m < initialCount l) ->
    readUInt32LE updatedData 104 = Return newCount ->
    initialCount l < newCount ->
    accountChangeCallback decryptMessage after l updatedData
    = Return (counted l newCount,
              [NewReceived true;
               Content true
                 {| Msg.index := initialCount l; Msg.sender := toBase58 wallet;
                    Msg.content := Options.message options;
                    Msg.timestamp := blockTime tx;
                    Msg.signature := Some (signature sigInfo) |}]).
Proof.
  intros Hsend Hdec Hlen Hmon.
  destruct (sendMessageCommand_sent _ _ _ _ _ Hsend)
    as (threadPDA & md & accountData & messageCount & c & rest
        & Hthread & Ha & Hf & Hpda & Hoff & Hdisc & Hrange & ->).
  assert (Hl : l = {| isThread := true; metadata := md;
                      sharedSecret :=
                        or_default (Options.key options) "default-secret-key";
                      initialCount := messageCount |}).
  { unfold monitorPdaUpdates in Hmon. rewrite Hthread in Hmon, Ha.
    rewrite Ha in Hmon. simpl in Hmon. rewrite Hf in Hmon. simpl in Hmon.
    now injection Hmon. }
  subst l.
  intros after newer older sigInfo tx message ix updatedData newCount
    Hlist Hg Ht Hi Hcomp Hlow Hread Hnew.
  cbn [metadata sharedSecret initialCount isThread] in *.
  assert (Hfetch :
    _fetchNewMessages decryptMessage after md
      (or_default (Options.key options) "default-secret-key") messageCount
    = Return [{| Msg.index := messageCount; Msg.sender := toBase58 wallet;
                 Msg.content := Options.message options;
                 Msg.timestamp := blockTime tx;
                 Msg.signature := Some (signature sigInfo) |}]).
  { rewrite (_fetchNewMessages_listed decryptMessage _ _ _ _ _ Hlist).
    rewrite Hdisc in *.
    rewrite (entries_after_send decryptMessage after
               (Buffer_from_hex DISCRIMINATORS.sendMessage)
               (or_default (Options.key options) "default-secret-key")
               messageCount messageCount
               (encryptMessage (Options.message options)
                  (or_default (Options.key options) "default-secret-key"))
               (Options.message options) threadPDA wallet
               newer older sigInfo tx message ix);
      auto using Buffer_from_hex_sendMessage_length; try lia.
    assert (Hnone : forall s, In s (newer ++ older) ->
              entries_of decryptMessage after
                (Buffer_from_hex DISCRIMINATORS.sendMessage)
                (or_default (Options.key options) "default-secret-key")
                messageCount s = []).
    { intros s Hs. rewrite entries_of_starting_index. apply filter_nil.
      intros m Hm. apply Z.leb_gt. now apply (Hlow s m). }
    rewrite !flat_map_nil
      by (intros s Hs; apply Hnone; apply in_or_app; auto).
    reflexivity. }
  unfold accountChangeCallback, counted.
  cbn [metadata sharedSecret initialCount isThread].
  rewrite Hoff, Hread. simpl cbind.
  apply Z.ltb_lt in Hnew. rewrite Hnew, Hfetch. reflexivity.
Qed.

Lemma sent_message_is_shown_by_the_listener_witness :
  accountChangeCallback Demo.decryptMessage Later.ledger
    (counted Ledger.listener 3) (Ledger.threadData 4)
  = Return (counted Ledger.listener 4, [NewReceived true; Content true Later.fourth]).
Proof.
  apply (sent_message_is_shown_by_the_listener Demo.encryptMessage
           Demo.decryptMessage Ledger.newestFirst Ledger.bob Later.sendFourth
           {| TransactionInstruction.programId := PROGRAM_ID;
              TransactionInstruction.keys :=
                [ {| pubkey := Ledger.threadPDA; isSigner := false;
                     isWritable := true |};
                  {| pubkey := Ledger.bob; isSigner := true; isWritable := false |} ];
              TransactionInstruction.data :=
                appendData Ledger.sendMessageTag 3
                  (Demo.encryptMessage "fourth" "mykey") |}
           (counted Ledger.listener 3)
           ltac:(vm_compute; reflexivity) ltac:(vm_compute; reflexivity)
           ltac:(vm_compute; reflexivity) ltac:(vm_compute; reflexivity)
           Later.ledger [{| signature := "sigI" |}]
           [{| signature := "sigC" |}; {| signature := "sigB" |}]
           {| signature := "sigN" |}
           (Ledger.txOf Ledger.bob [Ledger.send 3 "fourth"] 1700000700)
           {| staticAccountKeys := Ledger.keysOf Ledger.bob;
              compiledInstructions := Some [Ledger.send 3 "fourth"] |}
           (Ledger.send 3 "fourth") (Ledger.threadData 4) 4).
  - reflexivity.
  - reflexivity.
  - reflexivity.
  - reflexivity.
  - split; [reflexivity|]. split; [reflexivity|]. repeat constructor.
  - intros s m [<-|[<-|[<-|[]]]] Hm; vm_compute in Hm.
    + destruct Hm.
    + destruct Hm as [<-|[]]. reflexivity.
    + destruct Hm as [<-|[<-|[]]]; reflexivity.
  - reflexivity.
  - reflexivity.
Defined.

(** X20. What the send commands submit is well-formed for the scan: the
    payload is the 8-byte tag, the index, the content length and the
    ciphertext and nothing more, so the declared content length is exactly
    the number of bytes that follow the 16-byte header. *)
Theorem sent_payload_declares_its_length
    (encryptMessage : string -> string -> Buffer)
    (connection : Connection) (wallet : PublicKey) (options : Options.t)
    (sent : TransactionInstruction.t) :
  sendMessageCommand encryptMessage connection wallet options = Return sent \/
  sendBroadcastCommand encryptMessage connection wallet options = Return sent ->
  len (skipn 16 (TransactionInstruction.data sent)) < 2 ^ 32 ->
  readUInt32LE (TransactionInstruction.data sent) 12
  = Return (len (TransactionInstruction.data sent) - 16) /\
  slice (TransactionInstruction.data sent) 16
    (16 + (len (TransactionInstruction.data sent) - 16))
  = skipn 16 (TransactionInstruction.data sent) /\
  exists secret,
    skipn 16 (TransactionInstruction.data sent)
    = encryptMessage (Options.message options) secret.
Proof.
  intros Hsent.
  assert (Hform : exists DISC n secret,
            List.length DISC = 8%nat /\
            TransactionInstruction.data sent
            = appendData DISC n (encryptMessage (Options.message options) secret)).
  { destruct Hsent as [H|H].
    - unfold sendMessageCommand in H.
      destruct (address (Options.thread options)) as [p|]; [|discriminate].
      simpl in H.
      destruct (fetchAccountCount connection p thread) as [[[md d] n]|];
        [|discriminate].
      simpl in H. injection H as <-. simpl. eexists _, n, _.
      split; [|reflexivity]. reflexivity.
    - unfold sendBroadcastCommand in H.
      destruct (address (Options.channel options)) as [p|]; [|discriminate].
      simpl in H.
      destruct (fetchAccountCount connection p channel) as [[[md d] n]|];
        [|discriminate].
      simpl in H. injection H as <-. simpl. eexists _, n, _.
      split; [|reflexivity]. reflexivity. }
  destruct Hform as (DISC & n & secret & Hd & ->).
  set (encrypted := encryptMessage (Options.message options) secret).
  assert (Hskip : skipn 16 (appendData DISC n encrypted) = encrypted).
  { unfold appendData. rewrite !app_assoc. rewrite skipn_app.
    rewrite skipn_all2 by (rewrite !length_app, Hd; simpl; lia).
    rewrite !length_app, Hd. reflexivity. }
  rewrite Hskip. intros Hlen.
  assert (Hl : len (appendData DISC n encrypted) - 16 = len encrypted)
    by (unfold len; rewrite appendData_length; lia).
  rewrite Hl. split; [now apply appendData_contentLength|].
  split; [now apply appendData_ciphertext|].
  exists secret. reflexivity.
Qed.

Lemma sent_payload_declares_its_length_witness :
  exists sent,
    sendMessageCommand Demo.encryptMessage Ledger.newestFirst Ledger.bob
      Later.sendFourth = Return sent /\
    readUInt32LE (TransactionInstruction.data sent) 12 = Return 16 /\
    len (TransactionInstruction.data sent) = 32.
Proof.
  eexists. split; [vm_compute; reflexivity|].
  split; [|vm_compute; reflexivity].
  eapply eq_trans.
  - eapply (sent_payload_declares_its_length Demo.encryptMessage Ledger.newestFirst
              Ledger.bob Later.sendFourth).
    + left. vm_compute. reflexivity.
    + vm_compute. reflexivity.
  - vm_compute. reflexivity.
Defined.

(** X21. Whatever command builds an instruction, the instruction is
    addressed to the program, its first account is writable and signs
    nothing, and the wallet is its one signer: no command asks for a
    signature of the recipient, of the refund account or of a derived
    address. *)
Theorem wallet_is_the_only_signer
    (encryptMessage : string -> string -> Buffer)
    (findProgramAddressSync : list Buffer -> PublicKey -> Completion (PublicKey * nat))
    (connection : Connection) (wallet : PublicKey) (threadId : Buffer)
    (options : Options.t) (admin : AdminOptions.t)
    (sent : TransactionInstruction.t) :
  sendMessageCommand encryptMessage connection wallet options = Return sent \/
  sendBroadcastCommand encryptMessage connection wallet options = Return sent \/
  initThreadCommand findProgramAddressSync wallet threadId admin = Return sent \/
  createChannelCommand findProgramAddressSync wallet admin = Return sent \/
  subscribeChannelCommand findProgramAddressSync wallet admin = Return sent \/
  closeThreadCommand wallet admin = Return sent \/
  closeChannelCommand wallet admin = Return sent ->
  TransactionInstruction.programId sent = PROGRAM_ID /\
  map pubkey (filter isSigner (TransactionInstruction.keys sent)) = [wallet] /\
  exists target rest,
    TransactionInstruction.keys sent
    = {| pubkey := target; isSigner := false; isWritable := true |} :: rest.
Proof.
  intros [H|[H|[H|[H|[H|[H|H]]]]]].
  - unfold sendMessageCommand in H.
    destruct (address (Options.thread options)) as [p|]; [|discriminate].
    simpl in H.
    destruct (fetchAccountCount connection p thread) as [[[md d] n]|];
      [|discriminate].
    simpl in H. injection H as <-. simpl. repeat split. now eexists _, _.
  - unfold sendBroadcastCommand in H.
    destruct (address (Options.channel options)) as [p|]; [|discriminate].
    simpl in H.
    destruct (fetchAccountCount connection p channel) as [[[md d] n]|];
      [|discriminate].
    simpl in H. injection H as <-. simpl. repeat split. now eexists _, _.
  - unfold initThreadCommand in H.
    destruct (address (AdminOptions.recipient admin)) as [p|]; [|discriminate].
    simpl in H.
    destruct (deriveThreadPDA findProgramAddressSync wallet p threadId)
      as [[q b]|]; [|discriminate].
    simpl in H. injection H as <-. simpl. repeat split. now eexists _, _.
  - unfold createChannelCommand in H.
    destruct (deriveChannelPDA findProgramAddressSync wallet (AdminOptions.name admin))
      as [[q b]|]; [|discriminate].
    simpl in H. injection H as <-. simpl. repeat split. now eexists _, _.
  - unfold subscribeChannelCommand in H.
    destruct (address (AdminOptions.channel admin)) as [p|]; [|discriminate].
    simpl in H.
    destruct (deriveSubscriptionPDA findProgramAddressSync p wallet)
      as [[q b]|]; [|discriminate].
    simpl in H. injection H as <-. simpl. repeat split. now eexists _, _.
  - unfold closeThreadCommand in H.
    destruct (address (AdminOptions.thread admin)) as [p|]; [|discriminate].
    simpl in H.
    destruct (refundRecipient (AdminOptions.recipient admin) wallet) as [r|];
      [|discriminate].
    simpl in H. injection H as <-. simpl. repeat split. now eexists _, _.
  - unfold closeChannelCommand in H.
    destruct (address (AdminOptions.channel admin)) as [p|]; [|discriminate].
    simpl in H.
    destruct (refundRecipient (AdminOptions.recipient admin) wallet) as [r|];
      [|discriminate].
    simpl in H. injection H as <-. simpl. repeat split. now eexists _, _.
Qed.

Lemma wallet_is_the_only_signer_witness :
  exists sent,
    closeThreadCommand Ledger.alice
      {| AdminOptions.thread := Options.thread Later.sendFourth;
         AdminOptions.channel := None;
         AdminOptions.recipient := Some Desk.bobAddress;
         AdminOptions.name := "" |} = Return sent /\
    map pubkey (filter isSigner (TransactionInstruction.keys sent)) = [Ledger.alice].
Proof.
  eexists. split; [vm_compute; reflexivity|].
  eapply (wallet_is_the_only_signer Demo.encryptMessage Desk.findProgramAddressSync
            Ledger.newestFirst Ledger.alice [] Later.sendFourth
            {| AdminOptions.thread := Options.thread Later.sendFourth;
               AdminOptions.channel := None;
               AdminOptions.recipient := Some Desk.bobAddress;
               AdminOptions.name := "" |}).
  do 5 right. left. vm_compute. reflexivity.
Defined.
